(** * DAMX daemon (Windows): a shallow embedding of [DAMX-Daemon.py] and
    [PowerSourceDetection.py].

    The daemon is glue over platform interfaces (WMI, [powercfg],
    PowerShell, named pipes, timers).  Those interfaces are the
    environment: every use of one is an event of the free monad [Prog],
    answered by an oracle that sees the history of earlier events.  Python
    control flow (exceptions, early [return], locals that survive an
    exception, [try]/[except]/[finally], [for] with [break]) is the monad
    [M] on top of [Prog]. *)

From Stdlib Require Import ZArith Lia Ascii.
From stdpp Require Import base strings list gmap pretty.

Set Default Proof Using "Type".
Set Warnings "-clear-no-such-hyp".
Local Open Scope string_scope.
Local Open Scope Z_scope.
Local Open Scope list_scope.

(** ** Python values and exceptions *)

(** The values that cross the IPC channel or are read from a WMI property:
    JSON without non-integer numbers.  A [dict] keeps insertion order. *)
#[warnings="-register-all"]
Inductive PyVal : Type :=
| PNone
| PBool (b : bool)
| PInt (z : Z)
| PStr (s : string)
| PList (l : list PyVal)
| PDict (d : list (string * PyVal)).

(** Instances of [Exception]; only the classes that some [except] clause of
    the daemon tells apart have a constructor of their own. *)
Inductive Exn : Type :=
| PywinError (winerror : Z) (msg : string)   (* pywintypes.error *)
| JSONDecodeError (msg : string)
| ImportError (msg : string)
| OtherException (cls msg : string).

(** [str(e)] *)
Definition exn_str (e : Exn) : string :=
  match e with
  | PywinError _ msg | JSONDecodeError msg | ImportError msg
  | OtherException _ msg => msg
  end.

Inductive Result (A : Type) : Type :=
| Ok (a : A)
| Err (e : Exn).
Arguments Ok {A} a.
Arguments Err {A} e.

Definition is_ok {A : Type} (r : Result A) : bool :=
  match r with Ok _ => true | Err _ => false end.

(** ** The platform *)

Definition Conn := nat.      (* a [wmi.WMI(...)] connection *)
Definition Obj := nat.       (* a WMI instance *)
Definition Handle := nat.    (* a named-pipe handle *)
Definition TimerId := nat.   (* a started [threading.Timer] *)
Definition bytes := list Byte.byte.

Inductive Level : Type := DEBUG | INFO | WARNING | ERROR.

(** [subprocess.CompletedProcess] *)
Record Completed : Type := { returncode : Z; stdout : string }.

(** One constructor per kind of interaction with the outside.  The index is
    what the daemon gets back; calls that can raise answer with a
    [Result].  A log line carries its format string and the interpolated
    values. *)
Inductive Call : Type -> Type :=
| Log (lvl : Level) (fmt : string) (args : list PyVal) : Call unit
| FormatExc : Call string
| Print (line : string) : Call unit
| ImportWmi : Call (Result unit)
| WMI (namespace : option string) : Call (Result Conn)
| WmiQuery (c : Conn) (cls : string) (filter : list (string * string))
  : Call (Result (list Obj))
| HasAttr (o : Obj) (attr : string) : Call (Result bool)
| GetAttr (o : Obj) (attr : string) : Call (Result PyVal)
| Invoke (o : Obj) (meth : string) (args : list PyVal) : Call (Result unit)
| SubprocessRun (argv : list string) (check : bool) : Call (Result Completed)
| Sleep (secs : Z) : Call unit
| ReadFile (h : Handle) (n : Z) : Call (Result (Z * bytes))
| WriteFile (h : Handle) (data : bytes) : Call (Result unit)
| CloseHandle (h : Handle) : Call (Result unit)
| TimerNew (interval : Z) : Call TimerId
| TimerStart (t : TimerId) : Call (Result unit)
| TimerCancel (t : TimerId) : Call unit.

Inductive Event : Type :=
| Ev {X : Type} (c : Call X) (x : X).

(** Logging, formatting a traceback for the log and printing to the console
    are not platform calls. *)
Definition is_platform_call (e : Event) : bool :=
  match e with
  | Ev (Log _ _ _) _ | Ev FormatExc _ | Ev (Print _) _ => false
  | _ => true
  end.

Definition platform_calls (t : list Event) : list Event :=
  filter (fun e => is_platform_call e = true) t.

(** ** Programs over the platform *)

Inductive Prog (A : Type) : Type :=
| PRet (a : A)
| Vis {X : Type} (c : Call X) (k : X -> Prog A).
Arguments PRet {A} a.
Arguments Vis {A X} c k.

Fixpoint pbind {A B : Type} (p : Prog A) (f : A -> Prog B) : Prog B :=
  match p with
  | PRet a => f a
  | Vis c k => Vis c (fun x => pbind (k x) f)
  end.

(** The environment answers a call knowing everything that happened
    before it. *)
Definition Oracle : Type := list Event -> forall X : Type, Call X -> X.

(** [run env t p]: the value of [p] and the events it adds, when started
    after history [t]. *)
Fixpoint run {A : Type} (env : Oracle) (t : list Event) (p : Prog A)
  : A * list Event :=
  match p with
  | PRet a => (a, [])
  | Vis c k =>
      let x := env t _ c in
      let '(a, d) := run env (t ++ [Ev c x]) (k x) in
      (a, Ev c x :: d)
  end.

(** ** Python control flow *)

(** How a block ends: normally, by [return], or by a raised exception. *)
Inductive Flow (R A : Type) : Type :=
| Normal (a : A)
| Return (r : R)
| Raise (e : Exn).
Arguments Normal {R A} a.
Arguments Return {R A} r.
Arguments Raise {R A} e.

(** A block of a function body: [S] is the mutable state it sees (locals,
    or the fields of [self]), [R] the function's return type.  The state
    survives an exception, as in Python. *)
Definition M (S R A : Type) : Type := S -> Prog (S * Flow R A).

(** A finished call of a function. *)
Definition Py (A : Type) : Type := Prog (Result A).

Section Monad.
Context {S R : Type}.

Definition ret {A} (a : A) : M S R A := fun s => PRet (s, Normal a).

Definition bind {A B} (m : M S R A) (f : A -> M S R B) : M S R B :=
  fun s => pbind (m s) (fun '(s', fl) =>
    match fl with
    | Normal a => f a s'
    | Return r => PRet (s', Return r)
    | Raise e => PRet (s', Raise e)
    end).

Definition return_ {A} (r : R) : M S R A := fun s => PRet (s, Return r).
Definition raise {A} (e : Exn) : M S R A := fun s => PRet (s, Raise e).
Definition get : M S R S := fun s => PRet (s, Normal s).
Definition put (s : S) : M S R unit := fun _ => PRet (s, Normal tt).

(** A call that cannot raise. *)
Definition perform {X} (c : Call X) : M S R X :=
  fun s => Vis c (fun x => PRet (s, Normal x)).

(** A call that can. *)
Definition attempt {X} (c : Call (Result X)) : M S R X :=
  fun s => Vis c (fun x =>
    PRet (s, match x with Ok v => Normal v | Err e => Raise e end)).

(** Calling a function from inside a block. *)
Definition call {A} (p : Py A) : M S R A :=
  fun s => pbind p (fun x =>
    PRet (s, match x with Ok v => Normal v | Err e => Raise e end)).

(** [try: body except ...: handler e] *)
Definition try_except {A} (body : M S R A) (handler : Exn -> M S R A)
  : M S R A :=
  fun s => pbind (body s) (fun '(s', fl) =>
    match fl with
    | Raise e => handler e s'
    | _ => PRet (s', fl)
    end).

(** [try: body finally: fin] *)
Definition try_finally {A} (body : M S R A) (fin : M S R unit) : M S R A :=
  fun s => pbind (body s) (fun '(s', fl) =>
    pbind (fin s') (fun '(s'', fl') =>
      match fl' with
      | Normal _ => PRet (s'', fl)
      | Return r => PRet (s'', Return r)
      | Raise e => PRet (s'', Raise e)
      end)).
End Monad.

Declare Scope py_scope.
Delimit Scope py_scope with py.
Notation "x <- e ;; k" := (bind e (fun x => k))
  (at level 100, e at next level, right associativity) : py_scope.
Notation "e ;; k" := (bind e (fun _ => k))
  (at level 100, right associativity) : py_scope.
Local Open Scope py_scope.

(** What the body of a loop says about the next iteration. *)
Inductive LoopCtl : Type := Continue | Break.

(** [for x in xs: body x] *)
Fixpoint for_ {S R X : Type} (xs : list X) (body : X -> M S R LoopCtl)
  : M S R unit :=
  match xs with
  | [] => ret tt
  | x :: rest =>
      c <- body x ;;
      match c with
      | Continue => for_ rest body
      | Break => ret tt
      end
  end.

(** [def f(...): body], with the initial value of its locals. *)
Definition def_ {S R : Type} (locals : S) (body : M S R R) : Py R :=
  pbind (body locals) (fun '(_, fl) =>
    PRet (match fl with
          | Normal r | Return r => Ok r
          | Raise e => Err e
          end)).

(** A method that mutates [self]: the fields after the call come back with
    its result, also when it raises. *)
Definition method {S R : Type} (body : M S R R) (self : S)
  : Prog (S * Result R) :=
  pbind (body self) (fun '(s', fl) =>
    PRet (s', match fl with
              | Normal r | Return r => Ok r
              | Raise e => Err e
              end)).

Definition log {S R : Type} (lvl : Level) (fmt : string) (args : list PyVal)
  : M S R unit :=
  perform (Log lvl fmt args).

(** ** Builtins on strings and values *)

(** A [str] is kept as its UTF-8 encoding: a character outside ASCII is
    two to four bytes, none of them below 128. *)
Definition utf8 (codes : list Z) : string :=
  String.string_of_list_ascii ((fun z => ascii_of_N (Z.to_N z)) <$> codes).

(** The rest of [s] after its prefix [p]. *)
Fixpoint drop_prefix (p s : string) : option string :=
  match p, s with
  | EmptyString, _ => Some s
  | String a p', String b s' =>
      if Ascii.eqb a b then drop_prefix p' s' else None
  | String _ _, EmptyString => None
  end.

(** The first key of [table] that starts [s]: its value and the rest of
    [s]. *)
Fixpoint lookup_prefix (table : list (string * string)) (s : string)
  : option (string * string) :=
  match table with
  | [] => None
  | (k, v) :: table' =>
      match drop_prefix k s with
      | Some rest => Some (v, rest)
      | None => lookup_prefix table' s
      end
  end.

Definition lower_ascii (c : ascii) : ascii :=
  let n := nat_of_ascii c in
  if ((65 <=? n) && (n <=? 90))%nat then ascii_of_nat (n + 32) else c.

Definition upper_ascii (c : ascii) : ascii :=
  let n := nat_of_ascii c in
  if ((97 <=? n) && (n <=? 122))%nat then ascii_of_nat (n - 32) else c.

(** The characters outside ASCII whose upper case has an ASCII letter,
    with that upper case: U+00DF, U+0131, U+0149, U+017F, U+01F0, U+1E96 to
    U+1E9A and the ligatures U+FB00 to U+FB06. *)
Definition upper_special : list (string * string) :=
  [ (utf8 [195; 159], "SS");
    (utf8 [196; 177], "I");
    (utf8 [197; 137], utf8 [202; 188; 78]);
    (utf8 [197; 191], "S");
    (utf8 [199; 176], utf8 [74; 204; 140]);
    (utf8 [225; 186; 150], utf8 [72; 204; 177]);
    (utf8 [225; 186; 151], utf8 [84; 204; 136]);
    (utf8 [225; 186; 152], utf8 [87; 204; 138]);
    (utf8 [225; 186; 153], utf8 [89; 204; 138]);
    (utf8 [225; 186; 154], utf8 [65; 202; 190]);
    (utf8 [239; 172; 128], "FF");
    (utf8 [239; 172; 129], "FI");
    (utf8 [239; 172; 130], "FL");
    (utf8 [239; 172; 131], "FFI");
    (utf8 [239; 172; 132], "FFL");
    (utf8 [239; 172; 133], "ST");
    (utf8 [239; 172; 134], "ST") ].

(** Those whose lower case has one: U+0130 and the Kelvin sign U+212A. *)
Definition lower_special : list (string * string) :=
  [ (utf8 [196; 176], utf8 [105; 204; 135]);
    (utf8 [226; 132; 170], "k") ].

(** Change the case of [s], of at most [n] characters: a character of
    [special] becomes its entry, any other byte is mapped by [f]. *)
Fixpoint recase (f : ascii -> ascii) (special : list (string * string))
    (n : nat) (s : string) : string :=
  match n with
  | O => s
  | Datatypes.S n' =>
      match lookup_prefix special s with
      | Some (v, rest) => v +:+ recase f special n' rest
      | None =>
          match s with
          | EmptyString => EmptyString
          | String c rest => String (f c) (recase f special n' rest)
          end
      end
  end.

(** [s.lower()] and [s.upper()], as far as ASCII goes: the ASCII letters
    change case, a character outside ASCII that Python maps to text with an
    ASCII letter is mapped as Python maps it, and every other character
    outside ASCII, which Python maps to characters outside ASCII, is left
    as it is.  The result has the ASCII characters of Python's result
    between the same neighbours, and that is all the daemon looks at: it
    compares the result with ASCII words and searches ASCII words in it. *)
Definition lower (s : string) : string :=
  recase lower_ascii lower_special (String.length s) s.
Definition upper (s : string) : string :=
  recase upper_ascii upper_special (String.length s) s.

(** [needle in hay] on strings *)
Fixpoint contains (needle hay : string) : bool :=
  String.prefix needle hay ||
  match hay with
  | EmptyString => false
  | String _ rest => contains needle rest
  end.

(** [bool(v)] *)
Definition truthy (v : PyVal) : bool :=
  match v with
  | PNone => false
  | PBool b => b
  | PInt z => negb (z =? 0)
  | PStr s => negb (String.eqb s "")
  | PList l => match l with [] => false | _ => true end
  | PDict d => match d with [] => false | _ => true end
  end.

(** The numbers among the values: [bool] is a subclass of [int]. *)
Definition as_num (v : PyVal) : option Z :=
  match v with
  | PBool b => Some (if b then 1 else 0)
  | PInt z => Some z
  | _ => None
  end.

Definition TypeError (msg : string) : Exn := OtherException "TypeError" msg.
Definition AttributeError (msg : string) : Exn :=
  OtherException "AttributeError" msg.
Definition ValueError (msg : string) : Exn := OtherException "ValueError" msg.

(** [type(v).__name__] *)
Definition type_name (v : PyVal) : string :=
  match v with
  | PNone => "NoneType"
  | PBool _ => "bool"
  | PInt _ => "int"
  | PStr _ => "str"
  | PList _ => "list"
  | PDict _ => "dict"
  end.

(** What [v.attr] raises when the type of [v] has no such attribute. *)
Definition no_attribute (v : PyVal) (attr : string) : Exn :=
  AttributeError ("'" +:+ type_name v +:+ "' object has no attribute '"
                  +:+ attr +:+ "'").

(** What a comparison raises between two types that are not ordered. *)
Definition unorderable (op left right : string) : Exn :=
  TypeError ("'" +:+ op +:+ "' not supported between instances of '"
             +:+ left +:+ "' and '" +:+ right +:+ "'").

Section Builtins.
Context {S R : Type}.

(** [lo <= v] and [v <= hi] against an integer literal *)
Definition lit_le (lo : Z) (v : PyVal) : M S R bool :=
  match as_num v with
  | Some z => ret (lo <=? z)
  | None => raise (unorderable "<=" "int" (type_name v))
  end.

Definition le_lit (v : PyVal) (hi : Z) : M S R bool :=
  match as_num v with
  | Some z => ret (z <=? hi)
  | None => raise (unorderable "<=" (type_name v) "int")
  end.

(** [v >= n] *)
Definition ge_lit (v : PyVal) (n : Z) : M S R bool :=
  match as_num v with
  | Some z => ret (n <=? z)
  | None => raise (unorderable ">=" (type_name v) "int")
  end.

(** [v == n], which never raises *)
Definition eq_lit (v : PyVal) (n : Z) : bool :=
  match as_num v with
  | Some z => z =? n
  | None => false
  end.

(** [v == s] *)
Definition eq_str (v : PyVal) (s : string) : bool :=
  match v with
  | PStr s' => String.eqb s' s
  | _ => false
  end.

(** [v.lower()] and [v.upper()] *)
Definition str_lower (v : PyVal) : M S R string :=
  match v with
  | PStr s => ret (lower s)
  | _ => raise (no_attribute v "lower")
  end.

Definition str_upper (v : PyVal) : M S R string :=
  match v with
  | PStr s => ret (upper s)
  | _ => raise (no_attribute v "upper")
  end.

(** [d.get(key, default)] *)
Definition dict_get (d : PyVal) (key : string) (dflt : PyVal)
  : M S R PyVal :=
  match d with
  | PDict kvs =>
      ret (default dflt (snd <$> List.find (fun kv => String.eqb (fst kv) key) kvs))
  | _ => raise (no_attribute d "get")
  end.
End Builtins.

(** ** DAMXManager *)

Inductive LaptopType : Type := UNKNOWN | PREDATOR | NITRO.

(** [LaptopType.X.name] *)
Definition LaptopType_name (t : LaptopType) : string :=
  match t with
  | UNKNOWN => "UNKNOWN"
  | PREDATOR => "PREDATOR"
  | NITRO => "NITRO"
  end.

Definition VERSION : string := "0.4.6".

Record DAMXManager : Type := {
  wmi_connection : option Conn;
  wmi_root : option Conn;
  laptop_type : LaptopType;
  has_four_zone_kb : bool;
  current_modprobe_param : string;
  available_features : gset string
}.

(** [(v or "")] *)
Definition or_empty (v : PyVal) : PyVal := if truthy v then v else PStr "".

Definition _detect_laptop_type (self_wmi_connection : option Conn)
  : Py LaptopType :=
  def_ tt (
    try_except (
      match self_wmi_connection with
      | Some conn =>
          systems <- attempt (WmiQuery conn "Win32_ComputerSystem" []) ;;
          for_ systems (fun system =>
            m <- attempt (GetAttr system "Model") ;;
            model <- str_upper (or_empty m) ;;
            mf <- attempt (GetAttr system "Manufacturer") ;;
            manufacturer <- str_upper (or_empty mf) ;;
            if contains "ACER" manufacturer then
              if contains "PREDATOR" model then return_ PREDATOR
              else if contains "NITRO" model then return_ NITRO
              else ret Continue
            else ret Continue)
      | None => ret tt
      end ;;
      return_ UNKNOWN)
    (fun e =>
      log ERROR "Error detecting laptop type: {}" [PStr (exn_str e)] ;;
      return_ UNKNOWN)).

Definition _check_four_zone_kb (self_wmi_connection : option Conn)
  : Py bool :=
  def_ tt (
    try_except (
      match self_wmi_connection with
      | Some conn =>
          devices <- attempt (WmiQuery conn "Win32_Keyboard" []) ;;
          for_ devices (fun device =>
            n <- attempt (GetAttr device "Name") ;;
            name <- str_lower (or_empty n) ;;
            if contains "acer" name then return_ true else ret Continue)
      | None => ret tt
      end ;;
      return_ false)
    (fun _ => return_ false)).

(** [available.add(f)]: the set under construction is the block's state. *)
Definition add_feature {R} (f : string) : M (gset string) R unit :=
  fun available => PRet ({[f]} ∪ available, Normal tt).

Definition _detect_available_features (self_wmi_connection : option Conn)
    (self_laptop_type : LaptopType) : Py (gset string) :=
  def_ (∅ : gset string) (
    try_except (
      match self_wmi_connection with
      | Some conn =>
          batteries <- attempt (WmiQuery conn "Win32_Battery" []) ;;
          for_ batteries (fun _ =>
            add_feature "battery_calibration" ;;
            add_feature "battery_limiter" ;;
            ret Break) ;;
          try_except (
            _ <- attempt (WMI (Some "root/WMI")) ;;
            add_feature "thermal_profile")
          (fun _ => ret tt)
      | None => ret tt
      end ;;
      add_feature "thermal_profile" ;;
      match self_laptop_type with
      | UNKNOWN => ret tt
      | _ =>
          add_feature "fan_speed" ;;
          add_feature "boot_animation_sound" ;;
          add_feature "backlight_timeout" ;;
          add_feature "lcd_override"
      end)
    (fun e => log ERROR "Error detecting features: {}" [PStr (exn_str e)]) ;;
    available <- get ;;
    return_ available).

(** [DAMXManager.__init__] *)
Definition DAMXManager_init : Py DAMXManager :=
  def_ (None, None) (
    log INFO "** Starting DAMX-Daemon v{} (Windows) **" [PStr VERSION] ;;
    try_except (
      c <- attempt (WMI None) ;;
      st <- get ;; put (Some c, st.2) ;;
      r <- attempt (WMI (Some "root/WMI")) ;;
      st <- get ;; put (st.1, Some r) ;;
      log INFO "WMI connection established" [])
    (fun e =>
      log ERROR "Failed to connect to WMI: {}" [PStr (exn_str e)] ;;
      put (None, None)) ;;
    st <- get ;;
    let conn := st.1 in
    let root := st.2 in
    lt <- call (_detect_laptop_type conn) ;;
    kb <- call (_check_four_zone_kb conn) ;;
    features <- call (_detect_available_features conn lt) ;;
    log INFO "Detected laptop type: {}" [PStr (LaptopType_name lt)] ;;
    log INFO "Four-zone keyboard: {}" [PStr (if kb then "Yes" else "No")] ;;
    log INFO "Available features: {}" [PList (PStr <$> elements features)] ;;
    return_ {| wmi_connection := conn; wmi_root := root; laptop_type := lt;
               has_four_zone_kb := kb; current_modprobe_param := "";
               available_features := features |}).

(** The features that gate a getter or a setter. *)
Definition has (self : DAMXManager) (f : string) : bool :=
  bool_decide (f ∈ available_features self).

(** [a and b] with a right operand that is only evaluated when needed *)
Definition and_ {S R} (a b : M S R bool) : M S R bool :=
  x <- a ;; if x then b else ret false.

(** *** Thermal profile *)

(** Windows power-scheme GUIDs: High Performance, Balanced, Power Saver. *)
Definition scheme_map : gmap string string :=
  list_to_map [
    ("performance", "8c5e7fda-e8bf-4a96-9a85-a6e23a8c635c");
    ("balanced-performance", "8c5e7fda-e8bf-4a96-9a85-a6e23a8c635c");
    ("balanced", "381b4222-f694-41f0-9685-ff5bb260df2e");
    ("quiet", "a1841308-3541-4fab-bc81-f71556f20b4a");
    ("low-power", "a1841308-3541-4fab-bc81-f71556f20b4a")
  ].

(** [scheme_map.get(key, '381b4222-...')] *)
Definition scheme_guid (key : string) : string :=
  default "381b4222-f694-41f0-9685-ff5bb260df2e" (scheme_map !! key).

Definition get_thermal_profile (self : DAMXManager) : Py string :=
  def_ tt (
    if negb (has self "thermal_profile") then return_ "" else
    try_except (
      result <- attempt (SubprocessRun ["powercfg"; "/getactivescheme"] false) ;;
      let output := lower (stdout result) in
      if contains "balanced" output then return_ "balanced"
      else if contains "high performance" output || contains "performance" output
      then return_ "performance"
      else if contains "power saver" output then return_ "low-power"
      else return_ "balanced")
    (fun _ => return_ "balanced")).

Definition set_thermal_profile (self : DAMXManager) (profile : PyVal)
  : Py bool :=
  def_ tt (
    if negb (has self "thermal_profile") then return_ false else
    key <- str_lower profile ;;
    let guid := scheme_guid key in
    try_except (
      _ <- attempt (SubprocessRun ["powercfg"; "/setactive"; guid] true) ;;
      log INFO "Set power scheme to: {}" [profile] ;;
      return_ true)
    (fun e =>
      log ERROR "Failed to set power scheme: {}" [PStr (exn_str e)] ;;
      return_ false)).

(** The five profile names. *)
Definition thermal_profiles : list string :=
  ["low-power"; "quiet"; "balanced"; "balanced-performance"; "performance"].

Definition get_thermal_profile_choices (self : DAMXManager) : list string :=
  if negb (has self "thermal_profile") then [] else thermal_profiles.

(** *** Features without a Windows implementation *)

Definition get_backlight_timeout (self : DAMXManager) : string := "0".
Definition get_battery_calibration (self : DAMXManager) : string := "0".
Definition get_battery_limiter (self : DAMXManager) : string := "0".
Definition get_boot_animation_sound (self : DAMXManager) : string := "0".
Definition get_lcd_override (self : DAMXManager) : string := "0".
Definition get_usb_charging (self : DAMXManager) : string := "0".
Definition get_per_zone_mode (self : DAMXManager) : string := "".
Definition get_four_zone_mode (self : DAMXManager) : string := "".
Definition get_modprobe_parameter (self : DAMXManager) : string := "".

(** A setter that logs one line and returns [False]. *)
Definition unsupported (msg : string) : Py bool :=
  def_ tt (log INFO msg [] ;; return_ false).

Definition set_backlight_timeout (self : DAMXManager) (enabled : PyVal)
  : Py bool :=
  unsupported "Backlight timeout control not supported on Windows".

Definition set_battery_calibration (self : DAMXManager) (enabled : PyVal)
  : Py bool :=
  unsupported
    "Battery calibration control not supported on Windows - use Acer Care Center".

Definition set_battery_limiter (self : DAMXManager) (enabled : PyVal)
  : Py bool :=
  unsupported
    "Battery limiter control not supported on Windows - use Acer Care Center".

Definition set_boot_animation_sound (self : DAMXManager) (enabled : PyVal)
  : Py bool :=
  unsupported "Boot animation sound control not supported on Windows".

Definition set_lcd_override (self : DAMXManager) (enabled : PyVal) : Py bool :=
  unsupported "LCD override control not supported on Windows".

Definition set_usb_charging (self : DAMXManager) (level : PyVal) : Py bool :=
  unsupported "USB charging control not supported on Windows".

Definition set_per_zone_mode (self : DAMXManager)
    (zone1 zone2 zone3 zone4 brightness : PyVal) : Py bool :=
  unsupported
    "Per-zone keyboard control not supported on Windows - use Acer NitroSense/PredatorSense".

Definition set_four_zone_mode (self : DAMXManager)
    (mode speed brightness direction red green blue : PyVal) : Py bool :=
  unsupported
    "Four-zone keyboard control not supported on Windows - use Acer NitroSense/PredatorSense".

Definition set_modprobe_parameter (self : DAMXManager) (param : string)
  : Py bool :=
  unsupported "Modprobe parameters not applicable on Windows".

Definition not_applicable : string :=
  "Force model not applicable on Windows - use Acer NitroSense/PredatorSense software".

Definition _force_model_nitro (self : DAMXManager) : Py bool :=
  unsupported not_applicable.
Definition _force_model_predator (self : DAMXManager) : Py bool :=
  unsupported not_applicable.
Definition _force_enable_all (self : DAMXManager) : Py bool :=
  unsupported
    "Force enable all not applicable on Windows - use Acer NitroSense/PredatorSense software".

Definition _remove_modprobe_parameter (self : DAMXManager) : Py bool :=
  def_ tt (return_ true).

Definition _restart_daemon (self : DAMXManager) : Py bool :=
  def_ tt (
    log INFO "Attempting to restart daemon" [] ;;
    try_except (
      _ <- attempt (SubprocessRun ["sc"; "stop"; "DAMXDaemon"] false) ;;
      perform (Sleep 2) ;;
      _ <- attempt (SubprocessRun ["sc"; "start"; "DAMXDaemon"] true) ;;
      return_ true)
    (fun e =>
      log ERROR "Error restarting daemon: {}" [PStr (exn_str e)] ;;
      return_ false)).

Definition _restart_drivers_and_daemon (self : DAMXManager) : Py bool :=
  def_ tt (
    log INFO "Attempting to restart daemon..." [] ;;
    r <- call (_restart_daemon self) ;;
    return_ r).

Definition get_driver_version (self : DAMXManager) : Py PyVal :=
  def_ tt (
    try_except (
      match wmi_connection self with
      | Some conn =>
          drivers <-
            attempt (WmiQuery conn "Win32_SystemDriver" [("Name", "ACPI")]) ;;
          for_ drivers (fun driver =>
            p <- attempt (GetAttr driver "PathName") ;;
            return_ (if truthy p then p else PStr "ACPI Driver"))
      | None => ret tt
      end ;;
      return_ (PStr "Windows WMI"))
    (fun _ => return_ (PStr "Unknown Version"))).

(** *** Fan speed *)

Definition dq : string := String (ascii_of_nat 34) EmptyString.
Definition nl : string := String (ascii_of_nat 10) EmptyString.

(** The PowerShell script of the third control method. *)
Definition ps_cmd (safe_cpu safe_gpu : Z) : string :=
  nl +:+
  "$namespace = " +:+ dq +:+ "root\WMI" +:+ dq +:+ nl +:+
  "$classes = @(" +:+ dq +:+ "AcerGaming_FanSpeed" +:+ dq +:+ ", " +:+
    dq +:+ "AcerGaming_FanSpeedController" +:+ dq +:+ ", " +:+
    dq +:+ "AcerGaming_CpuFanSpeed" +:+ dq +:+ ", " +:+
    dq +:+ "AcerGaming_GpuFanSpeed" +:+ dq +:+ ")" +:+ nl +:+
  "foreach ($class in $classes) {" +:+ nl +:+
  "    try {" +:+ nl +:+
  "        $obj = Get-CimInstance -Namespace $namespace -ClassName $class -ErrorAction Stop" +:+ nl +:+
  "        if ($obj) {" +:+ nl +:+
  "            $methods = Get-CimClass -Namespace $namespace -ClassName $class" +:+ nl +:+
  "            foreach ($method in $methods.CimClassMethods) {" +:+ nl +:+
  "                if ($method.Name -like " +:+ dq +:+ "*SetSpeed*" +:+ dq +:+
    " -or $method.Name -like " +:+ dq +:+ "*SetFan*" +:+ dq +:+ ") {" +:+ nl +:+
  "                    Invoke-CimMethod -InputObject $obj -MethodName $method.Name -Arguments @{CpuSpeed=" +:+
    pretty safe_cpu +:+ "; GpuSpeed=" +:+ pretty safe_gpu +:+ "}" +:+ nl +:+
  "                    exit 0" +:+ nl +:+
  "                }" +:+ nl +:+
  "            }" +:+ nl +:+
  "        }" +:+ nl +:+
  "    } catch { }" +:+ nl +:+
  "}" +:+ nl +:+
  "exit 1" +:+ nl.

Section Library.
(** Builtins of the Python library used on values read from the
    platform: [int(s)] on a [str] ([None] for [ValueError]) and the
    [str()] of a list or dict. *)
Variable int_of_str : string -> option Z.
Variable repr : PyVal -> string.

(** [int(v)] *)
Definition py_int {S R} (v : PyVal) : M S R Z :=
  match v with
  | PBool b => ret (if b then 1 else 0)
  | PInt z => ret z
  | PStr s =>
      match int_of_str s with
      | Some z => ret z
      | None => raise (ValueError "invalid literal for int()")
      end
  | _ =>
      raise (TypeError
               ("int() argument must be a string, a bytes-like object or a "
                +:+ "real number, not '" +:+ type_name v +:+ "'"))
  end.

(** [str(v)] *)
Definition py_str (v : PyVal) : string :=
  match v with
  | PNone => "None"
  | PBool true => "True"
  | PBool false => "False"
  | PInt z => pretty z
  | PStr s => s
  | _ => repr v
  end.

(** The locals [cpu_fan], [gpu_fan] of [get_fan_speed]. *)
Definition Fans : Type := string * string.

Definition set_cpu_fan {R} (v : string) : M Fans R unit :=
  fun st => PRet ((v, st.2), Normal tt).
Definition set_gpu_fan {R} (v : string) : M Fans R unit :=
  fun st => PRet ((st.1, v), Normal tt).

(** [if cpu_fan != "0" or gpu_fan != "0": return (cpu_fan, gpu_fan)] *)
Definition return_if_nonzero : M Fans Fans unit :=
  st <- get ;;
  if negb (String.eqb st.1 "0") || negb (String.eqb st.2 "0")
  then return_ st else ret tt.

(** The sensor loop of the two hardware-monitor namespaces; [mark1],
    [mark2] are the name fragments of the first and second fan. *)
Definition sensor_loop (namespace mark1 mark2 : string) : M Fans Fans unit :=
  try_except (
    mon <- attempt (WMI (Some namespace)) ;;
    sensors <- attempt (WmiQuery mon "Sensor" []) ;;
    for_ sensors (fun sensor =>
      ty <- attempt (GetAttr sensor "SensorType") ;;
      if eq_str ty "Fan" then
        n <- attempt (GetAttr sensor "Name") ;;
        name <- (if truthy n
                 then n' <- attempt (GetAttr sensor "Name") ;; str_lower n'
                 else ret "") ;;
        v <- attempt (GetAttr sensor "Value") ;;
        value <- (if truthy v
                  then v' <- attempt (GetAttr sensor "Value") ;;
                       z <- py_int v' ;; ret (py_str (PInt z))
                  else ret "0") ;;
        (if contains "cpu" name || contains mark1 name then set_cpu_fan value
         else if contains "gpu" name || contains mark2 name
         then set_gpu_fan value
         else ret tt) ;;
        ret Continue
      else ret Continue))
  (fun _ => ret tt).

Definition get_fan_speed (self : DAMXManager) : Py Fans :=
  def_ ("0", "0") (
    if negb (has self "fan_speed") then return_ ("", "") else
    try_except (
      (* Method 1: Acer Gaming WMI interface *)
      try_except (
        acer_wmi <- attempt (WMI (Some "root/WMI")) ;;
        try_except (
          fans <- attempt (WmiQuery acer_wmi "AcerGaming_FanSpeed" []) ;;
          for_ fans (fun fan =>
            hc <- attempt (HasAttr fan "CpuFanSpeed") ;;
            (if hc then
               v <- attempt (GetAttr fan "CpuFanSpeed") ;;
               set_cpu_fan (py_str v)
             else ret tt) ;;
            hg <- attempt (HasAttr fan "GpuFanSpeed") ;;
            (if hg then
               v <- attempt (GetAttr fan "GpuFanSpeed") ;;
               set_gpu_fan (py_str v)
             else ret tt) ;;
            return_if_nonzero ;;
            ret Continue))
        (fun _ => ret tt) ;;
        try_except (
          fans <- attempt (WmiQuery acer_wmi "AcerGaming_CpuFanSpeed" []) ;;
          for_ fans (fun fan =>
            h <- attempt (HasAttr fan "CurrentSpeed") ;;
            (if h then
               v <- attempt (GetAttr fan "CurrentSpeed") ;;
               set_cpu_fan (py_str v)
             else ret tt) ;;
            ret Continue))
        (fun _ => ret tt) ;;
        try_except (
          fans <- attempt (WmiQuery acer_wmi "AcerGaming_GpuFanSpeed" []) ;;
          for_ fans (fun fan =>
            h <- attempt (HasAttr fan "CurrentSpeed") ;;
            (if h then
               v <- attempt (GetAttr fan "CurrentSpeed") ;;
               set_gpu_fan (py_str v)
             else ret tt) ;;
            ret Continue))
        (fun _ => ret tt) ;;
        return_if_nonzero)
      (fun e => log DEBUG "Acer WMI not available: {}" [PStr (exn_str e)]) ;;
      (* Method 2: Win32_Fan on the root/WMI connection *)
      try_except (
        match wmi_root self with
        | Some root =>
            coolers <- attempt (WmiQuery root "Win32_Fan" []) ;;
            for_ coolers (fun cooling =>
              h <- attempt (HasAttr cooling "DesiredSpeed") ;;
              if h then
                v <- attempt (GetAttr cooling "DesiredSpeed") ;;
                set_cpu_fan (py_str v) ;;
                ret Break
              else ret Continue)
        | None => ret tt
        end)
      (fun _ => ret tt) ;;
      (* Method 3: Open Hardware Monitor *)
      sensor_loop "root/OpenHardwareMonitor" "fan #1" "fan #2" ;;
      (* Method 4: LibreHardwareMonitor *)
      sensor_loop "root/LibreHardwareMonitor" "#1" "#2" ;;
      st <- get ;;
      return_ st)
    (fun e =>
      log ERROR "Error reading fan speed: {}" [PStr (exn_str e)] ;;
      return_ ("0", "0"))).

(** Method 1: the Acer Gaming WMI classes.  Only the controller's
    [SetFanSpeed] ends the call; the per-fan [SetSpeed] calls fall
    through to the later methods. *)
Definition fan_method1 (cpu gpu : PyVal) : M unit bool unit :=
  try_except (
    acer_wmi <- attempt (WMI (Some "root/WMI")) ;;
    try_except (
      controllers <-
        attempt (WmiQuery acer_wmi "AcerGaming_FanSpeedController" []) ;;
      for_ controllers (fun controller =>
        h <- attempt (HasAttr controller "SetFanSpeed") ;;
        if h then
          attempt (Invoke controller "SetFanSpeed" [cpu; gpu]) ;;
          log INFO "Set fan speeds via Acer WMI: CPU={}%, GPU={}%" [cpu; gpu] ;;
          return_ true
        else ret Continue))
    (fun _ => ret tt) ;;
    try_except (
      fans <- attempt (WmiQuery acer_wmi "AcerGaming_CpuFanSpeed" []) ;;
      for_ fans (fun cpu_fan =>
        h <- attempt (HasAttr cpu_fan "SetSpeed") ;;
        (if h then
           attempt (Invoke cpu_fan "SetSpeed" [cpu]) ;;
           log INFO "Set CPU fan speed: {}%" [cpu]
         else ret tt) ;;
        ret Continue))
    (fun _ => ret tt) ;;
    try_except (
      fans <- attempt (WmiQuery acer_wmi "AcerGaming_GpuFanSpeed" []) ;;
      for_ fans (fun gpu_fan =>
        h <- attempt (HasAttr gpu_fan "SetSpeed") ;;
        (if h then
           attempt (Invoke gpu_fan "SetSpeed" [gpu]) ;;
           log INFO "Set GPU fan speed: {}%" [gpu]
         else ret tt) ;;
        ret Continue))
    (fun _ => ret tt))
  (fun e =>
    log DEBUG "Acer WMI set fan speed not available: {}" [PStr (exn_str e)]).

(** Method 2: the ACPI ACMC event class. *)
Definition fan_method2 (cpu gpu : PyVal) : M unit bool unit :=
  try_except (
    acer_wmi <- attempt (WMI (Some "root/WMI")) ;;
    acmcs <- attempt (WmiQuery acer_wmi "AcerACMCEvent" []) ;;
    for_ acmcs (fun acmc =>
      h <- attempt (HasAttr acmc "SetFanManual") ;;
      if h then
        (if eq_lit cpu 0 && eq_lit gpu 0 then
           attempt (Invoke acmc "SetFanManual" [PBool false])
         else
           attempt (Invoke acmc "SetFanManual" [PBool true]) ;;
           attempt (Invoke acmc "SetFanSpeed" [cpu; gpu])) ;;
        return_ true
      else ret Continue))
  (fun _ => ret tt).

(** Method 3: the same classes through PowerShell. *)
Definition fan_method3 (cpu gpu : PyVal) : M unit bool unit :=
  try_except (
    safe_cpu <- py_int cpu ;;
    safe_gpu <- py_int gpu ;;
    result <-
      attempt (SubprocessRun
                 ["powershell"; "-Command"; ps_cmd safe_cpu safe_gpu] false) ;;
    if returncode result =? 0 then
      log INFO "Set fan speeds via PowerShell: CPU={}%, GPU={}%"
        [PInt safe_cpu; PInt safe_gpu] ;;
      return_ true
    else ret tt)
  (fun e => log DEBUG "PowerShell fan control failed: {}" [PStr (exn_str e)]).

(** The workaround through the thermal profile.  The outcome of
    [set_thermal_profile] is not looked at. *)
Definition fan_fallback (self : DAMXManager) (cpu gpu : PyVal)
  : M unit bool bool :=
  log WARNING "Direct fan control not available on this system" [] ;;
  log INFO "Tip: Install Acer PredatorSense/NitroSense for full fan control" [] ;;
  log INFO "Alternative: Use 'performance' thermal profile for higher fan speeds" [] ;;
  (if has self "thermal_profile" then
     high <- and_ (ge_lit cpu 80) (ge_lit gpu 80) ;;
     if high then
       _ <- call (set_thermal_profile self (PStr "performance")) ;;
       log INFO "Applied 'performance' thermal profile for higher fan speeds" [] ;;
       return_ true
     else if eq_lit cpu 0 && eq_lit gpu 0 then
       _ <- call (set_thermal_profile self (PStr "balanced")) ;;
       log INFO "Applied 'balanced' thermal profile for auto fan control" [] ;;
       return_ true
     else ret tt
   else ret tt) ;;
  return_ false.

(** [0 <= cpu <= 100 and 0 <= gpu <= 100] *)
Definition valid_speeds {S R} (cpu gpu : PyVal) : M S R bool :=
  and_ (and_ (lit_le 0 cpu) (le_lit cpu 100))
       (and_ (lit_le 0 gpu) (le_lit gpu 100)).

Definition set_fan_speed (self : DAMXManager) (cpu gpu : PyVal) : Py bool :=
  def_ tt (
    if negb (has self "fan_speed") then return_ false else
    valid <- valid_speeds cpu gpu ;;
    if negb valid then
      log ERROR
        "Invalid fan speeds. Values must be between 0 and 100: cpu={}, gpu={}"
        [cpu; gpu] ;;
      return_ false
    else
    try_except (
      fan_method1 cpu gpu ;;
      fan_method2 cpu gpu ;;
      fan_method3 cpu gpu ;;
      fan_fallback self cpu gpu)
    (fun e =>
      log ERROR "Error setting fan speed: {}" [PStr (exn_str e)] ;;
      return_ false)).

(** *** All settings *)

(** [settings[key] = value] on the dict under construction. *)
Fixpoint dict_set (d : list (string * PyVal)) (key : string) (v : PyVal)
  : list (string * PyVal) :=
  match d with
  | [] => [(key, v)]
  | (k, w) :: rest =>
      if String.eqb k key then (k, v) :: rest
      else (k, w) :: dict_set rest key v
  end.

Definition setitem {R} (key : string) (v : PyVal)
  : M (list (string * PyVal)) R unit :=
  fun settings => PRet (dict_set settings key v, Normal tt).

Definition features_list (self : DAMXManager) : PyVal :=
  PList (PStr <$> elements (available_features self)).

Definition get_all_settings (self : DAMXManager) : Py PyVal :=
  def_ [] (
    driver_version <- call (get_driver_version self) ;;
    put [ ("laptop_type", PStr (LaptopType_name (laptop_type self)));
          ("has_four_zone_kb", PBool (has_four_zone_kb self));
          ("available_features", features_list self);
          ("version", PStr VERSION);
          ("driver_version", driver_version);
          ("modprobe_parameter", PStr (current_modprobe_param self)) ] ;;
    (if has self "thermal_profile" then
       current <- call (get_thermal_profile self) ;;
       setitem "thermal_profile"
         (PDict [ ("current", PStr current);
                  ("available",
                   PList (PStr <$> get_thermal_profile_choices self)) ])
     else
       setitem "thermal_profile"
         (PDict [ ("current", PStr ""); ("available", PList []) ])) ;;
    (if has self "backlight_timeout"
     then setitem "backlight_timeout" (PStr (get_backlight_timeout self))
     else ret tt) ;;
    (if has self "battery_calibration"
     then setitem "battery_calibration" (PStr (get_battery_calibration self))
     else ret tt) ;;
    (if has self "battery_limiter"
     then setitem "battery_limiter" (PStr (get_battery_limiter self))
     else ret tt) ;;
    (if has self "boot_animation_sound"
     then setitem "boot_animation_sound" (PStr (get_boot_animation_sound self))
     else ret tt) ;;
    (if has self "fan_speed" then
       fans <- call (get_fan_speed self) ;;
       setitem "fan_speed"
         (PDict [ ("cpu", PStr fans.1); ("gpu", PStr fans.2) ])
     else ret tt) ;;
    (if has self "lcd_override"
     then setitem "lcd_override" (PStr (get_lcd_override self))
     else ret tt) ;;
    (if has self "usb_charging"
     then setitem "usb_charging" (PStr (get_usb_charging self))
     else ret tt) ;;
    (if has self "per_zone_mode"
     then setitem "per_zone_mode" (PStr (get_per_zone_mode self))
     else ret tt) ;;
    (if has self "four_zone_mode"
     then setitem "four_zone_mode" (PStr (get_four_zone_mode self))
     else ret tt) ;;
    settings <- get ;;
    return_ (PDict settings)).

(** ** DaemonServer *)

Definition not_supported (what : string) : PyVal :=
  PDict [ ("success", PBool false);
          ("error", PStr (what +:+ " is not supported on this device")) ].

(** [{"success": success, "data": data if success else None,
      "error": err if not success else None}] *)
Definition outcome (key : string) (success : bool) (data : PyVal)
    (err : string) : PyVal :=
  PDict [ ("success", PBool success);
          (key, if success then data else PNone);
          ("error", if negb success then PStr err else PNone) ].

(** [{"success": True, "message": msg}] or [{"success": False, "error": err}] *)
Definition verdict (success : bool) (msg err : string) : PyVal :=
  if success
  then PDict [ ("success", PBool true); ("message", PStr msg) ]
  else PDict [ ("success", PBool false); ("error", PStr err) ].

(** A setter with one parameter, behind its availability check. *)
Definition one_param {S} (manager : DAMXManager) (feature what key : string)
    (dflt : PyVal) (setter : PyVal -> Py bool) (err : string)
    (params : PyVal) : M S PyVal PyVal :=
  if negb (has manager feature) then return_ (not_supported what) else
  v <- dict_get params key dflt ;;
  success <- call (setter v) ;;
  return_ (outcome "data" success (PDict [(key, v)]) err).

Definition process_command (manager : DAMXManager) (command params : PyVal)
  : Py PyVal :=
  def_ tt (
    log INFO "Processing command: {} with params: {}" [command; params] ;;
    try_except (
      if eq_str command "get_all_settings" then
        settings <- call (get_all_settings manager) ;;
        return_ (PDict [ ("success", PBool true); ("data", settings) ])
      else if eq_str command "get_thermal_profile" then
        if negb (has manager "thermal_profile")
        then return_ (not_supported "Thermal profile") else
        profile <- call (get_thermal_profile manager) ;;
        let choices := get_thermal_profile_choices manager in
        return_ (PDict [ ("success", PBool true);
                         ("data", PDict [ ("current", PStr profile);
                                          ("available", PList (PStr <$> choices)) ]) ])
      else if eq_str command "set_thermal_profile" then
        one_param manager "thermal_profile" "Thermal profile" "profile"
          (PStr "") (set_thermal_profile manager)
          "Failed to set thermal profile" params
      else if eq_str command "set_backlight_timeout" then
        one_param manager "backlight_timeout" "Backlight timeout" "enabled"
          (PBool false) (set_backlight_timeout manager)
          "Failed to set backlight timeout" params
      else if eq_str command "set_battery_calibration" then
        one_param manager "battery_calibration" "Battery calibration" "enabled"
          (PBool false) (set_battery_calibration manager)
          "Failed to set battery calibration" params
      else if eq_str command "set_battery_limiter" then
        one_param manager "battery_limiter" "Battery limiter" "enabled"
          (PBool false) (set_battery_limiter manager)
          "Failed to set battery limiter" params
      else if eq_str command "set_boot_animation_sound" then
        one_param manager "boot_animation_sound" "Boot animation sound"
          "enabled" (PBool false) (set_boot_animation_sound manager)
          "Failed to set boot animation sound" params
      else if eq_str command "set_fan_speed" then
        if negb (has manager "fan_speed")
        then return_ (not_supported "Fan speed control") else
        cpu <- dict_get params "cpu" (PInt 0) ;;
        gpu <- dict_get params "gpu" (PInt 0) ;;
        success <- call (set_fan_speed manager cpu gpu) ;;
        return_ (outcome "data" success
                   (PDict [ ("cpu", cpu); ("gpu", gpu) ])
                   "Failed to set fan speed")
      else if eq_str command "set_lcd_override" then
        one_param manager "lcd_override" "LCD override" "enabled"
          (PBool false) (set_lcd_override manager)
          "Failed to set LCD override" params
      else if eq_str command "set_usb_charging" then
        one_param manager "usb_charging" "USB charging control" "level"
          (PInt 0) (set_usb_charging manager)
          "Failed to set USB charging" params
      else if eq_str command "set_per_zone_mode" then
        if negb (has manager "per_zone_mode")
        then return_ (not_supported "Per-zone keyboard mode") else
        zone1 <- dict_get params "zone1" (PStr "000000") ;;
        zone2 <- dict_get params "zone2" (PStr "000000") ;;
        zone3 <- dict_get params "zone3" (PStr "000000") ;;
        zone4 <- dict_get params "zone4" (PStr "000000") ;;
        brightness <- dict_get params "brightness" (PInt 100) ;;
        success <-
          call (set_per_zone_mode manager zone1 zone2 zone3 zone4 brightness) ;;
        return_ (outcome "data" success
                   (PDict [ ("zone1", zone1); ("zone2", zone2);
                            ("zone3", zone3); ("zone4", zone4);
                            ("brightness", brightness) ])
                   "Failed to set per-zone mode")
      else if eq_str command "set_four_zone_mode" then
        if negb (has manager "four_zone_mode")
        then return_ (not_supported "Four-zone keyboard mode") else
        mode <- dict_get params "mode" (PInt 0) ;;
        speed <- dict_get params "speed" (PInt 0) ;;
        brightness <- dict_get params "brightness" (PInt 100) ;;
        direction <- dict_get params "direction" (PInt 1) ;;
        red <- dict_get params "red" (PInt 0) ;;
        green <- dict_get params "green" (PInt 0) ;;
        blue <- dict_get params "blue" (PInt 0) ;;
        success <-
          call (set_four_zone_mode manager mode speed brightness direction
                  red green blue) ;;
        return_ (outcome "data" success
                   (PDict [ ("mode", mode); ("speed", speed);
                            ("brightness", brightness);
                            ("direction", direction); ("red", red);
                            ("green", green); ("blue", blue) ])
                   "Failed to set four-zone mode")
      else if eq_str command "get_supported_features" then
        return_ (PDict [ ("success", PBool true);
                         ("data", PDict [
                            ("available_features", features_list manager);
                            ("laptop_type",
                             PStr (LaptopType_name (laptop_type manager)));
                            ("has_four_zone_kb",
                             PBool (has_four_zone_kb manager)) ]) ])
      else if eq_str command "get_version" then
        return_ (PDict [ ("success", PBool true);
                         ("data", PDict [ ("version", PStr VERSION) ]) ])
      else if eq_str command "force_nitro_model" then
        success <- call (_force_model_nitro manager) ;;
        return_ (verdict success
                   "Successfully forced Nitro model into driver"
                   "Failed to force Nitro model into driver")
      else if eq_str command "force_predator_model" then
        success <- call (_force_model_predator manager) ;;
        return_ (verdict success
                   "Successfully forced Predator model into driver"
                   "Failed to force Predator model into driver (Model may not support it)")
      else if eq_str command "force_enable_all" then
        success <- call (_force_enable_all manager) ;;
        return_ (verdict success
                   "Successfully forced all features into driver"
                   "Failed to force all features into driver (Model may not support it)")
      else if eq_str command "get_modprobe_parameter" then
        perform (Print (get_modprobe_parameter manager)) ;;
        return_ (PDict [ ("success", PBool true);
                         ("data", PDict [
                            ("parameter",
                             PStr (get_modprobe_parameter manager)) ]) ])
      else if eq_str command "set_modprobe_parameter_nitro" then
        success <- call (set_modprobe_parameter manager "nitro_v4") ;;
        (* [param] is not bound on this path *)
        (if success
         then raise (OtherException "UnboundLocalError"
                       ("cannot access local variable 'param' where it is "
                        +:+ "not associated with a value"))
         else ret tt) ;;
        return_ (outcome "data" success PNone
                   "Failed to set modprobe parameter")
      else if eq_str command "set_modprobe_parameter_predator" then
        param <- dict_get params "parameter" (PStr "") ;;
        success <- call (set_modprobe_parameter manager "predator_v4") ;;
        return_ (outcome "data" success (PDict [ ("parameter", param) ])
                   "Failed to set modprobe parameter")
      else if eq_str command "set_modprobe_parameter_enable_all" then
        param <- dict_get params "parameter" (PStr "") ;;
        success <- call (set_modprobe_parameter manager "enable_all") ;;
        return_ (outcome "data" success (PDict [ ("parameter", param) ])
                   "Failed to set modprobe parameter")
      else if eq_str command "remove_modprobe_parameter" then
        success <- call (_remove_modprobe_parameter manager) ;;
        return_ (outcome "message" success
                   (PStr "Successfully removed modprobe parameter")
                   "Failed to remove modprobe parameter")
      else if eq_str command "restart_daemon" then
        success <- call (_restart_daemon manager) ;;
        return_ (verdict success
                   "Successfully restarted DAMX daemon"
                   "Failed to Restart DAMX daemon (Check logs for details)")
      else if eq_str command "restart_drivers_and_daemon" then
        success <- call (_restart_drivers_and_daemon manager) ;;
        return_ (verdict success
                   "Successfully restarted drivers and daemon"
                   "Failed to restart drivers and daemon")
      else
        return_ (PDict [ ("success", PBool false);
                         ("error",
                          PStr ("Unknown command: " +:+ py_str command)) ]))
    (fun e =>
      log ERROR "Error processing command {}: {}" [command; PStr (exn_str e)] ;;
      tb <- perform FormatExc ;;
      log ERROR "{}" [PStr tb] ;;
      return_ (PDict [ ("success", PBool false);
                       ("error", PStr (exn_str e)) ]))).

(** The command names of the dispatch chain, in its order. *)
Definition commands : list string :=
  [ "get_all_settings"; "get_thermal_profile"; "set_thermal_profile";
    "set_backlight_timeout"; "set_battery_calibration";
    "set_battery_limiter"; "set_boot_animation_sound"; "set_fan_speed";
    "set_lcd_override"; "set_usb_charging"; "set_per_zone_mode";
    "set_four_zone_mode"; "get_supported_features"; "get_version";
    "force_nitro_model"; "force_predator_model"; "force_enable_all";
    "get_modprobe_parameter"; "set_modprobe_parameter_nitro";
    "set_modprobe_parameter_predator"; "set_modprobe_parameter_enable_all";
    "remove_modprobe_parameter"; "restart_daemon";
    "restart_drivers_and_daemon" ].

(** Framing and the JSON codec.  [json.loads], [json.dumps] and
    [bytes.decode('utf-8')] belong to the Python library; a call of
    [json.loads] or of [decode] gives its value or the exception it raises
    ([JSONDecodeError] on text that is not JSON, [RecursionError] on text
    nested too deep, [UnicodeDecodeError] on bytes that are not UTF-8). *)
Variable json_loads : string -> Result PyVal.
Variable json_dumps : PyVal -> string.
Variable decode_utf8 : bytes -> Result string.

(** The value of a library call, or its exception raised. *)
Definition of_result {S R A} (r : Result A) : M S R A :=
  match r with
  | Ok a => ret a
  | Err e => raise e
  end.

(** [s.encode('utf-8')]: strings are byte strings here. *)
Definition encode_utf8 (s : string) : bytes := String.list_byte_of_string s.

(** [int.from_bytes(data, byteorder='little')] *)
Fixpoint from_bytes_little (data : bytes) : Z :=
  match data with
  | [] => 0
  | b :: rest => Z.of_N (Byte.to_N b) + 256 * from_bytes_little rest
  end.

Definition byte_of_Z (z : Z) : Byte.byte :=
  default Byte.x00 (Byte.of_N (Z.to_N (z mod 256))).

(** The four bytes of [n], least significant first. *)
Definition le4 (n : Z) : bytes :=
  [ byte_of_Z n; byte_of_Z (n / 2 ^ 8);
    byte_of_Z (n / 2 ^ 16); byte_of_Z (n / 2 ^ 24) ].

(** [n.to_bytes(4, byteorder='little')] *)
Definition to_bytes4 {S R} (n : Z) : M S R bytes :=
  if (0 <=? n) && (n <? 2 ^ 32) then ret (le4 n)
  else raise (OtherException "OverflowError" "int too big to convert").

(** [json.dumps(response).encode('utf-8')] behind its length prefix *)
Definition frame {S R} (response : PyVal) : M S R bytes :=
  let response_data := encode_utf8 (json_dumps response) in
  response_length <- to_bytes4 (Z.of_nat (length response_data)) ;;
  ret (response_length ++ response_data).

(** The frame of a response that fits: four bytes of length, then the
    payload. *)
Definition framed (response : PyVal) : bytes :=
  let payload := encode_utf8 (json_dumps response) in
  le4 (Z.of_nat (length payload)) ++ payload.

Record DaemonServer : Type := {
  manager : DAMXManager;
  running : bool;
  clients : list Handle
}.

(** [break] inside the body of a loop *)
Definition break_ {S A} : M S LoopCtl A := return_ Break.

(** The body of a loop, as the loop sees it. *)
Definition loop_body {S R} (body : M S LoopCtl LoopCtl) : M S R LoopCtl :=
  fun s => pbind (body s) (fun '(s', fl) =>
    PRet (s', match fl with
              | Normal c | Return c => Normal c
              | Raise e => Raise e
              end)).

(** [while cond: body], for at most [fuel] iterations; when the fuel is
    used up the loop is left as by [break]. *)
Fixpoint while_ {S R} (fuel : nat) (cond : M S R bool)
    (body : M S R LoopCtl) : M S R unit :=
  match fuel with
  | O => ret tt
  | Datatypes.S n =>
      c <- cond ;;
      if c then
        ctl <- body ;;
        match ctl with
        | Continue => while_ n cond body
        | Break => ret tt
        end
      else ret tt
  end.

(** One iteration of the loop of [handle_client]: read a request, answer
    it. *)
Definition serve_request (pipe_handle : Handle)
  : M DaemonServer LoopCtl LoopCtl :=
  try_except (
    r <- attempt (ReadFile pipe_handle 4) ;;
    let result := r.1 in
    let length_data := r.2 in
    if negb (result =? 0) || (length length_data <? 4)%nat then break_ else
    let msg_length := from_bytes_little length_data in
    r <- attempt (ReadFile pipe_handle msg_length) ;;
    let result := r.1 in
    let data := r.2 in
    if negb (result =? 0) then break_ else
    text <- of_result (decode_utf8 data) ;;
    request <- of_result (json_loads text) ;;
    command <- dict_get request "command" (PStr "") ;;
    params <- dict_get request "params" (PDict []) ;;
    self <- get ;;
    response <- call (process_command (manager self) command params) ;;
    out <- frame response ;;
    attempt (WriteFile pipe_handle out) ;;
    ret Continue)
  (fun e =>
    match e with
    | PywinError winerror _ =>
        if winerror =? 109 then break_ else
        log ERROR "Pipe error: {}" [PStr (exn_str e)] ;;
        break_
    | JSONDecodeError _ =>
        log ERROR "Invalid JSON received" [] ;;
        out <- frame (PDict [ ("success", PBool false);
                              ("error", PStr "Invalid JSON format") ]) ;;
        attempt (WriteFile pipe_handle out) ;;
        ret Continue
    | _ =>
        log ERROR "Error processing request: {}" [PStr (exn_str e)] ;;
        tb <- perform FormatExc ;;
        log ERROR "{}" [PStr tb] ;;
        out <- frame (PDict [ ("success", PBool false);
                              ("error", PStr (exn_str e)) ]) ;;
        try_except (attempt (WriteFile pipe_handle out)) (fun _ => ret tt) ;;
        ret Continue
    end).

Definition handle_client (fuel : nat) (pipe_handle : Handle)
  : M DaemonServer unit unit :=
  try_finally (
    try_except (
      while_ fuel (self <- get ;; ret (running self))
        (loop_body (serve_request pipe_handle)))
    (fun e =>
      self <- get ;;
      if running self
      then log ERROR "Client connection error: {}" [PStr (exn_str e)]
      else ret tt))
  (try_except (attempt (CloseHandle pipe_handle)) (fun _ => ret tt)).
End Library.

(** [DaemonServer.stop] *)
Definition stop : M DaemonServer unit unit :=
  log INFO "Stopping server..." [] ;;
  self <- get ;;
  put {| manager := manager self; running := false;
         clients := clients self |} ;;
  for_ (clients self) (fun pipe_handle =>
    try_except (attempt (CloseHandle pipe_handle)) (fun _ => ret tt) ;;
    ret Continue).

(** ** PowerSourceDetector *)

(** The white space of [str.strip()]: the characters for which
    [str.isspace()] holds, U+0009 to U+000D, U+001C to U+0020, U+0085,
    U+00A0, U+1680, U+2000 to U+200A, U+2028, U+2029, U+202F, U+205F and
    U+3000. *)
Definition whitespace : list string :=
  [ utf8 [9]; utf8 [10]; utf8 [11]; utf8 [12]; utf8 [13];
    utf8 [28]; utf8 [29]; utf8 [30]; utf8 [31]; utf8 [32];
    utf8 [194; 133]; utf8 [194; 160]; utf8 [225; 154; 128];
    utf8 [226; 128; 128]; utf8 [226; 128; 129]; utf8 [226; 128; 130];
    utf8 [226; 128; 131]; utf8 [226; 128; 132]; utf8 [226; 128; 133];
    utf8 [226; 128; 134]; utf8 [226; 128; 135]; utf8 [226; 128; 136];
    utf8 [226; 128; 137]; utf8 [226; 128; 138]; utf8 [226; 128; 168];
    utf8 [226; 128; 169]; utf8 [226; 128; 175]; utf8 [226; 129; 159];
    utf8 [227; 128; 128] ].

(** [s] without the characters of [spaces] it starts with; [s] has at most
    [n] characters. *)
Fixpoint strip_front (spaces : list string) (n : nat) (s : string) : string :=
  match n with
  | O => s
  | Datatypes.S n' =>
      match lookup_prefix ((fun w => (w, EmptyString)) <$> spaces) s with
      | Some (_, rest) => strip_front spaces n' rest
      | None => s
      end
  end.

Definition reverse (s : string) : string :=
  String.string_of_list_ascii (rev (String.list_ascii_of_string s)).

(** [s.lstrip()], [s.rstrip()] and [s.strip()] *)
Definition lstrip (s : string) : string :=
  strip_front whitespace (String.length s) s.

Definition rstrip (s : string) : string :=
  reverse (strip_front (reverse <$> whitespace) (String.length s) (reverse s)).

Definition strip (s : string) : string := rstrip (lstrip s).

(** What the detector asks of the manager it is given. *)
Class ManagerLike (T : Type) : Type := {
  (** [None]: the object has no attribute [available_features] *)
  mgr_available_features : T -> option (gset string);
  mgr_get_thermal_profile : T -> Py string;
  mgr_get_thermal_profile_choices : T -> Py (list string);
  mgr_set_thermal_profile : T -> string -> Py bool
}.

#[export] Instance DAMXManager_ManagerLike : ManagerLike DAMXManager := {
  mgr_available_features self := Some (available_features self);
  mgr_get_thermal_profile self := get_thermal_profile self;
  mgr_get_thermal_profile_choices self :=
    PRet (Ok (get_thermal_profile_choices self));
  mgr_set_thermal_profile self profile :=
    set_thermal_profile self (PStr profile)
}.

(** The mutable fields of the detector. *)
Record PowerSourceDetector : Type := {
  current_source : option bool;
  check_interval : Z;
  timer : option TimerId
}.

(** [PowerSourceDetector.__init__] *)
Definition PowerSourceDetector_init : Prog PowerSourceDetector :=
  Vis (Log INFO "PowerSourceDetector initialized (Windows)" []) (fun _ =>
    PRet {| current_source := None; check_interval := 5; timer := None |}).

Definition _check_using_powershell : Py bool :=
  def_ tt (
    try_except (
      result <-
        attempt (SubprocessRun
                   ["powershell"; "-Command";
                    "(Get-WmiObject Win32_Battery).BatteryStatus"] true) ;;
      let status := strip (stdout result) in
      return_ (negb (String.eqb status "1")))
    (fun e =>
      log ERROR "PowerShell check failed: {}" [PStr (exn_str e)] ;;
      return_ false)).

Definition _is_ac_connected : Py bool :=
  def_ tt (
    try_except (
      attempt ImportWmi ;;
      c <- attempt (WMI None) ;;
      batteries <- attempt (WmiQuery c "Win32_Battery" []) ;;
      for_ batteries (fun battery =>
        status <- attempt (GetAttr battery "BatteryStatus") ;;
        if truthy status && negb (eq_lit status 1)
        then return_ true
        else return_ false) ;;
      return_ true)
    (fun e =>
      match e with
      | ImportError _ => r <- call _check_using_powershell ;; return_ r
      | _ =>
          log ERROR "Error checking power status: {}" [PStr (exn_str e)] ;;
          return_ false
      end)).

Section Detector.
Context {T : Type} `{ManagerLike T}.
Variable the_manager : T.

Definition battery_friendly : list string := ["balanced"; "quiet"; "low-power"].

Definition _handle_power_change (is_plugged_in : bool) : Py unit :=
  def_ tt (
    match mgr_available_features the_manager with
    | None => return_ tt
    | Some features =>
        if negb (bool_decide ("thermal_profile" ∈ features))
        then return_ tt else
        current_profile <- call (mgr_get_thermal_profile the_manager) ;;
        available_profiles <-
          call (mgr_get_thermal_profile_choices the_manager) ;;
        if is_plugged_in then
          log INFO "Switched to AC power" [] ;;
          return_ tt
        else
          log INFO "Switched to battery power" [] ;;
          if negb (bool_decide (current_profile ∈ battery_friendly)) then
            if bool_decide ("balanced" ∈ available_profiles) then
              log INFO "Auto-switching to balanced mode for battery power" [] ;;
              _ <- call (mgr_set_thermal_profile the_manager "balanced") ;;
              return_ tt
            else if bool_decide ("quiet" ∈ available_profiles) then
              log INFO "Auto-switching to quiet mode for battery power" [] ;;
              _ <- call (mgr_set_thermal_profile the_manager "quiet") ;;
              return_ tt
            else if bool_decide ("low-power" ∈ available_profiles) then
              log INFO "Auto-switching to low-power mode for battery power" [] ;;
              _ <- call (mgr_set_thermal_profile the_manager "low-power") ;;
              return_ tt
            else
              log WARNING "No battery-friendly thermal profile available" [] ;;
              return_ tt
          else return_ tt
    end).

(** [is_plugged_in != self.current_source] *)
Definition differs (is_plugged_in : bool) (source : option bool) : bool :=
  match source with
  | Some b => negb (Bool.eqb is_plugged_in b)
  | None => true
  end.

(** The last three lines of [check_power_source]: schedule the next
    check. *)
Definition schedule_next : M PowerSourceDetector unit unit :=
  self <- get ;;
  t <- perform (TimerNew (check_interval self)) ;;
  put {| current_source := current_source self;
         check_interval := check_interval self;
         timer := Some t |} ;;
  attempt (TimerStart t).

(** [self.current_source = is_plugged_in] *)
Definition observe (is_plugged_in : bool) (self : PowerSourceDetector)
  : PowerSourceDetector :=
  {| current_source := Some is_plugged_in;
     check_interval := check_interval self;
     timer := timer self |}.

Definition check_power_source : M PowerSourceDetector unit unit :=
  is_plugged_in <- call _is_ac_connected ;;
  self <- get ;;
  (if differs is_plugged_in (current_source self) then
     put (observe is_plugged_in self) ;;
     call (_handle_power_change is_plugged_in)
   else ret tt) ;;
  schedule_next.

Definition start_monitoring : M PowerSourceDetector unit unit :=
  check_power_source ;;
  log INFO "Monitoring power source started" [].

Definition stop_monitoring : M PowerSourceDetector unit unit :=
  self <- get ;;
  match timer self with
  | Some t => perform (TimerCancel t)
  | None => ret tt
  end.

(** The poll as the specification words it: the handler is fired first
    and the last observed state is updated only afterwards. *)
Definition spec_check_power_source : M PowerSourceDetector unit unit :=
  is_plugged_in <- call _is_ac_connected ;;
  self <- get ;;
  (if bool_decide (current_source self = Some is_plugged_in) then ret tt
   else
     call (_handle_power_change is_plugged_in) ;;
     put {| current_source := Some is_plugged_in;
            check_interval := check_interval self;
            timer := timer self |}) ;;
  schedule_next.

(** The first battery-friendly profile that is on offer, as the
    specification words it. *)
Definition spec_first_friendly (available_profiles : list string)
  : option string :=
  List.find (fun p => bool_decide (p ∈ available_profiles)) battery_friendly.
End Detector.

(** ** Vocabulary of the statements *)

Definition balanced_guid : string := "381b4222-f694-41f0-9685-ff5bb260df2e".
Definition performance_guid : string := "8c5e7fda-e8bf-4a96-9a85-a6e23a8c635c".

(** [powercfg /setactive guid] *)
Definition activate (guid : string) : Call (Result Completed) :=
  SubprocessRun ["powercfg"; "/setactive"; guid] true.

(** The setters of the manager, one constructor per [set_F], with the
    feature name that gates [F]. *)
Inductive Setter : Type :=
| Set_thermal_profile (profile : PyVal)
| Set_backlight_timeout (enabled : PyVal)
| Set_battery_calibration (enabled : PyVal)
| Set_battery_limiter (enabled : PyVal)
| Set_boot_animation_sound (enabled : PyVal)
| Set_fan_speed (cpu gpu : PyVal)
| Set_lcd_override (enabled : PyVal)
| Set_usb_charging (level : PyVal)
| Set_per_zone_mode (zone1 zone2 zone3 zone4 brightness : PyVal)
| Set_four_zone_mode (mode speed brightness direction red green blue : PyVal).

Definition setter_feature (s : Setter) : string :=
  match s with
  | Set_thermal_profile _ => "thermal_profile"
  | Set_backlight_timeout _ => "backlight_timeout"
  | Set_battery_calibration _ => "battery_calibration"
  | Set_battery_limiter _ => "battery_limiter"
  | Set_boot_animation_sound _ => "boot_animation_sound"
  | Set_fan_speed _ _ => "fan_speed"
  | Set_lcd_override _ => "lcd_override"
  | Set_usb_charging _ => "usb_charging"
  | Set_per_zone_mode _ _ _ _ _ => "per_zone_mode"
  | Set_four_zone_mode _ _ _ _ _ _ _ => "four_zone_mode"
  end.

Definition call_setter (int_of_str : string -> option Z) (self : DAMXManager)
    (s : Setter) : Py bool :=
  match s with
  | Set_thermal_profile profile => set_thermal_profile self profile
  | Set_backlight_timeout enabled => set_backlight_timeout self enabled
  | Set_battery_calibration enabled => set_battery_calibration self enabled
  | Set_battery_limiter enabled => set_battery_limiter self enabled
  | Set_boot_animation_sound enabled => set_boot_animation_sound self enabled
  | Set_fan_speed cpu gpu => set_fan_speed int_of_str self cpu gpu
  | Set_lcd_override enabled => set_lcd_override self enabled
  | Set_usb_charging level => set_usb_charging self level
  | Set_per_zone_mode zone1 zone2 zone3 zone4 brightness =>
      set_per_zone_mode self zone1 zone2 zone3 zone4 brightness
  | Set_four_zone_mode mode speed brightness direction red green blue =>
      set_four_zone_mode self mode speed brightness direction red green blue
  end.

(** ** Platforms to run on *)

(** A machine on which every call that can fail does fail with [e]. *)
Definition failing (e : Exn) : Oracle :=
  fun _ X c =>
    match c in Call X return X with
    | Log _ _ _ => tt
    | FormatExc => "Traceback"
    | Print _ => tt
    | ImportWmi => Err e
    | WMI _ => Err e
    | WmiQuery _ _ _ => Err e
    | HasAttr _ _ => Err e
    | GetAttr _ _ => Err e
    | Invoke _ _ _ => Err e
    | SubprocessRun _ _ => Err e
    | Sleep _ => tt
    | ReadFile _ _ => Err e
    | WriteFile _ _ => Err e
    | CloseHandle _ => Err e
    | TimerNew _ => 0%nat
    | TimerStart _ => Err e
    | TimerCancel _ => tt
    end.

Definition no_wmi : Exn := OtherException "x_wmi" "WMI is not available".

(** A manager object with the given feature set and nothing else. *)
Definition manager_with (features : gset string) : DAMXManager :=
  {| wmi_connection := None; wmi_root := None; laptop_type := UNKNOWN;
     has_four_zone_kb := false; current_modprobe_param := "";
     available_features := features |}.

(** An Acer Predator on which the firmware classes for the fans are
    missing and no external tool can be started. *)
Definition predator : Oracle :=
  fun _ X c =>
    match c in Call X return X with
    | Log _ _ _ => tt
    | FormatExc => "Traceback"
    | Print _ => tt
    | ImportWmi => Ok tt
    | WMI _ => Ok 0%nat
    | WmiQuery _ cls _ =>
        if String.eqb cls "Win32_ComputerSystem" then Ok [1%nat]
        else if String.eqb cls "Win32_Battery" then Ok [2%nat]
        else Err no_wmi
    | HasAttr _ _ => Ok false
    | GetAttr _ attr =>
        if String.eqb attr "Model" then Ok (PStr "Predator PH315-53")
        else if String.eqb attr "Manufacturer" then Ok (PStr "Acer")
        else Err no_wmi
    | Invoke _ _ _ => Err no_wmi
    | SubprocessRun _ _ => Err no_wmi
    | Sleep _ => tt
    | ReadFile _ _ => Err no_wmi
    | WriteFile _ _ => Err no_wmi
    | CloseHandle _ => Ok tt
    | TimerNew _ => 0%nat
    | TimerStart _ => Ok tt
    | TimerCancel _ => tt
    end.

(** The manager that [__init__] builds on that machine. *)
Definition predator_manager : DAMXManager :=
  match (run predator [] DAMXManager_init).1 with
  | Ok m => m
  | Err _ => manager_with ∅
  end.

(** A response: a dict with a ["success"] entry. *)
Definition is_response (v : PyVal) : Prop :=
  exists kvs b, v = PDict (("success", PBool b) :: kvs).

(** The keys of a dict. *)
Definition dict_keys (d : list (string * PyVal)) : list string := d.*1.

(** The features that [get_all_settings] reports under a key of their
    own. *)
Definition reported_features : list string :=
  [ "thermal_profile"; "backlight_timeout"; "battery_calibration";
    "battery_limiter"; "boot_animation_sound"; "fan_speed"; "lcd_override";
    "usb_charging"; "per_zone_mode"; "four_zone_mode" ].

(** [covered self K settings]: every enabled feature among [K] has its
    entry in [settings]. *)
Definition covered (self : DAMXManager) (K : list string)
    (settings : list (string * PyVal)) : Prop :=
  forall f, f ∈ K -> has self f = true -> f ∈ dict_keys settings.

(** The query behind [get_thermal_profile]. *)
Definition active_scheme : Call (Result Completed) :=
  SubprocessRun ["powercfg"; "/getactivescheme"] false.

(** C5 as the specification words it, on the thermal-profile getter: when
    the query behind the getter has failed, the feature is left out of the
    settings map. *)
Definition excludes_failed_getter (int_of_str : string -> option Z)
    (repr : PyVal -> string) : Prop :=
  forall (env : Oracle) (t : list Event) (self : DAMXManager)
         (settings : list (string * PyVal)) (d : list Event) (e : Exn),
    run env t (get_all_settings int_of_str repr self) = (Ok (PDict settings), d) ->
    Ev active_scheme (Err e) ∈ d ->
    "thermal_profile" ∉ dict_keys settings.

(** A laptop on the High Performance scheme whose battery reports that it
    is discharging; [powercfg] works. *)
Definition on_battery : Oracle :=
  fun _ X c =>
    match c in Call X return X with
    | Log _ _ _ => tt
    | FormatExc => "Traceback"
    | Print _ => tt
    | ImportWmi => Ok tt
    | WMI _ => Ok 0%nat
    | WmiQuery _ cls _ =>
        if String.eqb cls "Win32_Battery" then Ok [1%nat] else Ok []
    | HasAttr _ _ => Ok false
    | GetAttr _ attr =>
        if String.eqb attr "BatteryStatus" then Ok (PInt 1) else Ok PNone
    | Invoke _ _ _ => Ok tt
    | SubprocessRun _ _ =>
        Ok {| returncode := 0;
              stdout := "Power Scheme GUID: 8c5e7fda-e8bf-4a96-9a85-a6e23a8c635c  (High performance)" |}
    | Sleep _ => tt
    | ReadFile _ _ => Err no_wmi
    | WriteFile _ _ => Ok tt
    | CloseHandle _ => Ok tt
    | TimerNew _ => 7%nat
    | TimerStart _ => Ok tt
    | TimerCancel _ => tt
    end.

(** The detector as [__init__] leaves it. *)
Definition fresh_detector : PowerSourceDetector :=
  {| current_source := None; check_interval := 5; timer := None |}.

(** The codec of the examples: [bytes.decode('utf-8')] and [json.dumps]
    of the Python library, and [json.loads] on the texts of the
    examples. *)

Definition hex_digit (n : Z) : string :=
  String (ascii_of_N (Z.to_N (if n <? 10 then 48 + n else 87 + n)))
    EmptyString.

(** The two and the four lower-case hexadecimal digits of [n]. *)
Definition hex2 (n : Z) : string :=
  hex_digit (n / 16 mod 16) +:+ hex_digit (n mod 16).
Definition hex4 (n : Z) : string := hex2 (n / 256) +:+ hex2 (n mod 256).

Definition byte_values (data : bytes) : list Z :=
  (fun b => Z.of_N (Byte.to_N b)) <$> data.

(** A byte [10xxxxxx] *)
Definition continuation (b : Z) : bool := (128 <=? b) && (b <? 192).

(** Where [bs], which starts at position [pos], stops being UTF-8: the
    first and the last position of the offending bytes, and the reason, as
    the decoder of CPython reports them. *)
Fixpoint utf8_error (pos : Z) (bs : list Z) : option (Z * Z * string) :=
  let truncated :=
    Some (pos, pos + Z.of_nat (length bs) - 1, "unexpected end of data") in
  let stray (n : Z) := Some (pos, pos + n - 1, "invalid continuation byte") in
  match bs with
  | [] => None
  | b0 :: r0 =>
      if b0 <? 128 then utf8_error (pos + 1) r0
      else if b0 <? 194 then Some (pos, pos, "invalid start byte")
      else if b0 <? 224 then
        match r0 with
        | [] => truncated
        | b1 :: r1 =>
            if continuation b1 then utf8_error (pos + 2) r1 else stray 1
        end
      else if b0 <? 240 then
        match r0 with
        | [] => truncated
        | b1 :: r1 =>
            if negb (continuation b1)
               || (if b1 <? 160 then b0 =? 224 else b0 =? 237)
            then stray 1 else
            match r1 with
            | [] => truncated
            | b2 :: r2 =>
                if continuation b2 then utf8_error (pos + 3) r2 else stray 2
            end
        end
      else if b0 <? 245 then
        match r0 with
        | [] => truncated
        | b1 :: r1 =>
            if negb (continuation b1)
               || (if b1 <? 144 then b0 =? 240 else b0 =? 244)
            then stray 1 else
            match r1 with
            | [] => truncated
            | b2 :: r2 =>
                if negb (continuation b2) then stray 2 else
                match r2 with
                | [] => truncated
                | b3 :: r3 =>
                    if continuation b3 then utf8_error (pos + 4) r3
                    else stray 3
                end
            end
        end
      else Some (pos, pos, "invalid start byte")
  end.

(** [data.decode('utf-8')], with the [UnicodeDecodeError] it raises. *)
Definition utf8_decode (data : bytes) : Result string :=
  match utf8_error 0 (byte_values data) with
  | None => Ok (String.string_of_list_byte data)
  | Some (first, last, reason) =>
      Err (OtherException "UnicodeDecodeError"
             ("'utf-8' codec can't decode " +:+
              (if first =? last
               then "byte 0x" +:+ hex2 (nth (Z.to_nat first) (byte_values data) 0)
                    +:+ " in position " +:+ pretty first
               else "bytes in position " +:+ pretty first +:+ "-"
                    +:+ pretty last)
              +:+ ": " +:+ reason))
  end.

(** The code points of a UTF-8 string. *)
Fixpoint code_points (bs : list Z) : list Z :=
  match bs with
  | [] => []
  | b0 :: r0 =>
      if b0 <? 192 then b0 :: code_points r0 else
      match r0 with
      | [] => [b0]
      | b1 :: r1 =>
          if b0 <? 224
          then ((b0 - 192) * 64 + (b1 - 128)) :: code_points r1 else
          match r1 with
          | [] => [b0; b1]
          | b2 :: r2 =>
              if b0 <? 240
              then ((b0 - 224) * 4096 + (b1 - 128) * 64 + (b2 - 128))
                   :: code_points r2 else
              match r2 with
              | [] => [b0; b1; b2]
              | b3 :: r3 =>
                  ((b0 - 240) * 262144 + (b1 - 128) * 4096
                   + (b2 - 128) * 64 + (b3 - 128)) :: code_points r3
              end
          end
      end
  end.

(** A character inside a JSON string, as [json.dumps] writes it with
    [ensure_ascii]. *)
Definition json_char (c : Z) : string :=
  if c =? 34 then "\" +:+ dq
  else if c =? 92 then "\\"
  else if c =? 10 then "\n"
  else if c =? 13 then "\r"
  else if c =? 9 then "\t"
  else if c =? 8 then "\b"
  else if c =? 12 then "\f"
  else if (32 <=? c) && (c <=? 126)
  then String (ascii_of_N (Z.to_N c)) EmptyString
  else if c <? 65536 then "\u" +:+ hex4 c
  else "\u" +:+ hex4 (55296 + (c - 65536) / 1024)
       +:+ "\u" +:+ hex4 (56320 + (c - 65536) mod 1024).

Definition json_string (s : string) : string :=
  dq +:+ String.concat "" (json_char <$> code_points (byte_values (String.list_byte_of_string s)))
     +:+ dq.

(** [json.dumps(v)] *)
Fixpoint dumps (v : PyVal) : string :=
  match v with
  | PNone => "null"
  | PBool true => "true"
  | PBool false => "false"
  | PInt z => pretty z
  | PStr s => json_string s
  | PList l =>
      "[" +:+
      (fix items (l : list PyVal) : string :=
         match l with
         | [] => ""
         | x :: rest =>
             match rest with
             | [] => dumps x
             | _ => dumps x +:+ ", " +:+ items rest
             end
         end) l +:+ "]"
  | PDict d =>
      "{" +:+
      (fix items (d : list (string * PyVal)) : string :=
         match d with
         | [] => ""
         | (k, x) :: rest =>
             match rest with
             | [] => json_string k +:+ ": " +:+ dumps x
             | _ => json_string k +:+ ": " +:+ dumps x +:+ ", " +:+ items rest
             end
         end) d +:+ "}"
  end.

(** A request for the version, as a client writes it. *)
Definition version_request : string :=
  "{" +:+ dq +:+ "command" +:+ dq +:+ ": " +:+ dq +:+ "get_version" +:+ dq
  +:+ "}".

(** [json.loads] on the two texts of the examples: [version_request], and
    [not json], which is not JSON.  No example gives it another text. *)
Definition loads_examples (text : string) : Result PyVal :=
  if String.eqb text version_request
  then Ok (PDict [ ("command", PStr "get_version") ])
  else Err (JSONDecodeError "Expecting value: line 1 column 1 (char 0)").

Definition is_read (e : Event) : bool :=
  match e with
  | Ev (ReadFile _ _) _ => true
  | _ => false
  end.

(** A machine without WMI, with a client on the pipe that sends the frames
    of [payloads] one after the other and then goes away: the reads come
    in pairs, the length and then the payload, and after the last frame a
    read raises the broken-pipe error. *)
Definition client_sends (payloads : list bytes) : Oracle :=
  fun t X c =>
    match c in Call X return X with
    | Log _ _ _ => tt
    | FormatExc => "Traceback"
    | Print _ => tt
    | ImportWmi => Err no_wmi
    | WMI _ => Err no_wmi
    | WmiQuery _ _ _ => Err no_wmi
    | HasAttr _ _ => Err no_wmi
    | GetAttr _ _ => Err no_wmi
    | Invoke _ _ _ => Err no_wmi
    | SubprocessRun _ _ => Err no_wmi
    | Sleep _ => tt
    | ReadFile _ _ =>
        let reads := length (filter (fun e => is_read e = true) t) in
        match payloads !! (reads / 2)%nat with
        | Some payload =>
            if Nat.even reads
            then Ok (0, le4 (Z.of_nat (length payload)))
            else Ok (0, payload)
        | None => Err (PywinError 109 "The pipe has been ended.")
        end
    | WriteFile _ _ => Ok tt
    | CloseHandle _ => Ok tt
    | TimerNew _ => 0%nat
    | TimerStart _ => Ok tt
    | TimerCancel _ => tt
    end.

(** A client that sends a text that is not JSON and then a request for the
    version. *)
Definition two_requests : Oracle :=
  client_sends [ String.list_byte_of_string "not json";
                 String.list_byte_of_string version_request ].

(** A client that sends one byte that is not UTF-8. *)
Definition garbled : Oracle := client_sends [ [Byte.xff] ].

(** A machine without the [wmi] module, on which every process that is
    run prints [output] and exits with 0. *)
Definition powershell_only (output : string) : Oracle :=
  fun _ X c =>
    match c in Call X return X with
    | Log _ _ _ => tt
    | FormatExc => "Traceback"
    | Print _ => tt
    | ImportWmi => Err (ImportError "No module named 'wmi'")
    | WMI _ => Err no_wmi
    | WmiQuery _ _ _ => Err no_wmi
    | HasAttr _ _ => Err no_wmi
    | GetAttr _ _ => Err no_wmi
    | Invoke _ _ _ => Err no_wmi
    | SubprocessRun _ _ => Ok {| returncode := 0; stdout := output |}
    | Sleep _ => tt
    | ReadFile _ _ => Err no_wmi
    | WriteFile _ _ => Err no_wmi
    | CloseHandle _ => Ok tt
    | TimerNew _ => 0%nat
    | TimerStart _ => Ok tt
    | TimerCancel _ => tt
    end.

Definition a_server : DaemonServer :=
  {| manager := manager_with ∅; running := true; clients := [] |}.

(** The feature names that detection can produce. *)
Definition detectable_features : gset string :=
  {[ "battery_calibration"; "battery_limiter"; "thermal_profile"; "fan_speed";
     "boot_animation_sound"; "backlight_timeout"; "lcd_override" ]}.

(** Those that do not depend on the vendor family. *)
Definition generic_features : gset string :=
  {[ "battery_calibration"; "battery_limiter"; "thermal_profile" ]}.

(** The commands behind an availability check, with the feature that
    gates each and the name used in the answer. *)
Definition gated_commands : list (string * string * string) :=
  [ ("get_thermal_profile", "thermal_profile", "Thermal profile");
    ("set_thermal_profile", "thermal_profile", "Thermal profile");
    ("set_backlight_timeout", "backlight_timeout", "Backlight timeout");
    ("set_battery_calibration", "battery_calibration", "Battery calibration");
    ("set_battery_limiter", "battery_limiter", "Battery limiter");
    ("set_boot_animation_sound", "boot_animation_sound", "Boot animation sound");
    ("set_fan_speed", "fan_speed", "Fan speed control");
    ("set_lcd_override", "lcd_override", "LCD override");
    ("set_usb_charging", "usb_charging", "USB charging control");
    ("set_per_zone_mode", "per_zone_mode", "Per-zone keyboard mode");
    ("set_four_zone_mode", "four_zone_mode", "Four-zone keyboard mode") ].

(** The commands whose manager operation has no Windows
    implementation. *)
Definition unimplemented_commands : list string :=
  [ "set_backlight_timeout"; "set_battery_calibration"; "set_battery_limiter";
    "set_boot_animation_sound"; "set_lcd_override"; "set_usb_charging";
    "set_per_zone_mode"; "set_four_zone_mode"; "force_nitro_model";
    "force_predator_model"; "force_enable_all";
    "set_modprobe_parameter_nitro"; "set_modprobe_parameter_predator";
    "set_modprobe_parameter_enable_all" ].

(** A response that reports failure. *)
Definition is_refusal (v : PyVal) : Prop :=
  exists kvs, v = PDict (("success", PBool false) :: kvs).

(** The first line that [process_command] logs. *)
Definition processing (command params : PyVal) : Event :=
  Ev (Log INFO "Processing command: {} with params: {}" [command; params]) tt.

(** A machine whose firmware has every class with every method, and on
    which every call succeeds. *)
Definition compliant : Oracle :=
  fun _ X c =>
    match c in Call X return X with
    | Log _ _ _ => tt
    | FormatExc => "Traceback"
    | Print _ => tt
    | ImportWmi => Ok tt
    | WMI _ => Ok 0%nat
    | WmiQuery _ _ _ => Ok [1%nat]
    | HasAttr _ _ => Ok true
    | GetAttr _ _ => Ok (PInt 2)
    | Invoke _ _ _ => Ok tt
    | SubprocessRun _ _ => Ok {| returncode := 0; stdout := "" |}
    | Sleep _ => tt
    | ReadFile _ _ => Err (PywinError 109 "The pipe has been ended")
    | WriteFile _ _ => Ok tt
    | CloseHandle _ => Ok tt
    | TimerNew _ => 3%nat
    | TimerStart _ => Ok tt
    | TimerCancel _ => tt
    end.

(** A machine that has the two per-fan classes but neither the fan
    controller nor the ACPI event class, and on which PowerShell finds
    nothing to call. *)
Definition per_fan_only : Oracle :=
  fun _ X c =>
    match c in Call X return X with
    | Log _ _ _ => tt
    | FormatExc => "Traceback"
    | Print _ => tt
    | ImportWmi => Ok tt
    | WMI _ => Ok 0%nat
    | WmiQuery _ cls _ =>
        if String.eqb cls "AcerGaming_CpuFanSpeed" then Ok [1%nat]
        else if String.eqb cls "AcerGaming_GpuFanSpeed" then Ok [2%nat]
        else Ok []
    | HasAttr _ _ => Ok true
    | GetAttr _ _ => Ok (PInt 2)
    | Invoke _ _ _ => Ok tt
    | SubprocessRun _ _ => Ok {| returncode := 1; stdout := "" |}
    | Sleep _ => tt
    | ReadFile _ _ => Err (PywinError 109 "The pipe has been ended")
    | WriteFile _ _ => Ok tt
    | CloseHandle _ => Ok tt
    | TimerNew _ => 3%nat
    | TimerStart _ => Ok tt
    | TimerCancel _ => tt
    end.

(** What the first read of a request returns when the peer is gone: a
    failed or short read, or the broken-pipe error. *)
Definition stream_ended (r : Result (Z * bytes)) : Prop :=
  match r with
  | Ok (result, length_data) =>
      result <> 0 \/ (length length_data < 4)%nat
  | Err (PywinError winerror _) => winerror = 109
  | Err _ => False
  end.

(** [{"success": False, "error": msg}] *)
Definition failure (msg : string) : PyVal :=
  PDict [ ("success", PBool false); ("error", PStr msg) ].

(** The closing of the handles [hs], with the results [rs] that the
    platform gave. *)
Definition closings (hs : list Handle) (rs : list (Result unit))
  : list Event :=
  zip_with (fun h r => Ev (CloseHandle h) r) hs rs.

(** A record of an error in the log. *)
Definition is_error_record (e : Event) : bool :=
  match e with
  | Ev (Log ERROR _ _) _ => true
  | _ => false
  end.

(** The keys that [get_all_settings] reports on every machine. *)
Definition base_keys : list string :=
  [ "laptop_type"; "has_four_zone_kb"; "available_features"; "version";
    "driver_version"; "modprobe_parameter"; "thermal_profile" ].

(** Distinct keys, each a base key or the name of an enabled feature. *)
Definition tidy (self : DAMXManager) (settings : list (string * PyVal))
  : Prop :=
  NoDup (dict_keys settings) /\
  forall k, k ∈ dict_keys settings ->
    k ∈ base_keys \/ (k ∈ reported_features /\ has self k = true).

(** The frames written in a trace. *)
Definition written (d : list Event) : list bytes :=
  omap (fun e => match e with
                 | Ev (WriteFile _ out) _ => Some out
                 | _ => None
                 end) d.

(** C7 as the specification words it: whatever makes the parsing of a
    payload fail, the request is answered with the invalid-JSON response,
    and with nothing else. *)
Definition answers_invalid_json (json_dumps : PyVal -> string)
    (decode_utf8 : bytes -> Result string) : Prop :=
  forall (int_of_str : string -> option Z) (repr : PyVal -> string)
         (json_loads : string -> Result PyVal) (env : Oracle)
         (t : list Event) (self : DaemonServer) (pipe_handle : Handle)
         (length_data data : bytes),
    env t _ (ReadFile pipe_handle 4) = Ok (0, length_data) ->
    (4 <= length length_data)%nat ->
    env (t ++ [Ev (ReadFile pipe_handle 4) (Ok (0, length_data))]) _
      (ReadFile pipe_handle (from_bytes_little length_data))
    = Ok (0, data) ->
    (forall text v, decode_utf8 data = Ok text -> json_loads text <> Ok v) ->
    written
      (run env t
         (loop_body (R := unit)
            (serve_request int_of_str repr json_loads json_dumps decode_utf8
               pipe_handle) self)).2
    = [ framed json_dumps
          (PDict [ ("success", PBool false);
                   ("error", PStr "Invalid JSON format") ]) ].

(** [always p Q]: whatever the platform answers, and after any history, the
    value of [p] and the events it adds satisfy [Q]. *)
Definition always {A : Type} (p : Prog A) (Q : A -> list Event -> Prop)
  : Prop :=
  forall (env : Oracle) (t : list Event),
    Q (run env t p).1 (run env t p).2.

(** The flow in which a finished call continues in its caller. *)
Definition flow_of {R A} (x : Result A) : Flow R A :=
  match x with Ok v => Normal v | Err e => Raise e end.

(** The result with which a function body ends. *)
Definition result_of {R} (fl : Flow R R) : Result R :=
  match fl with Normal r | Return r => Ok r | Raise e => Err e end.

(** * Properties *)

(** ** Running programs *)

Lemma run_pbind {A B : Type} (env : Oracle) (p : Prog A) (f : A -> Prog B) :
  forall t,
    run env t (pbind p f) =
    let '(a, d) := run env t p in
    let '(b, d') := run env (t ++ d) (f a) in
    (b, d ++ d').
Proof.
  induction p as [a | X c k IH]; intros t; simpl.
  - rewrite app_nil_r. by destruct (run env t (f a)).
  - rewrite IH. destruct (run env (t ++ [Ev c (env t X c)]) (k (env t X c)))
      as [a d].
    rewrite <- app_assoc. simpl.
    by destruct (run env (t ++ Ev c (env t X c) :: d) (f a)).
Qed.

Section RunM.
Context {S R : Type}.
Implicit Types (env : Oracle) (t : list Event) (s : S).

Lemma run_bind {A B} env t s (m : M S R A) (f : A -> M S R B) :
  run env t (bind m f s) =
  let '((s', fl), d) := run env t (m s) in
  match fl with
  | Normal a => let '(r, d') := run env (t ++ d) (f a s') in (r, d ++ d')
  | Return r => ((s', Return r), d)
  | Raise e => ((s', Raise e), d)
  end.
Proof.
  unfold bind. rewrite run_pbind.
  destruct (run env t (m s)) as [[s' [a | r | e]] d]; simpl;
    by rewrite ?app_nil_r.
Qed.

Lemma run_try_except {A} env t s (body : M S R A) (handler : Exn -> M S R A) :
  run env t (try_except body handler s) =
  let '((s', fl), d) := run env t (body s) in
  match fl with
  | Raise e => let '(r, d') := run env (t ++ d) (handler e s') in (r, d ++ d')
  | _ => ((s', fl), d)
  end.
Proof.
  unfold try_except. rewrite run_pbind.
  destruct (run env t (body s)) as [[s' [a | r | e]] d]; simpl;
    by rewrite ?app_nil_r.
Qed.

Lemma run_call {A} env t s (p : Py A) :
  run env t (call (S := S) (R := R) p s) =
  let '(x, d) := run env t p in
  ((s, match x with Ok v => Normal v | Err e => Raise e end), d).
Proof.
  unfold call. rewrite run_pbind.
  destruct (run env t p) as [x d]. simpl. by rewrite app_nil_r.
Qed.
End RunM.

Lemma run_def {S R} env t (locals : S) (body : M S R R) :
  run env t (def_ locals body) =
  let '((_, fl), d) := run env t (body locals) in
  (match fl with Normal r | Return r => Ok r | Raise e => Err e end, d).
Proof.
  unfold def_. rewrite run_pbind.
  destruct (run env t (body locals)) as [[s' fl] d]. simpl.
  by rewrite app_nil_r.
Qed.

Lemma run_method {S R} env t (body : M S R R) (self : S) :
  run env t (method body self) =
  let '((s', fl), d) := run env t (body self) in
  ((s', match fl with Normal r | Return r => Ok r | Raise e => Err e end), d).
Proof.
  unfold method. rewrite run_pbind.
  destruct (run env t (body self)) as [[s' fl] d]. simpl.
  by rewrite app_nil_r.
Qed.

Lemma platform_calls_app (d d' : list Event) :
  platform_calls (d ++ d') = platform_calls d ++ platform_calls d'.
Proof. apply filter_app. Qed.

Lemma unit_tt (u : unit) : u = tt.
Proof. by destruct u. Qed.

(** ** The scheme table *)

(** C9, as stated, fails: two distinct profile names share a power-scheme
    identifier, so the table is not injective on the five names. *)
Lemma scheme_map_not_injective :
  ~ (forall p q : string,
       p ∈ thermal_profiles -> q ∈ thermal_profiles ->
       scheme_map !! p = scheme_map !! q -> p = q).
Proof.
  intros Hinj.
  assert (Heq : "performance" = "balanced-performance").
  { apply Hinj; [repeat constructor | repeat constructor | by vm_compute]. }
  discriminate Heq.
Qed.

(** C9, amended: every one of the five profile names has an identifier in
    the table, and two distinct names share their identifier exactly when
    they are [performance] and [balanced-performance] (High Performance) or
    [quiet] and [low-power] (Power Saver); the table maps five names onto
    three schemes. *)
Theorem scheme_map_shared (p q : string) :
  p ∈ thermal_profiles -> q ∈ thermal_profiles -> p ≠ q ->
  is_Some (scheme_map !! p) /\ is_Some (scheme_map !! q) /\
  (scheme_map !! p = scheme_map !! q <->
   (p, q) ∈ [ ("performance", "balanced-performance");
              ("balanced-performance", "performance");
              ("quiet", "low-power"); ("low-power", "quiet") ]).
Proof.
  unfold thermal_profiles. intros Hp Hq Hne.
  repeat (apply elem_of_cons in Hp as [-> | Hp]);
    try (by apply elem_of_nil in Hp);
    repeat (apply elem_of_cons in Hq as [-> | Hq]);
    try (by apply elem_of_nil in Hq);
    try done;
    (split; [by vm_compute; eexists | split; [by vm_compute; eexists |]]);
    rewrite <- (bool_decide_spec (_ = _)), <- (bool_decide_spec (_ ∈ _));
    by vm_compute.
Qed.

Lemma scheme_map_shared_witness :
  "quiet" ∈ thermal_profiles /\ "low-power" ∈ thermal_profiles /\
  "quiet" ≠ "low-power" /\
  scheme_map !! "quiet" = scheme_map !! "low-power".
Proof.
  assert (H1 : "quiet" ∈ thermal_profiles) by repeat constructor.
  assert (H2 : "low-power" ∈ thermal_profiles) by repeat constructor.
  assert (H3 : "quiet" ≠ "low-power") by discriminate.
  refine (conj H1 (conj H2 (conj H3 _))).
  destruct (scheme_map_shared "quiet" "low-power" H1 H2 H3) as (_ & _ & Hiff).
  apply Hiff. repeat constructor.
Defined.

(** ** Setting the thermal profile *)

Lemma run_set_thermal_profile (self : DAMXManager) (profile : string)
    (env : Oracle) (t : list Event) :
  has self "thermal_profile" = true ->
  let c := activate (scheme_guid (lower profile)) in
  exists line : Event,
    run env t (set_thermal_profile self (PStr profile)) =
    (Ok (is_ok (env t _ c)), [Ev c (env t _ c); line]) /\
    is_platform_call line = false.
Proof.
  intros Hf c. subst c. unfold set_thermal_profile, activate.
  rewrite Hf. cbn.
  destruct (env t (Result Completed) _) as [r | e]; cbn;
    eexists; split; reflexivity.
Qed.

(** The identifier that the table gives, name by name. *)
Lemma scheme_guid_table (key : string) :
  scheme_guid key =
  if decide (key = "performance" \/ key = "balanced-performance")
  then "8c5e7fda-e8bf-4a96-9a85-a6e23a8c635c"
  else if decide (key = "quiet" \/ key = "low-power")
  then "a1841308-3541-4fab-bc81-f71556f20b4a"
  else "381b4222-f694-41f0-9685-ff5bb260df2e".
Proof.
  unfold scheme_guid, scheme_map. rewrite !list_to_map_cons, list_to_map_nil.
  repeat case_decide;
    repeat match goal with
           | H : _ \/ _ |- _ => destruct H as [-> | ->]
           | H : ~ (_ \/ _) |- _ => apply Decidable.not_or in H as [? ?]
           end;
    try (by simplify_map_eq).
  destruct (decide (key = "balanced")) as [-> | ?]; by simplify_map_eq.
Qed.

(** C8: with the feature present, [set_thermal_profile] lower-cases the
    requested name and looks it up in a fixed table: [performance] and
    [balanced-performance] give the High Performance scheme
    [8c5e7fda-...], [quiet] and [low-power] the Power Saver scheme
    [a1841308-...], [balanced] the Balanced scheme [381b4222-...]; a name
    that is none of the five, in any spelling, gives the identifier of
    [balanced] as well.  [powercfg /setactive] is run on the identifier
    found, so the request is not rejected: the call returns [True] when
    [powercfg] succeeds, and [False], after the error line, when it
    raises.  (A name with a letter outside ASCII is none of the five after
    lower-casing: the only such letters whose lower case has an ASCII
    letter are U+0130, which gives [i] followed by a combining dot, and the
    Kelvin sign, which gives [k].) *)
Theorem set_thermal_profile_unrecognized (self : DAMXManager)
    (profile : string) (env : Oracle) (t : list Event) :
  has self "thermal_profile" = true ->
  let name := lower profile in
  let guid :=
    if decide (name = "performance" \/ name = "balanced-performance")
    then "8c5e7fda-e8bf-4a96-9a85-a6e23a8c635c"
    else if decide (name = "quiet" \/ name = "low-power")
    then "a1841308-3541-4fab-bc81-f71556f20b4a"
    else if decide (name = "balanced")
    then "381b4222-f694-41f0-9685-ff5bb260df2e"
    else "381b4222-f694-41f0-9685-ff5bb260df2e" in
  let c := SubprocessRun ["powercfg"; "/setactive"; guid] true in
  run env t (set_thermal_profile self (PStr profile)) =
  match env t _ c with
  | Ok r =>
      (Ok true,
       [ Ev c (Ok r);
         Ev (Log INFO "Set power scheme to: {}" [PStr profile]) tt ])
  | Err e =>
      (Ok false,
       [ Ev c (Err e);
         Ev (Log ERROR "Failed to set power scheme: {}" [PStr (exn_str e)])
            tt ])
  end.
Proof.
  intros Hf name guid c.
  assert (Hg : scheme_guid (lower profile) = guid).
  { rewrite scheme_guid_table. subst guid name.
    repeat case_decide; done. }
  subst c. rewrite <- Hg. unfold set_thermal_profile.
  rewrite Hf. cbn -[lower scheme_guid].
  destruct (env t (Result Completed) _) as [r | e]; cbn -[lower scheme_guid];
    by rewrite (unit_tt (env _ unit _)).
Qed.

(** ** Setters behind their feature check *)

Lemma run_unsupported (msg : string) (env : Oracle) (t : list Event) :
  exists d, run env t (unsupported msg) = (Ok false, d) /\ platform_calls d = [].
Proof. cbn. eexists. split; reflexivity. Qed.

(** C1: a setter whose feature is not in the detected set returns [False]
    and makes no platform call (the setters without a Windows
    implementation write their advisory log line; the two implemented ones
    write nothing).  A setter is a [Py] call: it has no field of the
    manager to assign, so the manager is the same afterwards. *)
Theorem setter_without_feature (int_of_str : string -> option Z)
    (self : DAMXManager) (s : Setter) (env : Oracle) (t : list Event) :
  has self (setter_feature s) = false ->
  exists d,
    run env t (call_setter int_of_str self s) = (Ok false, d) /\
    platform_calls d = [].
Proof.
  intros Hf. destruct s; cbn [call_setter setter_feature] in *;
    try apply run_unsupported.
  - unfold set_thermal_profile. rewrite Hf. cbn. by eexists.
  - unfold set_fan_speed. rewrite Hf. cbn. by eexists.
Qed.

(** C6: when one of the two speeds is outside [0,100], [set_fan_speed]
    returns [False] at once: nothing but the error line is logged, and no
    vendor method, ACPI method or interpreter is called. *)
Theorem set_fan_speed_out_of_range (int_of_str : string -> option Z)
    (self : DAMXManager) (cpu gpu : Z) (env : Oracle) (t : list Event) :
  ~ (0 <= cpu <= 100 /\ 0 <= gpu <= 100) ->
  exists d,
    run env t (set_fan_speed int_of_str self (PInt cpu) (PInt gpu))
    = (Ok false, d) /\
    platform_calls d = [].
Proof.
  intros Hout. unfold set_fan_speed.
  destruct (has self "fan_speed"); cbn; [| by eexists].
  destruct (0 <=? cpu) eqn:E1; cbn; [| by eexists].
  destruct (cpu <=? 100) eqn:E2; cbn; [| by eexists].
  destruct (0 <=? gpu) eqn:E3; cbn; [| by eexists].
  destruct (gpu <=? 100) eqn:E4; cbn; [| by eexists].
  exfalso. apply Hout. lia.
Qed.

Lemma set_thermal_profile_unrecognized_witness :
  has (manager_with {["thermal_profile"]}) "thermal_profile" = true /\
  run on_battery []
    (set_thermal_profile (manager_with {["thermal_profile"]}) (PStr "QuIeT")) =
  (Ok true,
   [ Ev (SubprocessRun
           ["powercfg"; "/setactive"; "a1841308-3541-4fab-bc81-f71556f20b4a"]
           true)
        (on_battery [] _
           (SubprocessRun
              ["powercfg"; "/setactive";
               "a1841308-3541-4fab-bc81-f71556f20b4a"] true));
     Ev (Log INFO "Set power scheme to: {}" [PStr "QuIeT"]) tt ]) /\
  run on_battery []
    (set_thermal_profile (manager_with {["thermal_profile"]}) (PStr "Turbo")) =
  (Ok true,
   [ Ev (SubprocessRun
           ["powercfg"; "/setactive"; "381b4222-f694-41f0-9685-ff5bb260df2e"]
           true)
        (on_battery [] _
           (SubprocessRun
              ["powercfg"; "/setactive";
               "381b4222-f694-41f0-9685-ff5bb260df2e"] true));
     Ev (Log INFO "Set power scheme to: {}" [PStr "Turbo"]) tt ]).
Proof.
  assert (H : has (manager_with {["thermal_profile"]}) "thermal_profile" = true)
    by (vm_compute; reflexivity).
  split; [exact H |]. split.
  - exact (set_thermal_profile_unrecognized
             (manager_with {["thermal_profile"]}) "QuIeT" on_battery [] H).
  - exact (set_thermal_profile_unrecognized
             (manager_with {["thermal_profile"]}) "Turbo" on_battery [] H).
Defined.

Lemma setter_without_feature_witness :
  has (manager_with ∅) (setter_feature (Set_fan_speed (PInt 50) (PInt 50))) = false /\
  exists d,
    run (failing no_wmi) []
      (call_setter (fun _ => None) (manager_with ∅)
         (Set_fan_speed (PInt 50) (PInt 50))) = (Ok false, d) /\
    platform_calls d = [].
Proof.
  assert (H : has (manager_with ∅)
                (setter_feature (Set_fan_speed (PInt 50) (PInt 50))) = false)
    by (vm_compute; reflexivity).
  split; [exact H |].
  exact (setter_without_feature (fun _ => None) (manager_with ∅)
           (Set_fan_speed (PInt 50) (PInt 50)) (failing no_wmi) [] H).
Defined.

Lemma set_fan_speed_out_of_range_witness :
  ~ (0 <= 101 <= 100 /\ 0 <= 50 <= 100) /\
  exists d,
    run (failing no_wmi) []
      (set_fan_speed (fun _ => None) (manager_with {["fan_speed"]})
         (PInt 101) (PInt 50)) = (Ok false, d) /\
    platform_calls d = [].
Proof.
  assert (H : ~ (0 <= 101 <= 100 /\ 0 <= 50 <= 100)) by lia.
  split; [exact H |].
  exact (set_fan_speed_out_of_range (fun _ => None)
           (manager_with {["fan_speed"]}) 101 50 (failing no_wmi) [] H).
Defined.

(** ** The features a started manager has *)

Lemma detect_features_inv (env : Oracle) (t : list Event)
    (conn : option Conn) (lt : LaptopType) :
  exists (fs : gset string) (d : list Event),
    run env t (_detect_available_features conn lt) = (Ok fs, d) /\
    ("fan_speed" ∈ fs -> "thermal_profile" ∈ fs).
Proof.
  unfold _detect_available_features.
  destruct conn as [c |]; cbn -[union singleton empty].
  - destruct (env t _ (WmiQuery c "Win32_Battery" [])) as [bs | e];
      cbn -[union singleton empty].
    + destruct bs as [| b bs]; cbn -[union singleton empty];
        match goal with
        | |- context [env ?t' (Result Conn) ?c'] =>
            destruct (env t' (Result Conn) c')
        end; cbn -[union singleton empty];
        destruct lt; cbn -[union singleton empty];
        do 2 eexists; (split; [reflexivity | set_solver]).
    + do 2 eexists; (split; [reflexivity | set_solver]).
  - destruct lt; cbn -[union singleton empty];
      do 2 eexists; (split; [reflexivity | set_solver]).
Qed.

(** ** What holds of a program on every platform *)

Lemma always_ret {A} (a : A) (Q : A -> list Event -> Prop) :
  Q a [] -> always (PRet a) Q.
Proof. by intros H env t. Qed.

Lemma always_vis {A X} (c : Call X) (k : X -> Prog A)
    (Q : A -> list Event -> Prop) :
  (forall x, always (k x) (fun a d => Q a (Ev c x :: d))) ->
  always (Vis c k) Q.
Proof.
  intros H env t. simpl.
  specialize (H (env t X c) env (t ++ [Ev c (env t X c)])).
  by destruct (run env (t ++ [Ev c (env t X c)]) (k (env t X c))).
Qed.

Lemma always_pbind {A B} (p : Prog A) (f : A -> Prog B)
    (Q : B -> list Event -> Prop) :
  always p (fun a d => always (f a) (fun b d' => Q b (d ++ d'))) ->
  always (pbind p f) Q.
Proof.
  intros H env t. rewrite run_pbind. specialize (H env t).
  destruct (run env t p) as [a d]. simpl in H. specialize (H env (t ++ d)).
  by destruct (run env (t ++ d) (f a)).
Qed.

Lemma always_mono {A} (p : Prog A) (P Q : A -> list Event -> Prop) :
  always p P -> (forall a d, P a d -> Q a d) -> always p Q.
Proof. intros H HPQ env t. apply HPQ, H. Qed.

Lemma always_any {A} (p : Prog A) (Q : A -> list Event -> Prop) :
  (forall a d, Q a d) -> always p Q.
Proof. intros H env t. apply H. Qed.

Lemma always_run {A} (p : Prog A) (Q : A -> list Event -> Prop)
    (env : Oracle) (t : list Event) (a : A) (d : list Event) :
  always p Q -> run env t p = (a, d) -> Q a d.
Proof. intros H Hrun. specialize (H env t). by rewrite Hrun in H. Qed.

Section AlwaysM.
Context {S R : Type}.
Implicit Types (s : S).

Lemma always_bind {A B} (m : M S R A) (f : A -> M S R B) s
    (Q : S * Flow R B -> list Event -> Prop) :
  always (m s) (fun x d =>
    match x.2 with
    | Normal a => always (f a x.1) (fun y d' => Q y (d ++ d'))
    | Return r => Q (x.1, Return r) d
    | Raise e => Q (x.1, Raise e) d
    end) ->
  always (bind m f s) Q.
Proof.
  intros H. apply always_pbind. eapply always_mono; [exact H |].
  intros [s' [a | r | e]] d; simpl; try done;
    intros HQ; apply always_ret; by rewrite app_nil_r.
Qed.

Lemma always_try_except {A} (body : M S R A) (handler : Exn -> M S R A) s
    (Q : S * Flow R A -> list Event -> Prop) :
  always (body s) (fun x d =>
    match x.2 with
    | Raise e => always (handler e x.1) (fun y d' => Q y (d ++ d'))
    | _ => Q x d
    end) ->
  always (try_except body handler s) Q.
Proof.
  intros H. apply always_pbind. eapply always_mono; [exact H |].
  intros [s' [a | r | e]] d; simpl; try done;
    intros HQ; apply always_ret; by rewrite app_nil_r.
Qed.

Lemma always_call {A} (p : Py A) s (Q : S * Flow R A -> list Event -> Prop) :
  always p (fun x d => Q (s, flow_of x) d) -> always (call p s) Q.
Proof.
  intros H. apply always_pbind. eapply always_mono; [exact H |].
  intros x d Hx. apply always_ret. by rewrite app_nil_r.
Qed.

Lemma always_attempt {X} (c : Call (Result X)) s
    (Q : S * Flow R X -> list Event -> Prop) :
  (forall x, Q (s, flow_of x) [Ev c x]) -> always (attempt c s) Q.
Proof. intros H. apply always_vis. intros x. apply always_ret, H. Qed.

Lemma always_perform {X} (c : Call X) s
    (Q : S * Flow R X -> list Event -> Prop) :
  (forall x, Q (s, Normal x) [Ev c x]) -> always (perform c s) Q.
Proof. intros H. apply always_vis. intros x. apply always_ret, H. Qed.

(** A loop with an invariant [I] on the state and on the events added so
    far. *)
Lemma always_for {X} (xs : list X) (body : X -> M S R LoopCtl)
    (I : S -> list Event -> Prop) (Q : S * Flow R unit -> list Event -> Prop)
    s :
  I s [] ->
  (forall s' d, I s' d -> Q (s', Normal tt) d) ->
  (forall x s' d, x ∈ xs -> I s' d ->
     always (body x s') (fun y d' =>
       match y.2 with
       | Normal Continue => I y.1 (d ++ d')
       | Normal Break => Q (y.1, Normal tt) (d ++ d')
       | Return r => Q (y.1, Return r) (d ++ d')
       | Raise e => Q (y.1, Raise e) (d ++ d')
       end)) ->
  always (for_ xs body s) Q.
Proof.
  intros Hs Hend Hbody.
  cut (forall d0, I s d0 ->
         always (for_ xs body s) (fun y d => Q y (d0 ++ d))).
  { intros H. exact (H [] Hs). }
  clear Hs. revert s.
  induction xs as [| x xs IH]; intros s d0 Hs.
  - apply always_ret. rewrite app_nil_r. by apply Hend.
  - simpl. apply always_bind.
    eapply always_mono; [apply (Hbody x s d0); [left | done] |].
    intros [s' [[] | r | e]] d; simpl; try done.
    + intros Hs'. eapply always_mono.
      * apply (IH (fun x' s'' d'' Hx' => Hbody x' s'' d'' (list_elem_of_further _ _ _ Hx')) s' (d0 ++ d) Hs').
      * intros y d'. simpl. by rewrite app_assoc.
    + intros HQ. apply always_ret. by rewrite app_nil_r.
Qed.
End AlwaysM.

Lemma always_def {S R} (locals : S) (body : M S R R)
    (Q : Result R -> list Event -> Prop) :
  always (body locals) (fun x d => Q (result_of x.2) d) ->
  always (def_ locals body) Q.
Proof.
  intros H. apply always_pbind. eapply always_mono; [exact H |].
  intros [s' fl] d Hx. apply always_ret. by rewrite app_nil_r.
Qed.

Lemma always_method {S R} (body : M S R R) (self : S)
    (Q : S * Result R -> list Event -> Prop) :
  always (body self) (fun x d => Q (x.1, result_of x.2) d) ->
  always (method body self) Q.
Proof.
  intros H. apply always_pbind. eapply always_mono; [exact H |].
  intros [s' fl] d Hx. apply always_ret. by rewrite app_nil_r.
Qed.

(** One step of symbolic execution of a block. *)
Ltac wp_step :=
  lazymatch goal with
  | |- always (bind _ _ _) _ => apply always_bind
  | |- always (try_except _ _ _) _ => apply always_try_except
  | |- always (attempt _ _) _ => apply always_attempt; intros [? | ?]
  | |- always (perform _ _) _ => apply always_perform; intros ?
  | |- always (log _ _ _ _) _ => apply always_perform; intros ?
  | |- always (ret _ _) _ => apply always_ret
  | |- always (return_ _ _) _ => apply always_ret
  | |- always (raise _ _) _ => apply always_ret
  | |- always (get _) _ => apply always_ret
  | |- always (put _ _) _ => apply always_ret
  | |- always (def_ _ _) _ => apply always_def
  | |- always (method _ _) _ => apply always_method
  | |- always (PRet _) _ => apply always_ret
  | |- always (Vis _ _) _ => apply always_vis; intros ?
  | |- always ((if ?b then _ else _) _) _ => destruct b eqn:?
  | |- always (match ?o with _ => _ end _) _ => destruct o eqn:?
  end; cbn [fst snd flow_of result_of].

Ltac wp := repeat wp_step.

(** A call of which nothing is known, and one with a known property. *)
Ltac wp_call_any :=
  apply always_call, always_any; intros [? | ?] ?;
  cbn [fst snd flow_of result_of].

Ltac wp_call_with lem :=
  apply always_call; eapply always_mono; [apply lem |];
  cbn beta; intros ? ? ?; cbn [fst snd flow_of result_of].

Lemma detect_features_always (conn : option Conn) (lt : LaptopType) :
  always (_detect_available_features conn lt) (fun r _ =>
    exists fs : gset string,
      r = Ok fs /\ ("fan_speed" ∈ fs -> "thermal_profile" ∈ fs)).
Proof.
  intros env t. destruct (detect_features_inv env t conn lt) as (fs & d & -> & H).
  simpl. eauto.
Qed.

Lemma init_features (env : Oracle) (t : list Event) (m : DAMXManager)
    (d : list Event) :
  run env t DAMXManager_init = (Ok m, d) ->
  has m "fan_speed" = true -> has m "thermal_profile" = true.
Proof.
  assert (H : always DAMXManager_init (fun r _ =>
    forall m, r = Ok m ->
      has m "fan_speed" = true -> has m "thermal_profile" = true)).
  { unfold DAMXManager_init. wp.
    all: wp_call_any; try discriminate; wp.
    all: wp_call_any; try discriminate; wp.
    all: wp_call_with detect_features_always.
    all: match goal with H : exists _, _ |- _ => destruct H as (fs & -> & Hfs) end.
    all: cbn [flow_of]; wp.
    all: intros m' [= <-]; unfold has; cbn [available_features].
    all: rewrite !bool_decide_eq_true; exact Hfs. }
  intros Hrun. eapply (always_run _ _ _ _ _ _ H Hrun); eauto.
Qed.

Lemma set_thermal_profile_always (self : DAMXManager) (profile : string) :
  has self "thermal_profile" = true ->
  always (set_thermal_profile self (PStr profile)) (fun r d =>
    exists x line,
      r = Ok (is_ok x) /\
      d = [Ev (activate (scheme_guid (lower profile))) x; line] /\
      is_platform_call line = false).
Proof.
  intros Hf env t.
  destruct (run_set_thermal_profile self profile env t Hf) as (line & -> & Hl).
  simpl. eauto.
Qed.

(** ** Fan speed *)

Lemma valid_speeds_int {S R} (cpu gpu : Z) (s : S) :
  valid_speeds (R := R) (PInt cpu) (PInt gpu) s =
  PRet (s, Normal ((0 <=? cpu) && (cpu <=? 100) && ((0 <=? gpu) && (gpu <=? 100)))).
Proof.
  unfold valid_speeds, and_, lit_le, le_lit, bind, ret. cbn.
  destruct (0 <=? cpu), (cpu <=? 100), (0 <=? gpu), (gpu <=? 100); reflexivity.
Qed.

Lemma platform_calls_cons (e : Event) (d : list Event) :
  platform_calls (e :: d) =
  if is_platform_call e then e :: platform_calls d else platform_calls d.
Proof.
  unfold platform_calls. rewrite filter_cons.
  destruct (is_platform_call e); by case_decide.
Qed.

Lemma platform_calls_nil : platform_calls [] = [].
Proof. done. Qed.

(** Normalise the platform calls of a trace built from known events. *)
Ltac pc_simpl :=
  repeat first
    [ rewrite platform_calls_app
    | rewrite platform_calls_cons
    | rewrite platform_calls_nil
    | progress cbn [is_platform_call app] ].

Lemma guid_performance : scheme_guid (lower "performance") = performance_guid.
Proof. by vm_compute. Qed.

Lemma guid_balanced : scheme_guid (lower "balanced") = balanced_guid.
Proof. by vm_compute. Qed.

Lemma fan_fallback_always (m : DAMXManager) (cpu gpu : Z) :
  has m "thermal_profile" = true ->
  let high := (80 <=? cpu) && (80 <=? gpu) in
  let zero := (cpu =? 0) && (gpu =? 0) in
  always (fan_fallback m (PInt cpu) (PInt gpu) tt) (fun y d =>
    y = (tt, Return (high || zero)) /\
    exists x,
      platform_calls d =
      if high then [Ev (activate performance_guid) x]
      else if zero then [Ev (activate balanced_guid) x]
      else []).
Proof.
  intros Hth high zero. subst high zero.
  unfold fan_fallback, and_, ge_lit, eq_lit. rewrite Hth. cbn [as_num].
  wp.
  all: try (wp_call_with (fun p => set_thermal_profile_always m p Hth);
            match goal with H : exists _ _, _ |- _ =>
              destruct H as (r & line & -> & -> & Hl) end;
            cbn [flow_of]; wp).
  all: split; [done |].
  all: first [ exists r; pc_simpl;
               by rewrite ?Hl, ?guid_performance, ?guid_balanced
             | exists (Err no_wmi); by pc_simpl ].
Qed.

(** C2: on a manager as [__init__] builds it and with the fan feature
    present, when both speeds are in [0,100] and each of the three vendor
    methods ends without success, [set_fan_speed] falls back to the thermal
    profile: it returns [True] exactly when both speeds are at least 80
    (after running [powercfg /setactive] on the identifier of
    [performance]) or both are 0 (after running it on the identifier of
    [balanced]), and [False] without any further platform call
    otherwise. *)
Theorem set_fan_speed_fallback (int_of_str : string -> option Z)
    (env0 env : Oracle) (t0 t dm d1 d2 d3 : list Event) (m : DAMXManager)
    (cpu gpu : Z) :
  run env0 t0 DAMXManager_init = (Ok m, dm) ->
  has m "fan_speed" = true ->
  0 <= cpu <= 100 -> 0 <= gpu <= 100 ->
  run env t (fan_method1 (PInt cpu) (PInt gpu) tt) = ((tt, Normal tt), d1) ->
  run env (t ++ d1) (fan_method2 (PInt cpu) (PInt gpu) tt)
    = ((tt, Normal tt), d2) ->
  run env (t ++ d1 ++ d2) (fan_method3 int_of_str (PInt cpu) (PInt gpu) tt)
    = ((tt, Normal tt), d3) ->
  let high := (80 <=? cpu) && (80 <=? gpu) in
  let zero := (cpu =? 0) && (gpu =? 0) in
  exists d4,
    run env t (set_fan_speed int_of_str m (PInt cpu) (PInt gpu))
    = (Ok (high || zero), d1 ++ d2 ++ d3 ++ d4) /\
    exists x,
      platform_calls d4 =
      if high then [Ev (activate performance_guid) x]
      else if zero then [Ev (activate balanced_guid) x]
      else [].
Proof.
  intros Hinit Hfan Hcpu Hgpu H1 H2 H3 high zero.
  pose proof (init_features _ _ _ _ Hinit Hfan) as Hth.
  unfold set_fan_speed. rewrite Hfan, run_def. cbn [negb].
  unfold bind at 1. rewrite valid_speeds_int. cbn [pbind].
  replace ((0 <=? cpu) && (cpu <=? 100) && ((0 <=? gpu) && (gpu <=? 100)))
    with true by (symmetry; rewrite !andb_true_iff, !Z.leb_le; lia).
  cbn [negb]. rewrite run_try_except, run_bind, H1.
  rewrite run_bind, H2. rewrite run_bind, <- app_assoc, H3.
  pose proof (fan_fallback_always m cpu gpu Hth env ((t ++ d1 ++ d2) ++ d3))
    as Hfb.
  destruct (run env ((t ++ d1 ++ d2) ++ d3) (fan_fallback m (PInt cpu) (PInt gpu) ()))
    as [y d4].
  simpl in Hfb. destruct Hfb as [-> Hx]. simpl. by exists d4.
Qed.

Lemma set_fan_speed_fallback_witness :
  has predator_manager "fan_speed" = true /\
  exists d,
    run predator [] (set_fan_speed (fun _ => None) predator_manager
                       (PInt 90) (PInt 90))
    = (Ok true, d).
Proof.
  assert (Hf : has predator_manager "fan_speed" = true)
    by (vm_compute; reflexivity).
  split; [exact Hf |].
  set (d1 := (run predator [] (fan_method1 (PInt 90) (PInt 90) tt)).2).
  set (d2 := (run predator ([] ++ d1) (fan_method2 (PInt 90) (PInt 90) tt)).2).
  set (d3 := (run predator ([] ++ d1 ++ d2)
                (fan_method3 (fun _ => None) (PInt 90) (PInt 90) tt)).2).
  destruct (set_fan_speed_fallback (fun _ => None) predator predator [] []
              (run predator [] DAMXManager_init).2 d1 d2 d3
              predator_manager 90 90)
    as (d4 & Hrun & _);
    [ vm_compute; reflexivity | exact Hf | lia | lia
    | vm_compute; reflexivity | vm_compute; reflexivity
    | vm_compute; reflexivity | ].
  eexists. exact Hrun.
Defined.

(** ** Dispatching a command *)

Section Dispatch.
Variable int_of_str : string -> option Z.
Variable repr : PyVal -> string.

Lemma always_dict_get {S R} (d : PyVal) (key : string) (dflt : PyVal) (s : S)
    (Q : S * Flow R PyVal -> list Event -> Prop) :
  (forall v, Q (s, Normal v) []) ->
  (forall e, Q (s, Raise e) []) ->
  always (dict_get d key dflt s) Q.
Proof.
  intros Hv He. destruct d; simpl; apply always_ret; auto.
Qed.

Lemma process_command_responds (manager : DAMXManager) (command params : PyVal) :
  always (process_command int_of_str repr manager command params) (fun r _ =>
    exists v, r = Ok v /\ is_response v).
Proof.
  unfold process_command, one_param.
  repeat first
    [ wp_step
    | apply always_dict_get; intros ?; cbn [fst snd flow_of result_of]
    | wp_call_any ].
  all: eexists; (split; [reflexivity |]).
  all: unfold is_response, outcome, verdict, not_supported.
  all: repeat match goal with b : bool |- _ => destruct b end; by eauto.
Qed.

Lemma process_command_unknown (manager : DAMXManager) (s : string)
    (params : PyVal) (env : Oracle) (t : list Event) :
  s ∉ commands ->
  run env t (process_command int_of_str repr manager (PStr s) params) =
  (Ok (PDict [ ("success", PBool false);
               ("error", PStr ("Unknown command: " +:+ s)) ]),
   [Ev (Log INFO "Processing command: {} with params: {}" [PStr s; params]) tt]).
Proof.
  intros Hs. unfold commands in Hs.
  repeat (apply not_elem_of_cons in Hs as [?%String.eqb_neq Hs]).
  unfold process_command, eq_str.
  repeat match goal with
         | H : String.eqb s _ = false |- _ => rewrite H; clear H
         end.
  cbn.
  by destruct (env t unit _).
Qed.

(** C10: [process_command] always returns a response dict and never
    raises, whatever the command, the parameters and the platform; and a
    command string outside the dispatch chain gets the
    [Unknown command: <command>] response after the one log line that
    opens [process_command], with no manager operation and no platform call
    in between. *)
Theorem process_command_total (manager : DAMXManager) (command params : PyVal)
    (env : Oracle) (t : list Event) :
  (exists v d,
     run env t (process_command int_of_str repr manager command params)
     = (Ok v, d) /\ is_response v) /\
  (forall s, command = PStr s -> s ∉ commands ->
     run env t (process_command int_of_str repr manager command params) =
     (Ok (PDict [ ("success", PBool false);
                  ("error", PStr ("Unknown command: " +:+ s)) ]),
      [Ev (Log INFO "Processing command: {} with params: {}" [command; params])
          tt])).
Proof.
  split.
  - pose proof (process_command_responds manager command params env t) as H.
    destruct (run env t _) as [r d]. simpl in H.
    destruct H as (v & -> & Hv). eauto.
  - intros s -> Hs. by apply process_command_unknown.
Qed.
End Dispatch.

Lemma process_command_total_witness :
  ("bogus" ∉ commands) /\
  run (failing no_wmi) []
    (process_command (fun _ => None) (fun _ => "") (manager_with ∅)
       (PStr "bogus") (PDict [])) =
  (Ok (PDict [ ("success", PBool false);
               ("error", PStr "Unknown command: bogus") ]),
   [Ev (Log INFO "Processing command: {} with params: {}"
          [PStr "bogus"; PDict []]) tt]).
Proof.
  assert (H : "bogus" ∉ commands).
  { unfold commands. rewrite <- (bool_decide_spec (_ ∉ _)). by vm_compute. }
  split; [exact H |].
  exact (proj2 (process_command_total (fun _ => None) (fun _ => "")
                  (manager_with ∅) (PStr "bogus") (PDict [])
                  (failing no_wmi) []) "bogus" eq_refl H).
Defined.

(** ** The getters and [get_all_settings] *)

(** A [try] whose handler catches everything and does not raise lets no
    exception out, whatever its body does. *)
Lemma always_guarded {S R A} (body : M S R A) (handler : Exn -> M S R A)
    (s : S) (Q : S * Flow R A -> list Event -> Prop) :
  (forall s' a d, Q (s', Normal a) d) ->
  (forall s' r d, Q (s', Return r) d) ->
  (forall e s' d, always (handler e s') (fun y d' => Q y (d ++ d'))) ->
  always (try_except body handler s) Q.
Proof.
  intros Hn Hr Hh. apply always_try_except, always_any.
  intros [s' [a | r | e]] d; simpl; auto.
Qed.

Lemma get_driver_version_total (self : DAMXManager) :
  always (get_driver_version self) (fun r _ => exists v, r = Ok v).
Proof.
  unfold get_driver_version. wp_step.
  apply always_guarded; cbn; intros; wp; eauto.
Qed.

Lemma get_thermal_profile_total (self : DAMXManager) :
  always (get_thermal_profile self) (fun r _ => exists v, r = Ok v).
Proof.
  unfold get_thermal_profile. wp_step. wp_step; [wp; eauto |].
  apply always_guarded; cbn; intros; wp; eauto.
Qed.

Section Settings.
Variable int_of_str : string -> option Z.
Variable repr : PyVal -> string.

Lemma get_fan_speed_total (self : DAMXManager) :
  always (get_fan_speed int_of_str repr self) (fun r _ => exists v, r = Ok v).
Proof.
  unfold get_fan_speed. wp_step. wp_step; [wp; eauto |].
  apply always_guarded; cbn; intros; wp; eauto.
Qed.

Lemma dict_set_keys (d : list (string * PyVal)) (key : string) (v : PyVal) :
  key ∈ dict_keys (dict_set d key v) /\
  (forall k, k ∈ dict_keys d -> k ∈ dict_keys (dict_set d key v)).
Proof.
  unfold dict_keys. induction d as [| [k w] d [IH1 IH2]]; simpl.
  - split; [left | by intros k ?%elem_of_nil].
  - destruct (String.eqb k key) eqn:E; simpl.
    + apply String.eqb_eq in E as ->. split; [left | done].
    + split; [by right |].
      intros k' [-> | Hk']%elem_of_cons; [left | right; auto].
Qed.

Lemma covered_setitem (self : DAMXManager) (K : list string)
    (d : list (string * PyVal)) (f : string) (v : PyVal) :
  covered self K d -> covered self (f :: K) (dict_set d f v).
Proof.
  intros Hc g [-> | Hg]%elem_of_cons Hen.
  - apply (proj1 (dict_set_keys d f v)).
  - apply (proj2 (dict_set_keys d f v)). by apply Hc.
Qed.

Lemma covered_skip (self : DAMXManager) (K : list string)
    (d : list (string * PyVal)) (f : string) :
  has self f = false -> covered self K d -> covered self (f :: K) d.
Proof.
  intros Hf Hc g [-> | Hg]%elem_of_cons Hen; [congruence | by apply Hc].
Qed.

(** A block [if "f" in self.available_features: settings["f"] = v]. *)
Lemma always_report {R} (self : DAMXManager) (K : list string)
    (f : string) (v : PyVal) (s : list (string * PyVal)) :
  covered self K s -> "thermal_profile" ∈ dict_keys s ->
  always ((if has self f then setitem (R := R) f v else ret tt) s)
    (fun y _ => exists s',
       y = (s', Normal tt) /\ covered self (f :: K) s' /\
       "thermal_profile" ∈ dict_keys s').
Proof.
  intros Hc Ht. destruct (has self f) eqn:Hf; apply always_ret.
  - eexists. split; [reflexivity |]. split; [by apply covered_setitem |].
    by apply (proj2 (dict_set_keys s f v)).
  - eexists. split; [reflexivity |]. split; [by apply covered_skip | done].
Qed.

Lemma always_report_fans {R} (self : DAMXManager) (K : list string)
    (s : list (string * PyVal)) :
  covered self K s -> "thermal_profile" ∈ dict_keys s ->
  always ((if has self "fan_speed" then
             fans <- call (get_fan_speed int_of_str repr self) ;;
             setitem (R := R) "fan_speed"
               (PDict [ ("cpu", PStr fans.1); ("gpu", PStr fans.2) ])
           else ret tt) s)
    (fun y _ => exists s',
       y = (s', Normal tt) /\ covered self ("fan_speed" :: K) s' /\
       "thermal_profile" ∈ dict_keys s').
Proof.
  intros Hc Ht. destruct (has self "fan_speed") eqn:Hf.
  - wp_step. wp_call_with get_fan_speed_total.
    match goal with H : exists _, _ |- _ => destruct H as (fans & ->) end.
    cbn [flow_of]. apply always_ret.
    eexists. split; [reflexivity |]. split; [by apply covered_setitem |].
    by apply (proj2 (dict_set_keys s _ _)).
  - apply always_ret.
    eexists. split; [reflexivity |]. split; [by apply covered_skip | done].
Qed.

Lemma always_report_thermal {R} (self : DAMXManager)
    (s : list (string * PyVal)) :
  always ((if has self "thermal_profile" then
             current <- call (get_thermal_profile self) ;;
             setitem (R := R) "thermal_profile"
               (PDict [ ("current", PStr current);
                        ("available",
                         PList (PStr <$> get_thermal_profile_choices self)) ])
           else
             setitem "thermal_profile"
               (PDict [ ("current", PStr ""); ("available", PList []) ])) s)
    (fun y _ => exists s',
       y = (s', Normal tt) /\ covered self ["thermal_profile"] s' /\
       "thermal_profile" ∈ dict_keys s').
Proof.
  assert (Hnil : covered self [] s) by (by intros f ?%elem_of_nil).
  destruct (has self "thermal_profile") eqn:Hf.
  - wp_step. wp_call_with get_thermal_profile_total.
    match goal with H : exists _, _ |- _ => destruct H as (cur & ->) end.
    cbn [flow_of]. apply always_ret.
    eexists. split; [reflexivity |]. split; [by apply covered_setitem |].
    apply (proj1 (dict_set_keys s _ _)).
  - apply always_ret.
    eexists. split; [reflexivity |]. split; [by apply covered_setitem |].
    apply (proj1 (dict_set_keys s _ _)).
Qed.

(** Run one reporting block and keep what it establishes. *)
Ltac wp_block lem :=
  apply always_bind; eapply always_mono; [apply lem; eassumption |];
  cbn beta; intros [? ?] ? (? & [= -> ->] & ? & ?); cbn [fst snd].

Lemma get_all_settings_always (self : DAMXManager) :
  always (get_all_settings int_of_str repr self) (fun r _ =>
    exists settings,
      r = Ok (PDict settings) /\
      "thermal_profile" ∈ dict_keys settings /\
      covered self reported_features settings).
Proof.
  unfold get_all_settings. wp_step. wp_step.
  wp_call_with get_driver_version_total.
  match goal with H : exists _, _ |- _ => destruct H as (dv & ->) end.
  cbn [flow_of]. wp_step. wp_step.
  apply always_bind; eapply always_mono; [apply (always_report_thermal (R := PyVal)) |].
  cbn beta; intros [? ?] ? (? & [= -> ->] & ? & ?); cbn [fst snd].
  do 4 wp_block (always_report (R := PyVal)).
  wp_block (always_report_fans (R := PyVal)).
  do 4 wp_block (always_report (R := PyVal)).
  wp. eexists. split; [reflexivity |]. split; [done |].
  intros f Hf. unfold reported_features in Hf.
  match goal with H : covered _ _ _ |- _ => apply H end.
  repeat (apply elem_of_cons in Hf as [-> | Hf]); [repeat constructor .. |].
  by apply elem_of_nil in Hf.
Qed.

(** C5, amended: [get_all_settings] never raises, whatever the platform
    does under the getters, every query failing included: it returns a
    settings map that always has the [thermal_profile] entry and has the
    entry of every reported feature that is enabled.  A failure inside a
    getter is caught by that getter, whose default value is then reported;
    no feature is left out because its query failed. *)
Theorem get_all_settings_total (self : DAMXManager) (env : Oracle)
    (t : list Event) :
  exists settings d,
    run env t (get_all_settings int_of_str repr self) = (Ok (PDict settings), d) /\
    "thermal_profile" ∈ dict_keys settings /\
    covered self reported_features settings.
Proof.
  pose proof (get_all_settings_always self env t) as H.
  destruct (run env t _) as [r d]. simpl in H.
  destruct H as (settings & -> & Hth & Hcov). eauto.
Qed.
End Settings.

(** C5, as stated, fails: on a machine where every query fails, the
    thermal-profile getter's [powercfg] query raises, and [thermal_profile]
    is in the settings map all the same (with the getter's default). *)
Lemma get_all_settings_keeps_failed_getter :
  ~ excludes_failed_getter (fun _ => None) (fun _ => "").
Proof.
  intros H.
  set (self := manager_with {["thermal_profile"]}).
  set (r := run (failing no_wmi) [] (get_all_settings (fun _ => None) (fun _ => "") self)).
  set (settings := match r.1 with Ok (PDict kvs) => kvs | _ => [] end).
  assert (Hr : r = (Ok (PDict settings), r.2)) by (vm_compute; reflexivity).
  apply (H (failing no_wmi) [] self settings r.2 no_wmi Hr).
  - vm_compute. repeat constructor.
  - vm_compute. repeat constructor.
Qed.

(** ** The power monitor *)

Section Monitor.
Context {T : Type} `{ManagerLike T}.
Variable mgr : T.

(** C3: on a transition to battery power, with a manager that has the
    thermal-profile feature and whose current profile is not one of
    [balanced], [quiet], [low-power], the monitor logs the switch to
    battery power and then applies (announces and calls
    [set_thermal_profile] on) the first of [balanced], [quiet],
    [low-power] that is in the list of available profiles; when none of
    the three is available it logs a warning and calls no setter. *)
Theorem battery_transition (features : gset string) (env : Oracle)
    (t dg dc : list Event) (current : string) (available : list string) :
  mgr_available_features mgr = Some features ->
  "thermal_profile" ∈ features ->
  run env t (mgr_get_thermal_profile mgr) = (Ok current, dg) ->
  run env (t ++ dg) (mgr_get_thermal_profile_choices mgr) = (Ok available, dc) ->
  current ∉ battery_friendly ->
  let logged := [Ev (Log INFO "Switched to battery power" []) tt] in
  match spec_first_friendly available with
  | Some p =>
      let announce :=
        [Ev (Log INFO ("Auto-switching to " +:+ p +:+ " mode for battery power") [])
            tt] in
      let '(r, ds) :=
        run env (t ++ dg ++ dc ++ logged ++ announce)
          (mgr_set_thermal_profile mgr p) in
      run env t (_handle_power_change mgr false) =
      (match r with Ok _ => Ok tt | Err e => Err e end,
       dg ++ dc ++ logged ++ announce ++ ds)
  | None =>
      run env t (_handle_power_change mgr false) =
      (Ok tt,
       dg ++ dc ++ logged ++
       [Ev (Log WARNING "No battery-friendly thermal profile available" []) tt])
  end.
Proof.
  intros Hfeat Hth Hget Hch Hcur logged.
  unfold _handle_power_change. rewrite Hfeat.
  rewrite (bool_decide_eq_true_2 _ Hth). cbn [negb].
  rewrite run_def, run_bind, run_call, Hget. cbn [flow_of].
  rewrite run_bind, run_call, Hch.
  rewrite (bool_decide_eq_false_2 _ Hcur). cbn [negb].
  rewrite run_bind. cbn [log perform run].
  rewrite (unit_tt (env _ unit _)).
  unfold spec_first_friendly, battery_friendly. cbn [List.find].
  subst logged.
  repeat (destruct (bool_decide (_ ∈ available)));
    rewrite run_bind; cbn [log perform run];
    rewrite (unit_tt (env _ unit _));
    try (rewrite run_bind, run_call);
    repeat rewrite <- app_assoc; cbn [app String.append];
    try (destruct (run env _ (mgr_set_thermal_profile mgr _)) as [[b | e] ds]);
    cbn; by rewrite ?app_nil_r.
Qed.
End Monitor.

Lemma battery_transition_witness :
  ("performance" ∉ battery_friendly) /\
  run on_battery [] (_handle_power_change (manager_with {["thermal_profile"]}) false) =
  (Ok tt,
   [ Ev active_scheme
       (Ok {| returncode := 0;
              stdout := "Power Scheme GUID: 8c5e7fda-e8bf-4a96-9a85-a6e23a8c635c  (High performance)" |});
     Ev (Log INFO "Switched to battery power" []) tt;
     Ev (Log INFO "Auto-switching to balanced mode for battery power" []) tt;
     Ev (activate balanced_guid)
       (Ok {| returncode := 0;
              stdout := "Power Scheme GUID: 8c5e7fda-e8bf-4a96-9a85-a6e23a8c635c  (High performance)" |});
     Ev (Log INFO "Set power scheme to: {}" [PStr "balanced"]) tt ]).
Proof.
  assert (Hcur : "performance" ∉ battery_friendly).
  { apply (bool_decide_unpack _). vm_compute. exact I. }
  split; [exact Hcur |].
  set (m := manager_with {["thermal_profile"]}).
  assert (Hth : "thermal_profile" ∈ ({["thermal_profile"]} : gset string)).
  { apply (bool_decide_unpack _). vm_compute. exact I. }
  pose proof (battery_transition m {["thermal_profile"]} on_battery []
                (run on_battery [] (mgr_get_thermal_profile m)).2 []
                "performance" thermal_profiles eq_refl Hth) as W.
  assert (Hget : run on_battery [] (mgr_get_thermal_profile m)
                 = (Ok "performance", (run on_battery [] (mgr_get_thermal_profile m)).2))
    by (vm_compute; reflexivity).
  specialize (W Hget).
  assert (Hch : run on_battery ([] ++ (run on_battery [] (mgr_get_thermal_profile m)).2)
                  (mgr_get_thermal_profile_choices m)
                = (Ok thermal_profiles, []))
    by (vm_compute; reflexivity).
  specialize (W Hch Hcur).
  vm_compute in W. vm_compute. exact W.
Defined.

(** Without the thermal-profile feature the handler returns at once:
    nothing is read, logged or applied. *)
Lemma power_change_without_feature {T} `{ManagerLike T} (mgr : T)
    (is_plugged_in : bool) (env : Oracle) (t : list Event) :
  match mgr_available_features mgr with
  | Some features => "thermal_profile" ∉ features
  | None => True
  end ->
  run env t (_handle_power_change mgr is_plugged_in) = (Ok tt, []).
Proof.
  unfold _handle_power_change.
  destruct (mgr_available_features mgr) as [features |]; [| done].
  intros Hf. by rewrite (bool_decide_eq_false_2 _ Hf).
Qed.

Lemma check_using_powershell_total :
  always _check_using_powershell (fun r _ => exists b, r = Ok b).
Proof.
  unfold _check_using_powershell. wp_step.
  apply always_guarded; cbn beta; intros; wp; eauto.
Qed.

(** Reading the power state never raises. *)
Lemma is_ac_connected_total :
  always _is_ac_connected (fun r _ => exists b, r = Ok b).
Proof.
  unfold _is_ac_connected. wp_step.
  apply always_guarded; cbn beta; intros; eauto.
  destruct e; wp; eauto.
  all: wp_call_with check_using_powershell_total.
  all: match goal with H : exists _, _ |- _ => destruct H as (b & ->) end.
  all: cbn [flow_of]; wp; eauto.
Qed.

Lemma set_thermal_profile_total (self : DAMXManager) (profile : string) :
  always (set_thermal_profile self (PStr profile))
    (fun r _ => exists b, r = Ok b).
Proof.
  unfold set_thermal_profile. wp_step. wp_step; [wp; eauto |].
  wp_step. cbn [str_lower]. wp_step.
  apply always_guarded; cbn beta; intros; wp; eauto.
Qed.

(** With the daemon's manager the handler never raises: the manager's
    getter and setter catch what the platform raises. *)
Lemma handle_power_change_total (m : DAMXManager) (is_plugged_in : bool) :
  always (_handle_power_change m is_plugged_in) (fun r _ => r = Ok tt).
Proof.
  unfold _handle_power_change.
  cbn [mgr_available_features mgr_get_thermal_profile
       mgr_get_thermal_profile_choices mgr_set_thermal_profile
       DAMXManager_ManagerLike].
  wp_step. wp_step; [wp; done |].
  wp_step. wp_call_with get_thermal_profile_total.
  match goal with H : exists _, _ |- _ => destruct H as (cur & ->) end.
  cbn [flow_of]. wp_step. apply always_call, always_ret.
  cbn [fst snd flow_of].
  repeat (first [ wp_step
                | wp_call_with set_thermal_profile_total;
                  match goal with
                  | H : exists _, _ |- _ => destruct H as (? & ->)
                  end; cbn [flow_of] ]);
    done.
Qed.

Lemma differs_same (b : bool) : differs b (Some b) = false.
Proof. by destruct b. Qed.

Lemma differs_other (b : bool) (source : option bool) :
  source <> Some b -> differs b source = true.
Proof. destruct source as [[] |], b; simpl; congruence. Qed.

(** Scheduling the next check: a new timer for the interval of the
    detector is created, stored and started. *)
Lemma run_schedule_next (env : Oracle) (t : list Event)
    (self : PowerSourceDetector) :
  let id := env t _ (TimerNew (check_interval self)) in
  let r := env (t ++ [Ev (TimerNew (check_interval self)) id]) _
             (TimerStart id) in
  run env t (schedule_next self) =
  (({| current_source := current_source self;
       check_interval := check_interval self;
       timer := Some id |},
    match r with Ok _ => Normal tt | Err e => Raise e end),
   [Ev (TimerNew (check_interval self)) id; Ev (TimerStart id) r]).
Proof.
  unfold schedule_next. cbn.
  by destruct (env _ (Result unit) (TimerStart _)) as [[] | e].
Qed.


(** ** Serving a connection *)

Lemma run_try_finally {S R A} (env : Oracle) (t : list Event) (s : S)
    (body : M S R A) (fin : M S R unit) :
  run env t (try_finally body fin s) =
  let '((s', fl), d) := run env t (body s) in
  let '((s'', fl'), d') := run env (t ++ d) (fin s') in
  ((s'', match fl' with
         | Normal _ => fl
         | Return r => Return r
         | Raise e => Raise e
         end), d ++ d').
Proof.
  unfold try_finally. rewrite run_pbind.
  destruct (run env t (body s)) as [[s' fl] d]. rewrite run_pbind.
  destruct (run env (t ++ d) (fin s')) as [[s'' fl'] d'].
  destruct fl'; simpl; by rewrite app_nil_r.
Qed.

Section Channel.
Variable int_of_str : string -> option Z.
Variable repr : PyVal -> string.
Variable json_loads : string -> Result PyVal.
Variable json_dumps : PyVal -> string.
Variable decode_utf8 : bytes -> Result string.

Abbreviation serve := (serve_request int_of_str repr json_loads json_dumps decode_utf8).
Abbreviation client := (handle_client int_of_str repr json_loads json_dumps decode_utf8).
Abbreviation frame_of := (framed json_dumps).

(** An iteration that ends with [continue] is followed by the rest of the
    loop, on the same handle and inside the same [try] blocks. *)
Lemma handle_client_continues (env : Oracle) (t d1 : list Event)
    (self : DaemonServer) (pipe_handle : Handle) (fuel : nat) :
  running self = true ->
  run env t (loop_body (R := unit) (serve pipe_handle) self)
  = ((self, Normal Continue), d1) ->
  run env t (client (S fuel) pipe_handle self) =
  let '(out, d) := run env (t ++ d1) (client fuel pipe_handle self) in
  (out, d1 ++ d).
Proof.
  intros Hrun Hstep. unfold handle_client.
  rewrite !run_try_finally, !run_try_except.
  cbn [while_]. rewrite run_bind. cbn [bind get ret pbind run].
  rewrite Hrun, app_nil_r. cbn [app]. rewrite run_bind, Hstep.
  destruct (run env (t ++ d1) (while_ fuel _ _ self)) as [[s' [a | r | e]] dw];
    repeat rewrite <- app_assoc;
    repeat match goal with
           | |- context [run env ?h ?p] =>
               destruct (run env h p) as [[? ?] ?];
               repeat rewrite <- app_assoc
           end;
    done.
Qed.

Lemma frame_small {S R} (response : PyVal) (s : S) :
  Z.of_nat (length (encode_utf8 (json_dumps response))) < 2 ^ 32 ->
  frame (R := R) json_dumps response s = PRet (s, Normal (frame_of response)).
Proof.
  intros Hlen. unfold frame, to_bytes4, framed.
  replace ((0 <=? _) && (_ <? 2 ^ 32)) with true; [done |].
  symmetry. apply andb_true_iff. split; [apply Z.leb_le | apply Z.ltb_lt]; lia.
Qed.

(** An iteration on a payload whose parsing raises [e]. *)
Lemma serve_request_unparsed (env : Oracle) (t : list Event)
    (self : DaemonServer) (pipe_handle : Handle)
    (length_data data : bytes) (e : Exn) :
  let e1 := Ev (ReadFile pipe_handle 4) (Ok (0, length_data)) in
  let e2 := Ev (ReadFile pipe_handle (from_bytes_little length_data))
               (Ok (0, data)) in
  let reply :=
    match e with
    | JSONDecodeError _ =>
        PDict [ ("success", PBool false);
                ("error", PStr "Invalid JSON format") ]
    | _ => PDict [ ("success", PBool false); ("error", PStr (exn_str e)) ]
    end in
  let logged :=
    match e with
    | JSONDecodeError _ => [Ev (Log ERROR "Invalid JSON received" []) tt]
    | _ =>
        let line :=
          Ev (Log ERROR "Error processing request: {}" [PStr (exn_str e)])
             tt in
        let tb := env (t ++ [e1; e2; line]) _ FormatExc in
        [line; Ev FormatExc tb; Ev (Log ERROR "{}" [PStr tb]) tt]
    end in
  env t _ (ReadFile pipe_handle 4) = Ok (0, length_data) ->
  (4 <= length length_data)%nat ->
  env (t ++ [e1]) _ (ReadFile pipe_handle (from_bytes_little length_data))
  = Ok (0, data) ->
  (decode_utf8 data = Err e \/
   exists text, decode_utf8 data = Ok text /\ json_loads text = Err e) ->
  (forall winerror msg, e <> PywinError winerror msg) ->
  Z.of_nat (length (encode_utf8 (json_dumps reply))) < 2 ^ 32 ->
  env (t ++ [e1; e2] ++ logged) _ (WriteFile pipe_handle (frame_of reply))
  = Ok tt ->
  run env t (loop_body (R := unit) (serve pipe_handle) self)
  = ((self, Normal Continue),
     [e1; e2] ++ logged ++
     [Ev (WriteFile pipe_handle (frame_of reply)) (Ok tt)]).
Proof.
  intros e1 e2 reply logged Hr1 Hlen Hr2 Hparse Hpipe Hsmall Hw.
  assert (Hcmp : (length length_data <? 4)%nat = false) by by apply Nat.ltb_ge.
  unfold loop_body, serve_request, try_except, bind, attempt, of_result.
  cbn -[from_bytes_little Nat.ltb frame framed].
  rewrite Hr1. cbn -[from_bytes_little Nat.ltb frame framed].
  rewrite Hcmp. cbn -[from_bytes_little Nat.ltb frame framed].
  fold e1. rewrite Hr2. cbn -[from_bytes_little Nat.ltb frame framed].
  fold e2.
  destruct Hparse as [Hdec | (text & Hdec & Hjson)]; rewrite Hdec;
    cbn -[from_bytes_little Nat.ltb frame framed];
    rewrite ?Hjson; cbn -[from_bytes_little Nat.ltb frame framed];
    (destruct e as [winerror msg | msg | msg | cls msg];
     [ by destruct (Hpipe winerror msg) | .. ]);
    subst reply logged;
    cbn -[from_bytes_little Nat.ltb frame framed] in *;
    rewrite frame_small by done;
    cbn -[from_bytes_little Nat.ltb frame framed];
    repeat match goal with
           | |- context [env ?h unit ?c] => rewrite (unit_tt (env h unit c))
           end;
    repeat rewrite <- app_assoc; cbn [app];
    repeat rewrite <- app_assoc in Hw; cbn [app] in Hw;
    rewrite Hw; reflexivity.
Qed.

Lemma serve_request_valid (env : Oracle) (t dp : list Event)
    (self : DaemonServer) (pipe_handle : Handle)
    (length_data data : bytes) (text : string)
    (request : list (string * PyVal)) (response : PyVal) :
  let e1 := Ev (ReadFile pipe_handle 4) (Ok (0, length_data)) in
  let e2 := Ev (ReadFile pipe_handle (from_bytes_little length_data))
               (Ok (0, data)) in
  let command :=
    default (PStr "")
      (snd <$> List.find (fun kv => String.eqb kv.1 "command") request) in
  let params :=
    default (PDict [])
      (snd <$> List.find (fun kv => String.eqb kv.1 "params") request) in
  env t _ (ReadFile pipe_handle 4) = Ok (0, length_data) ->
  (4 <= length length_data)%nat ->
  env (t ++ [e1]) _ (ReadFile pipe_handle (from_bytes_little length_data))
  = Ok (0, data) ->
  decode_utf8 data = Ok text ->
  json_loads text = Ok (PDict request) ->
  run env (t ++ [e1; e2])
    (process_command int_of_str repr (manager self) command params)
  = (Ok response, dp) ->
  Z.of_nat (length (encode_utf8 (json_dumps response))) < 2 ^ 32 ->
  env (t ++ [e1; e2] ++ dp) _ (WriteFile pipe_handle (frame_of response))
  = Ok tt ->
  run env t (loop_body (R := unit) (serve pipe_handle) self)
  = ((self, Normal Continue),
     [e1; e2] ++ dp ++ [Ev (WriteFile pipe_handle (frame_of response)) (Ok tt)]).
Proof.
  intros e1 e2 command params Hr1 Hlen Hr2 Hdec Hjson Hcmd Hsmall Hw.
  assert (Hcmp : (length length_data <? 4)%nat = false) by by apply Nat.ltb_ge.
  unfold loop_body, serve_request, try_except, bind, attempt, call, of_result.
  cbn -[from_bytes_little Nat.ltb frame framed process_command].
  rewrite Hr1. cbn -[from_bytes_little Nat.ltb frame framed process_command].
  rewrite Hcmp. cbn -[from_bytes_little Nat.ltb frame framed process_command].
  fold e1. rewrite Hr2.
  cbn -[from_bytes_little Nat.ltb frame framed process_command].
  rewrite Hdec. cbn -[from_bytes_little Nat.ltb frame framed process_command].
  rewrite Hjson. cbn -[from_bytes_little Nat.ltb frame framed process_command].
  fold e2 command params.
  replace ((t ++ [e1]) ++ [e2]) with (t ++ [e1; e2])
    by (by rewrite <- app_assoc).
  repeat rewrite run_pbind. rewrite Hcmd.
  cbn -[from_bytes_little Nat.ltb frame framed process_command].
  rewrite frame_small by done.
  cbn -[from_bytes_little Nat.ltb frame framed process_command].
  repeat rewrite app_nil_r. repeat rewrite <- app_assoc. cbn [app].
  cbn [app] in Hw. rewrite Hw. cbn. by repeat rewrite app_nil_r.
Qed.

(** C7, amended: on a connection of a running server, a frame whose
    payload cannot be parsed is answered, and how depends on what the
    parsing raises.  When [json.loads] raises [JSONDecodeError] (the
    payload is text, but not JSON) the answer is exactly the frame of
    [{"success": false, "error": "Invalid JSON format"}], after the line
    [Invalid JSON received] in the log.  When the parsing raises anything
    else (the payload is not UTF-8, or it is nested deeper than the
    recursion limit) the answer is the frame of
    [{"success": false, "error": str(e)}], after the error and its
    traceback in the log.  In both cases, once the answer is written the
    loop goes on with the same handle, which is not closed: a following
    well-formed request on the connection is read, dispatched to
    [process_command] and answered with the frame of its response, after
    which the handler is in its loop again. *)
Theorem malformed_json_keeps_connection (env : Oracle) (t dp : list Event)
    (self : DaemonServer) (pipe_handle : Handle) (fuel : nat)
    (length_data data : bytes) (e : Exn)
    (length_data' data' : bytes) (text' : string)
    (request : list (string * PyVal)) (response : PyVal) :
  running self = true ->
  let e1 := Ev (ReadFile pipe_handle 4) (Ok (0, length_data)) in
  let e2 := Ev (ReadFile pipe_handle (from_bytes_little length_data))
               (Ok (0, data)) in
  let reply :=
    match e with
    | JSONDecodeError _ =>
        PDict [ ("success", PBool false);
                ("error", PStr "Invalid JSON format") ]
    | _ => PDict [ ("success", PBool false); ("error", PStr (exn_str e)) ]
    end in
  let logged :=
    match e with
    | JSONDecodeError _ => [Ev (Log ERROR "Invalid JSON received" []) tt]
    | _ =>
        let line :=
          Ev (Log ERROR "Error processing request: {}" [PStr (exn_str e)])
             tt in
        let tb := env (t ++ [e1; e2; line]) _ FormatExc in
        [line; Ev FormatExc tb; Ev (Log ERROR "{}" [PStr tb]) tt]
    end in
  let d1 :=
    [e1; e2] ++ logged ++
    [Ev (WriteFile pipe_handle (frame_of reply)) (Ok tt)] in
  (* parsing the payload of the first frame raises [e] *)
  env t _ (ReadFile pipe_handle 4) = Ok (0, length_data) ->
  (4 <= length length_data)%nat ->
  env (t ++ [e1]) _ (ReadFile pipe_handle (from_bytes_little length_data))
  = Ok (0, data) ->
  (decode_utf8 data = Err e \/
   exists text, decode_utf8 data = Ok text /\ json_loads text = Err e) ->
  (forall winerror msg, e <> PywinError winerror msg) ->
  Z.of_nat (length (encode_utf8 (json_dumps reply))) < 2 ^ 32 ->
  env (t ++ [e1; e2] ++ logged) _ (WriteFile pipe_handle (frame_of reply))
  = Ok tt ->
  (* the second frame is a request *)
  let e5 := Ev (ReadFile pipe_handle 4) (Ok (0, length_data')) in
  let e6 := Ev (ReadFile pipe_handle (from_bytes_little length_data'))
               (Ok (0, data')) in
  let command :=
    default (PStr "")
      (snd <$> List.find (fun kv => String.eqb kv.1 "command") request) in
  let params :=
    default (PDict [])
      (snd <$> List.find (fun kv => String.eqb kv.1 "params") request) in
  env (t ++ d1) _ (ReadFile pipe_handle 4) = Ok (0, length_data') ->
  (4 <= length length_data')%nat ->
  env ((t ++ d1) ++ [e5]) _
    (ReadFile pipe_handle (from_bytes_little length_data'))
  = Ok (0, data') ->
  decode_utf8 data' = Ok text' ->
  json_loads text' = Ok (PDict request) ->
  run env ((t ++ d1) ++ [e5; e6])
    (process_command int_of_str repr (manager self) command params)
  = (Ok response, dp) ->
  Z.of_nat (length (encode_utf8 (json_dumps response))) < 2 ^ 32 ->
  env ((t ++ d1) ++ [e5; e6] ++ dp) _
    (WriteFile pipe_handle (frame_of response))
  = Ok tt ->
  let d2 :=
    [e5; e6] ++ dp ++ [Ev (WriteFile pipe_handle (frame_of response)) (Ok tt)] in
  run env t (client (S (S fuel)) pipe_handle self) =
  let '(out, d) := run env ((t ++ d1) ++ d2) (client fuel pipe_handle self) in
  (out, d1 ++ d2 ++ d).
Proof.
  intros Hrun e1 e2 reply logged d1 Hr1 Hlen Hr2 Hparse Hpipe Hsmall Hw
         e5 e6 command params Hr1' Hlen' Hr2' Hdec' Hjson' Hcmd Hsmall' Hw' d2.
  rewrite (handle_client_continues env t d1 self pipe_handle (S fuel) Hrun)
    by (by eapply serve_request_unparsed).
  rewrite (handle_client_continues env (t ++ d1) d2 self pipe_handle fuel Hrun)
    by (by eapply serve_request_valid).
  by destruct (run env ((t ++ d1) ++ d2) (client fuel pipe_handle self)).
Qed.
End Channel.

Lemma malformed_json_keeps_connection_witness :
  running a_server = true /\
  loads_examples "not json"
  = Err (JSONDecodeError "Expecting value: line 1 column 1 (char 0)") /\
  exists out rest,
    let pipe_handle := 0%nat in
    let version :=
      PDict [ ("success", PBool true);
              ("data", PDict [ ("version", PStr VERSION) ]) ] in
    run two_requests []
      (handle_client (fun _ => None) (fun _ => "") loads_examples dumps
         utf8_decode 2 pipe_handle a_server)
    = (out,
       ([ Ev (ReadFile pipe_handle 4) (Ok (0, le4 8));
          Ev (ReadFile pipe_handle 8)
             (Ok (0, String.list_byte_of_string "not json")) ] ++
        [ Ev (Log ERROR "Invalid JSON received" []) tt ] ++
        [ Ev (WriteFile pipe_handle
                (framed dumps
                   (PDict [ ("success", PBool false);
                            ("error", PStr "Invalid JSON format") ])))
             (Ok tt) ]) ++
       ([ Ev (ReadFile pipe_handle 4) (Ok (0, le4 26));
          Ev (ReadFile pipe_handle 26)
             (Ok (0, String.list_byte_of_string version_request)) ] ++
        [ Ev (Log INFO "Processing command: {} with params: {}"
                [PStr "get_version"; PDict []]) tt ] ++
        [ Ev (WriteFile pipe_handle (framed dumps version)) (Ok tt) ]) ++
       rest).
Proof.
  split; [reflexivity |]. split; [reflexivity |].
  pose proof (malformed_json_keeps_connection
                (fun _ => None) (fun _ => "") loads_examples dumps utf8_decode
                two_requests []
                [ Ev (Log INFO "Processing command: {} with params: {}"
                        [PStr "get_version"; PDict []]) tt ]
                a_server 0%nat 0%nat
                (le4 8) (String.list_byte_of_string "not json")
                (JSONDecodeError "Expecting value: line 1 column 1 (char 0)")
                (le4 26) (String.list_byte_of_string version_request)
                version_request
                [ ("command", PStr "get_version") ]
                (PDict [ ("success", PBool true);
                         ("data", PDict [ ("version", PStr VERSION) ]) ])
                eq_refl) as W.
  cbv zeta in W.
  repeat match type of W with
         | ?P -> _ =>
             let HP := fresh in
             assert (HP : P) by first [ reflexivity
                                      | vm_compute; reflexivity
                                      | simpl; lia
                                      | right; eexists; split; reflexivity
                                      | discriminate
                                      | intros; discriminate ];
             specialize (W HP); clear HP
         end.
  destruct (run two_requests _ (handle_client _ _ _ _ _ 0 _ _)) as [out rest].
  exists out, rest. exact W.
Defined.

(** C7, as stated, fails: a payload of one byte that is not UTF-8 fails to
    parse, and the answer is not the invalid-JSON response but the one that
    carries the text of the [UnicodeDecodeError]. *)
Lemma non_utf8_payload_gets_another_reply :
  ~ answers_invalid_json dumps utf8_decode.
Proof.
  intros H.
  specialize (H (fun _ => None) (fun _ => "") loads_examples garbled []
                a_server 0%nat (le4 1) [Byte.xff] eq_refl).
  assert (Hlen : (4 <= length (le4 1))%nat) by (simpl; lia).
  specialize (H Hlen eq_refl).
  assert (Hfail : forall text v,
            utf8_decode [Byte.xff] = Ok text -> loads_examples text <> Ok v)
    by (intros text v Hd; vm_compute in Hd; discriminate Hd).
  specialize (H Hfail). vm_compute in H. discriminate H.
Qed.

(** * Further properties of the daemon *)

(** ** Getters *)

(** X1: [get_thermal_profile] never raises.  Without the feature it answers
    [""] and asks nothing of the platform; with it, it makes the one
    [powercfg /getactivescheme] query and answers [balanced],
    [performance] or [low-power], never [quiet] or [balanced-performance],
    although both are among the choices on offer. *)
Theorem get_thermal_profile_range (self : DAMXManager) (env : Oracle)
    (t : list Event) :
  exists p d,
    run env t (get_thermal_profile self) = (Ok p, d) /\
    if has self "thermal_profile"
    then p ∈ ["balanced"; "performance"; "low-power"] /\
         d = [Ev active_scheme (env t _ active_scheme)]
    else p = "" /\ d = [].
Proof.
  unfold get_thermal_profile, active_scheme.
  destruct (has self "thermal_profile"); cbn; [| by eauto].
  destruct (env t (Result Completed) _) as [r | e]; cbn.
  - destruct (contains "balanced" _); cbn; [do 2 eexists; split; [done |];
      split; [repeat constructor | done] |].
    destruct (contains "high performance" _ || contains "performance" _); cbn;
      [do 2 eexists; split; [done |]; split; [repeat constructor | done] |].
    destruct (contains "power saver" _); cbn;
      do 2 eexists; (split; [done |]); (split; [repeat constructor | done]).
  - do 2 eexists; split; [done |]; split; [repeat constructor | done].
Qed.

Section FanReadings.
Variable int_of_str : string -> option Z.
Variable repr : PyVal -> string.

(** X2: [get_fan_speed] never raises, whatever the four sensor queries do, and
    without the feature it answers [("", "")] and asks nothing of the
    platform. *)
Theorem get_fan_speed_safe (self : DAMXManager) (env : Oracle)
    (t : list Event) :
  exists fans d,
    run env t (get_fan_speed int_of_str repr self) = (Ok fans, d) /\
    (has self "fan_speed" = false -> fans = ("", "") /\ d = []).
Proof.
  pose proof (get_fan_speed_total int_of_str repr self env t) as H.
  destruct (run env t (get_fan_speed int_of_str repr self)) as [r d] eqn:Hrun.
  simpl in H. destruct H as (fans & ->).
  exists fans, d. split; [done |].
  intros Hf. unfold get_fan_speed in Hrun. rewrite Hf in Hrun.
  cbn in Hrun. by injection Hrun as <- <-.
Qed.

(** X3: When no WMI namespace can be opened and the manager has no [root/WMI]
    connection, every one of the four methods is skipped and the readings
    are [("0", "0")]. *)
Theorem get_fan_speed_without_wmi (self : DAMXManager) (env : Oracle)
    (t : list Event) :
  has self "fan_speed" = true ->
  wmi_root self = None ->
  (forall t' ns, is_ok (env t' _ (WMI ns)) = false) ->
  (run env t (get_fan_speed int_of_str repr self)).1 = Ok ("0", "0").
Proof.
  intros Hf Hroot Hwmi. unfold get_fan_speed, sensor_loop.
  rewrite Hf, Hroot. cbn.
  repeat match goal with
         | |- context [env ?t' (Result Conn) (WMI ?ns)] =>
             let E := fresh "E" in
             destruct (env t' (Result Conn) (WMI ns)) eqn:E;
             [ pose proof (Hwmi t' ns) as Hc; rewrite E in Hc; discriminate Hc
             | cbn ]
         end.
  reflexivity.
Qed.
End FanReadings.

Lemma get_fan_speed_without_wmi_witness :
  has (manager_with {["fan_speed"]}) "fan_speed" = true /\
  (run (failing no_wmi) []
     (get_fan_speed (fun _ => None) (fun _ => "") (manager_with {["fan_speed"]}))).1
  = Ok ("0", "0").
Proof.
  assert (Hf : has (manager_with {["fan_speed"]}) "fan_speed" = true)
    by (vm_compute; reflexivity).
  split; [exact Hf |].
  apply (get_fan_speed_without_wmi (fun _ => None) (fun _ => "")
           (manager_with {["fan_speed"]}) (failing no_wmi) [] Hf eq_refl).
  intros t' ns. reflexivity.
Defined.

(** ** Starting the manager *)

Lemma detect_laptop_type_total (conn : option Conn) :
  always (_detect_laptop_type conn) (fun r _ => exists lt, r = Ok lt).
Proof.
  unfold _detect_laptop_type. wp_step.
  apply always_guarded; cbn beta; intros; wp; eauto.
Qed.

Lemma check_four_zone_kb_total (conn : option Conn) :
  always (_check_four_zone_kb conn) (fun r _ => exists kb, r = Ok kb).
Proof.
  unfold _check_four_zone_kb. wp_step.
  apply always_guarded; cbn beta; intros; wp; eauto.
Qed.

Lemma detect_features_subset (conn : option Conn) (lt : LaptopType) :
  always (_detect_available_features conn lt) (fun r _ =>
    exists fs : gset string,
      r = Ok fs /\ fs ⊆ detectable_features /\
      (lt = UNKNOWN -> fs ⊆ generic_features)).
Proof.
  intros env t. unfold _detect_available_features, detectable_features,
    generic_features.
  destruct conn as [c |]; cbn -[union singleton empty].
  - destruct (env t _ (WmiQuery c "Win32_Battery" [])) as [bs | e];
      cbn -[union singleton empty].
    + destruct bs as [| b bs]; cbn -[union singleton empty];
        match goal with
        | |- context [env ?t' (Result Conn) ?c'] =>
            destruct (env t' (Result Conn) c')
        end; cbn -[union singleton empty];
        destruct lt; cbn -[union singleton empty];
        eexists; (split; [reflexivity |]); (split; [set_solver |]);
        intros; try discriminate; set_solver.
    + eexists; (split; [reflexivity |]); set_solver.
  - destruct lt; cbn -[union singleton empty];
      eexists; (split; [reflexivity |]); (split; [set_solver |]);
      intros; try discriminate; set_solver.
Qed.

(** X4: [__init__] never raises, whatever WMI does, and the manager it builds
    has either both of its WMI connections or none: when the second
    connection fails, the first one is dropped too. *)
Theorem init_connections (env : Oracle) (t : list Event) :
  exists m d,
    run env t DAMXManager_init = (Ok m, d) /\
    (wmi_connection m = None <-> wmi_root m = None).
Proof.
  assert (H : always DAMXManager_init (fun r _ =>
    exists m, r = Ok m /\ (wmi_connection m = None <-> wmi_root m = None))).
  { unfold DAMXManager_init. wp.
    all: wp_call_with detect_laptop_type_total.
    all: match goal with H : exists _, _ |- _ => destruct H as (lt & ->) end.
    all: cbn [flow_of]; wp.
    all: wp_call_with check_four_zone_kb_total.
    all: match goal with H : exists _, _ |- _ => destruct H as (kb & ->) end.
    all: cbn [flow_of]; wp.
    all: wp_call_with detect_features_subset.
    all: match goal with H : exists _, _ |- _ => destruct H as (fs & -> & _) end.
    all: cbn [flow_of]; wp.
    all: eexists; (split; [reflexivity |]); by cbn. }
  specialize (H env t). destruct (run env t DAMXManager_init) as [r d].
  simpl in H. destruct H as (m & -> & Hm). eauto.
Qed.

Lemma init_features_always :
  always DAMXManager_init (fun r _ =>
    forall m, r = Ok m ->
      available_features m ⊆ detectable_features /\
      (laptop_type m = UNKNOWN -> available_features m ⊆ generic_features)).
Proof.
  unfold DAMXManager_init. wp.
  all: wp_call_any; try discriminate; wp.
  all: wp_call_any; try discriminate; wp.
  all: wp_call_with detect_features_subset.
  all: match goal with H : exists _, _ |- _ =>
         destruct H as (fs & -> & Hfs & Hgen) end.
  all: cbn [flow_of]; wp.
  all: by intros m' [= <-].
Qed.

(** X5: The feature set that [__init__] detects holds only names among seven:
    [usb_charging], [per_zone_mode] and [four_zone_mode] are never
    detected, and on a laptop of unknown family only the battery features
    and [thermal_profile] can be. *)
Theorem init_detects_known_features (env : Oracle) (t : list Event)
    (m : DAMXManager) (d : list Event) :
  run env t DAMXManager_init = (Ok m, d) ->
  available_features m ⊆ detectable_features /\
  (laptop_type m = UNKNOWN -> available_features m ⊆ generic_features).
Proof.
  intros Hrun.
  pose proof (always_run _ _ _ _ _ _ init_features_always Hrun) as H.
  simpl in H. by apply H.
Qed.

Lemma init_detects_known_features_witness :
  run predator [] DAMXManager_init
  = (Ok predator_manager, (run predator [] DAMXManager_init).2) /\
  available_features predator_manager ⊆ detectable_features.
Proof.
  assert (H : run predator [] DAMXManager_init
              = (Ok predator_manager, (run predator [] DAMXManager_init).2))
    by (vm_compute; reflexivity).
  split; [exact H |].
  exact (proj1 (init_detects_known_features predator [] predator_manager _ H)).
Defined.

(** X6: When the battery query raises, feature detection stops there: the
    detected set is empty; not even [thermal_profile], which needs no WMI,
    is in it. *)
Theorem detect_features_battery_query_fails (env : Oracle) (t : list Event)
    (conn : Conn) (lt : LaptopType) (e : Exn) :
  env t _ (WmiQuery conn "Win32_Battery" []) = Err e ->
  run env t (_detect_available_features (Some conn) lt) =
  (Ok ∅,
   [ Ev (WmiQuery conn "Win32_Battery" []) (Err e);
     Ev (Log ERROR "Error detecting features: {}" [PStr (exn_str e)]) tt ]).
Proof.
  intros Hq. unfold _detect_available_features.
  cbn -[union singleton empty]. rewrite Hq. cbn -[union singleton empty].
  by rewrite (unit_tt (env _ unit _)).
Qed.

Lemma detect_features_battery_query_fails_witness :
  run (failing no_wmi) [] (_detect_available_features (Some 0%nat) PREDATOR) =
  (Ok ∅,
   [ Ev (WmiQuery 0%nat "Win32_Battery" []) (Err no_wmi);
     Ev (Log ERROR "Error detecting features: {}" [PStr (exn_str no_wmi)]) tt ]).
Proof.
  exact (detect_features_battery_query_fails (failing no_wmi) [] 0%nat PREDATOR
           no_wmi eq_refl).
Defined.

(** X7: When WMI cannot be reached at all, [__init__] still builds a manager:
    one without connections, of unknown family, without four-zone
    keyboard, whose only feature is [thermal_profile]. *)
Theorem init_without_wmi (env : Oracle) (t : list Event) (e : Exn) :
  env (t ++ [Ev (Log INFO "** Starting DAMX-Daemon v{} (Windows) **"
                   [PStr VERSION]) tt]) _ (WMI None) = Err e ->
  (run env t DAMXManager_init).1 = Ok (manager_with {["thermal_profile"]}).
Proof.
  intros Hw. unfold DAMXManager_init. cbn -[union singleton empty].
  rewrite (unit_tt (env t unit _)), Hw. cbn -[union singleton empty].
  by rewrite (right_id_L ∅ (∪)).
Qed.

Lemma init_without_wmi_witness :
  (run (failing no_wmi) [] DAMXManager_init).1
  = Ok (manager_with {["thermal_profile"]}).
Proof.
  exact (init_without_wmi (failing no_wmi) [] no_wmi eq_refl).
Defined.

(** ** More on dispatching *)

Section MoreDispatch.
Variable int_of_str : string -> option Z.
Variable repr : PyVal -> string.

(** X8: A command whose feature is not available is answered with the
    [... is not supported on this device] response right after the opening
    log line: its parameters are not read, and neither the manager nor the
    platform is called. *)
Theorem process_command_gated (manager : DAMXManager) (command feature what : string)
    (params : PyVal) (env : Oracle) (t : list Event) :
  (command, feature, what) ∈ gated_commands ->
  has manager feature = false ->
  run env t (process_command int_of_str repr manager (PStr command) params) =
  (Ok (not_supported what), [processing (PStr command) params]).
Proof.
  intros Hin Hf. unfold gated_commands in Hin.
  repeat (apply elem_of_cons in Hin as [[= -> -> ->] | Hin]);
    try (by apply elem_of_nil in Hin);
    unfold process_command, one_param, processing; cbn; rewrite Hf; cbn;
    by rewrite (unit_tt (env t unit _)).
Qed.

(** X9: Fourteen commands can never succeed on this platform: whatever the
    feature set, the parameters and the platform, each of them is answered
    with a response whose [success] is false, and no platform call is
    made on its behalf. *)
Theorem process_command_unimplemented (manager : DAMXManager) (command : string)
    (params : PyVal) (env : Oracle) (t : list Event) :
  command ∈ unimplemented_commands ->
  exists v d,
    run env t (process_command int_of_str repr manager (PStr command) params)
    = (Ok v, d) /\
    is_refusal v /\ platform_calls d = [].
Proof.
  intros Hin. unfold unimplemented_commands in Hin.
  repeat (apply elem_of_cons in Hin as [-> | Hin]);
    try (by apply elem_of_nil in Hin);
    unfold process_command, one_param, is_refusal; cbn;
    repeat match goal with
           | |- context [has manager ?f] => destruct (has manager f); cbn
           end;
    destruct params; cbn;
    do 2 eexists; (split; [reflexivity |]); (split; [by eexists |]);
    reflexivity.
Qed.
End MoreDispatch.

Lemma process_command_gated_witness :
  has (manager_with ∅) "fan_speed" = false /\
  run (failing no_wmi) []
    (process_command (fun _ => None) (fun _ => "") (manager_with ∅)
       (PStr "set_fan_speed") (PDict [ ("cpu", PInt 50) ])) =
  (Ok (not_supported "Fan speed control"),
   [processing (PStr "set_fan_speed") (PDict [ ("cpu", PInt 50) ])]).
Proof.
  assert (Hf : has (manager_with ∅) "fan_speed" = false)
    by (vm_compute; reflexivity).
  split; [exact Hf |].
  apply (process_command_gated (fun _ => None) (fun _ => "") (manager_with ∅)
           "set_fan_speed" "fan_speed" "Fan speed control"); [| exact Hf].
  unfold gated_commands. do 6 apply list_elem_of_further. apply list_elem_of_here.
Defined.

Lemma process_command_unimplemented_witness :
  ("set_lcd_override" ∈ unimplemented_commands) /\
  exists v d,
    run (failing no_wmi) []
      (process_command (fun _ => None) (fun _ => "")
         (manager_with {["lcd_override"]}) (PStr "set_lcd_override")
         (PDict [ ("enabled", PBool true) ]))
    = (Ok v, d) /\
    is_refusal v /\ platform_calls d = [].
Proof.
  assert (Hin : "set_lcd_override" ∈ unimplemented_commands).
  { unfold unimplemented_commands. do 4 apply list_elem_of_further.
    apply list_elem_of_here. }
  split; [exact Hin |].
  exact (process_command_unimplemented (fun _ => None) (fun _ => "")
           (manager_with {["lcd_override"]}) "set_lcd_override"
           (PDict [ ("enabled", PBool true) ]) (failing no_wmi) [] Hin).
Defined.

Section DispatchEdges.
Variable int_of_str : string -> option Z.
Variable repr : PyVal -> string.

(** X10: On a manager built by [__init__], the three commands for USB charging
    and for the keyboard zones are always refused as not supported: their
    features are never detected. *)
Theorem never_available_commands (env0 env : Oracle) (t0 t dm : list Event)
    (m : DAMXManager) (command feature what : string) (params : PyVal) :
  run env0 t0 DAMXManager_init = (Ok m, dm) ->
  (command, feature, what) ∈
    [ ("set_usb_charging", "usb_charging", "USB charging control");
      ("set_per_zone_mode", "per_zone_mode", "Per-zone keyboard mode");
      ("set_four_zone_mode", "four_zone_mode", "Four-zone keyboard mode") ] ->
  run env t (process_command int_of_str repr m (PStr command) params) =
  (Ok (not_supported what), [processing (PStr command) params]).
Proof.
  intros Hinit Hin.
  pose proof (always_run _ _ _ _ _ _ init_features_always Hinit) as H.
  simpl in H. destruct (H m eq_refl) as [Hsub _].
  assert (Hf : has m feature = false).
  { unfold has. apply bool_decide_eq_false. intros Hm. apply Hsub in Hm.
    revert Hm. unfold detectable_features.
    repeat (apply elem_of_cons in Hin as [[= -> -> ->] | Hin]);
      try (by apply elem_of_nil in Hin); set_solver. }
  repeat (apply elem_of_cons in Hin as [[= -> -> ->] | Hin]);
    try (by apply elem_of_nil in Hin);
    unfold process_command, one_param, processing; cbn; rewrite Hf; cbn;
    by rewrite (unit_tt (env t unit _)).
Qed.

(** X11: A [set_thermal_profile] request that carries no [profile] entry is not
    refused: the missing name defaults to [""], which is in no table, so
    the balanced scheme is activated, and when [powercfg] succeeds the
    answer reports success with the profile [""]. *)
Theorem set_thermal_profile_without_name (manager : DAMXManager)
    (kvs : list (string * PyVal)) (env : Oracle) (t : list Event)
    (r : Completed) :
  has manager "thermal_profile" = true ->
  List.find (fun kv => String.eqb kv.1 "profile") kvs = None ->
  env (t ++ [processing (PStr "set_thermal_profile") (PDict kvs)]) _
    (activate balanced_guid) = Ok r ->
  exists d,
    run env t (process_command int_of_str repr manager
                 (PStr "set_thermal_profile") (PDict kvs)) =
    (Ok (PDict [ ("success", PBool true);
                 ("data", PDict [ ("profile", PStr "") ]);
                 ("error", PNone) ]), d) /\
    platform_calls d = [Ev (activate balanced_guid) (Ok r)].
Proof.
  intros Hf Hfind Hact.
  unfold process_command, one_param, set_thermal_profile, processing in *.
  cbn. rewrite Hf. cbn. rewrite Hfind. cbn.
  rewrite (unit_tt (env t unit _)).
  change (scheme_guid "") with balanced_guid.
  unfold activate in Hact. rewrite Hact. cbn.
  eexists. split; [reflexivity |]. by pc_simpl.
Qed.

(** X12: A [set_thermal_profile] request whose [profile] is not a string is
    answered with a failure: the exception raised on the name, before any
    platform call, is turned into the response. *)
Theorem set_thermal_profile_bad_name (manager : DAMXManager)
    (kvs : list (string * PyVal)) (v : PyVal) (env : Oracle)
    (t : list Event) :
  has manager "thermal_profile" = true ->
  List.find (fun kv => String.eqb kv.1 "profile") kvs = Some ("profile", v) ->
  (forall s, v <> PStr s) ->
  exists response d,
    run env t (process_command int_of_str repr manager
                 (PStr "set_thermal_profile") (PDict kvs)) = (Ok response, d) /\
    is_refusal response /\ platform_calls d = [].
Proof.
  intros Hf Hfind Hv.
  unfold process_command, one_param, set_thermal_profile.
  cbn. rewrite Hf. cbn. rewrite Hfind. cbn.
  destruct v; try (by exfalso; eapply Hv); cbn;
    do 2 eexists; (split; [reflexivity |]); (split; [by eexists |]);
    reflexivity.
Qed.
End DispatchEdges.

Lemma never_available_commands_witness :
  run predator [] DAMXManager_init
  = (Ok predator_manager, (run predator [] DAMXManager_init).2) /\
  run (failing no_wmi) []
    (process_command (fun _ => None) (fun _ => "") predator_manager
       (PStr "set_usb_charging") (PDict [ ("level", PInt 1) ])) =
  (Ok (not_supported "USB charging control"),
   [processing (PStr "set_usb_charging") (PDict [ ("level", PInt 1) ])]).
Proof.
  assert (H : run predator [] DAMXManager_init
              = (Ok predator_manager, (run predator [] DAMXManager_init).2))
    by (vm_compute; reflexivity).
  split; [exact H |].
  apply (never_available_commands (fun _ => None) (fun _ => "") predator
           (failing no_wmi) [] [] _ predator_manager
           "set_usb_charging" "usb_charging" "USB charging control" _ H).
  apply list_elem_of_here.
Defined.

Lemma set_thermal_profile_without_name_witness :
  has (manager_with {["thermal_profile"]}) "thermal_profile" = true /\
  exists d,
    run on_battery []
      (process_command (fun _ => None) (fun _ => "")
         (manager_with {["thermal_profile"]})
         (PStr "set_thermal_profile") (PDict [])) =
    (Ok (PDict [ ("success", PBool true);
                 ("data", PDict [ ("profile", PStr "") ]);
                 ("error", PNone) ]), d).
Proof.
  assert (Hf : has (manager_with {["thermal_profile"]}) "thermal_profile" = true)
    by (vm_compute; reflexivity).
  split; [exact Hf |].
  destruct (set_thermal_profile_without_name (fun _ => None) (fun _ => "")
              (manager_with {["thermal_profile"]}) [] on_battery []
              _ Hf eq_refl eq_refl) as (d & Hrun & _).
  exists d. exact Hrun.
Defined.

Lemma set_thermal_profile_bad_name_witness :
  has (manager_with {["thermal_profile"]}) "thermal_profile" = true /\
  exists response d,
    run on_battery []
      (process_command (fun _ => None) (fun _ => "")
         (manager_with {["thermal_profile"]})
         (PStr "set_thermal_profile") (PDict [ ("profile", PInt 5) ]))
    = (Ok response, d) /\
    is_refusal response /\ platform_calls d = [].
Proof.
  assert (Hf : has (manager_with {["thermal_profile"]}) "thermal_profile" = true)
    by (vm_compute; reflexivity).
  split; [exact Hf |].
  apply (set_thermal_profile_bad_name (fun _ => None) (fun _ => "")
           (manager_with {["thermal_profile"]}) [ ("profile", PInt 5) ] (PInt 5)
           on_battery [] Hf eq_refl).
  intros s. discriminate.
Defined.

(** ** More on setting the fan speed *)

Section FanControl.
Variable int_of_str : string -> option Z.

(** X13: The range check of [set_fan_speed] is made before the [try]: a [cpu]
    that is not a number raises out of the call, before any platform
    call; and since the check stops at the first failing comparison, an
    integer [cpu] outside [0,100] is rejected with [False] whatever [gpu]
    is, a number or not. *)
Theorem set_fan_speed_validation (self : DAMXManager) (cpu gpu : PyVal)
    (env : Oracle) (t : list Event) :
  has self "fan_speed" = true ->
  (as_num cpu = None ->
   exists e, run env t (set_fan_speed int_of_str self cpu gpu) = (Err e, [])) /\
  (forall c, cpu = PInt c -> ~ (0 <= c <= 100) ->
   exists d,
     run env t (set_fan_speed int_of_str self cpu gpu) = (Ok false, d) /\
     platform_calls d = []).
Proof.
  intros Hf. unfold set_fan_speed, valid_speeds, and_, lit_le, le_lit.
  rewrite Hf. split.
  - intros Hn. cbn. rewrite Hn. cbn. by eexists.
  - intros c -> Hc. cbn.
    destruct (0 <=? c) eqn:E1; cbn; [| by eexists].
    destruct (c <=? 100) eqn:E2; cbn; [| by eexists].
    exfalso. apply Hc. lia.
Qed.

(** X14: With integer speeds [set_fan_speed] never raises: whatever the three
    methods and the fallback meet is answered as [True] or [False]. *)
Theorem set_fan_speed_total (self : DAMXManager) (cpu gpu : Z)
    (env : Oracle) (t : list Event) :
  exists b d,
    run env t (set_fan_speed int_of_str self (PInt cpu) (PInt gpu)) = (Ok b, d).
Proof.
  assert (H : always (set_fan_speed int_of_str self (PInt cpu) (PInt gpu))
                (fun r _ => exists b, r = Ok b)).
  { unfold set_fan_speed. wp_step. wp_step; [wp; eauto |].
    wp_step. rewrite valid_speeds_int. wp_step.
    wp_step; [wp; eauto |].
    apply always_guarded; cbn beta; intros; wp; eauto. }
  specialize (H env t). destruct (run env t _) as [r d].
  simpl in H. destruct H as (b & ->). eauto.
Qed.

(** X15: When the vendor controller accepts the call, [set_fan_speed] returns
    [True] at once: the per-fan classes, the ACPI method, PowerShell and
    the thermal-profile fallback are not touched. *)
Theorem set_fan_speed_controller (self : DAMXManager) (cpu gpu : Z)
    (env : Oracle) (t : list Event) (acer_wmi : Conn) (controller : Obj)
    (others : list Obj) :
  has self "fan_speed" = true ->
  0 <= cpu <= 100 -> 0 <= gpu <= 100 ->
  let e1 := Ev (WMI (Some "root/WMI")) (Ok acer_wmi) in
  let e2 := Ev (WmiQuery acer_wmi "AcerGaming_FanSpeedController" [])
               (Ok (controller :: others)) in
  let e3 := Ev (HasAttr controller "SetFanSpeed") (Ok true) in
  let e4 := Ev (Invoke controller "SetFanSpeed" [PInt cpu; PInt gpu]) (Ok tt) in
  env t _ (WMI (Some "root/WMI")) = Ok acer_wmi ->
  env (t ++ [e1]) _ (WmiQuery acer_wmi "AcerGaming_FanSpeedController" [])
  = Ok (controller :: others) ->
  env (t ++ [e1; e2]) _ (HasAttr controller "SetFanSpeed") = Ok true ->
  env (t ++ [e1; e2; e3]) _ (Invoke controller "SetFanSpeed" [PInt cpu; PInt gpu])
  = Ok tt ->
  run env t (set_fan_speed int_of_str self (PInt cpu) (PInt gpu)) =
  (Ok true,
   [ e1; e2; e3; e4;
     Ev (Log INFO "Set fan speeds via Acer WMI: CPU={}%, GPU={}%"
           [PInt cpu; PInt gpu]) tt ]).
Proof.
  intros Hf Hcpu Hgpu e1 e2 e3 e4 H1 H2 H3 H4.
  unfold set_fan_speed. rewrite Hf, run_def. cbn [negb].
  unfold bind at 1. rewrite valid_speeds_int. cbn [pbind].
  replace ((0 <=? cpu) && (cpu <=? 100) && ((0 <=? gpu) && (gpu <=? 100)))
    with true by (symmetry; rewrite !andb_true_iff, !Z.leb_le; lia).
  cbn [negb]. rewrite run_try_except, run_bind.
  unfold fan_method1. rewrite run_try_except, run_bind.
  cbn [attempt run]. rewrite H1. cbn [flow_of].
  rewrite run_bind, run_try_except, run_bind.
  cbn [attempt run]. fold e1. rewrite H2.
  cbn [for_]. rewrite run_bind, run_bind. cbn [attempt run].
  repeat rewrite <- app_assoc. cbn [app]. fold e2. rewrite H3.
  rewrite run_bind. cbn [attempt run].
  repeat rewrite <- app_assoc. cbn [app]. fold e3. rewrite H4.
  cbn. by rewrite (unit_tt (env _ unit _)).
Qed.

(** X16: Only the controller counts as success in the first method.  On a
    machine that has no controller but whose per-fan classes accept
    [SetSpeed], both fans are set and the call goes on to the other
    methods; when those fail and the speeds are neither both at least 80
    nor both 0, [set_fan_speed] answers [False] although it has changed
    both fans. *)
Theorem set_fan_speed_reports_failure_after_setting (self : DAMXManager)
    (cpu gpu : Z) (env : Oracle) (t : list Event) (acer_wmi : Conn)
    (cpu_fan gpu_fan : Obj) (result : Completed) :
  has self "fan_speed" = true ->
  0 <= cpu <= 100 -> 0 <= gpu <= 100 ->
  (80 <=? cpu) && (80 <=? gpu) = false ->
  (cpu =? 0) && (gpu =? 0) = false ->
  (forall t', env t' _ (WMI (Some "root/WMI")) = Ok acer_wmi) ->
  (forall t', env t' _ (WmiQuery acer_wmi "AcerGaming_FanSpeedController" [])
              = Ok []) ->
  (forall t', env t' _ (WmiQuery acer_wmi "AcerGaming_CpuFanSpeed" [])
              = Ok [cpu_fan]) ->
  (forall t', env t' _ (WmiQuery acer_wmi "AcerGaming_GpuFanSpeed" [])
              = Ok [gpu_fan]) ->
  (forall t' o, env t' _ (HasAttr o "SetSpeed") = Ok true) ->
  (forall t' o args, env t' _ (Invoke o "SetSpeed" args) = Ok tt) ->
  (forall t', env t' _ (WmiQuery acer_wmi "AcerACMCEvent" []) = Ok []) ->
  (forall t' argv, env t' _ (SubprocessRun argv false) = Ok result) ->
  returncode result <> 0 ->
  exists d,
    run env t (set_fan_speed int_of_str self (PInt cpu) (PInt gpu))
    = (Ok false, d) /\
    Ev (Invoke cpu_fan "SetSpeed" [PInt cpu]) (Ok tt) ∈ d /\
    Ev (Invoke gpu_fan "SetSpeed" [PInt gpu]) (Ok tt) ∈ d.
Proof.
  intros Hf Hcpu Hgpu Hhigh Hzero Hwmi Hctl Hcf Hgf Hattr Hinv Hacmc Hps Hrc.
  assert (Hrc' : (returncode result =? 0) = false) by by apply Z.eqb_neq.
  unfold set_fan_speed. rewrite Hf, run_def. cbn [negb].
  unfold bind at 1. rewrite valid_speeds_int. cbn [pbind].
  replace ((0 <=? cpu) && (cpu <=? 100) && ((0 <=? gpu) && (gpu <=? 100)))
    with true by (symmetry; rewrite !andb_true_iff, !Z.leb_le; lia).
  cbn [negb].
  unfold fan_method1, fan_method2, fan_method3, fan_fallback, and_, ge_lit,
    eq_lit.
  cbn -[ps_cmd Z.leb Z.eqb has].
  repeat (first [ rewrite Hwmi | rewrite Hctl | rewrite Hcf | rewrite Hgf
                | rewrite Hattr | rewrite Hinv | rewrite Hacmc | rewrite Hps
                | rewrite Hrc' ];
          cbn -[ps_cmd Z.leb Z.eqb has]).
  destruct (has self "thermal_profile");
    cbn -[ps_cmd Z.leb Z.eqb has];
    rewrite ?Hzero;
    try (destruct (80 <=? cpu); simpl in Hhigh; rewrite ?Hhigh, ?Hzero);
    cbn -[ps_cmd Z.leb Z.eqb has];
    eexists; (split; [reflexivity |]);
    split; repeat first [ apply list_elem_of_here | apply list_elem_of_further ].
Qed.
End FanControl.

Lemma set_fan_speed_validation_witness :
  has (manager_with {["fan_speed"]}) "fan_speed" = true /\
  (exists e,
     run (failing no_wmi) []
       (set_fan_speed (fun _ => None) (manager_with {["fan_speed"]})
          (PStr "fast") (PInt 50)) = (Err e, [])) /\
  (exists d,
     run (failing no_wmi) []
       (set_fan_speed (fun _ => None) (manager_with {["fan_speed"]})
          (PInt (-5)) (PStr "fast")) = (Ok false, d) /\
     platform_calls d = []).
Proof.
  assert (Hf : has (manager_with {["fan_speed"]}) "fan_speed" = true)
    by (vm_compute; reflexivity).
  split; [exact Hf |]. split.
  - exact (proj1 (set_fan_speed_validation (fun _ => None)
                    (manager_with {["fan_speed"]}) (PStr "fast") (PInt 50)
                    (failing no_wmi) [] Hf) eq_refl).
  - apply (proj2 (set_fan_speed_validation (fun _ => None)
                    (manager_with {["fan_speed"]}) (PInt (-5)) (PStr "fast")
                    (failing no_wmi) [] Hf) (-5) eq_refl).
    lia.
Defined.

Lemma set_fan_speed_controller_witness :
  has (manager_with {["fan_speed"]}) "fan_speed" = true /\
  (run compliant []
     (set_fan_speed (fun _ => None) (manager_with {["fan_speed"]})
        (PInt 60) (PInt 40))).1 = Ok true.
Proof.
  assert (Hf : has (manager_with {["fan_speed"]}) "fan_speed" = true)
    by (vm_compute; reflexivity).
  split; [exact Hf |].
  rewrite (set_fan_speed_controller (fun _ => None)
             (manager_with {["fan_speed"]}) 60 40 compliant [] 0%nat 1%nat []
             Hf); [reflexivity | lia | lia | reflexivity ..].
Defined.

Lemma set_fan_speed_reports_failure_after_setting_witness :
  has (manager_with {["fan_speed"]}) "fan_speed" = true /\
  exists d,
    run per_fan_only []
      (set_fan_speed (fun _ => None) (manager_with {["fan_speed"]})
         (PInt 50) (PInt 50)) = (Ok false, d) /\
    Ev (Invoke 1%nat "SetSpeed" [PInt 50]) (Ok tt) ∈ d /\
    Ev (Invoke 2%nat "SetSpeed" [PInt 50]) (Ok tt) ∈ d.
Proof.
  assert (Hf : has (manager_with {["fan_speed"]}) "fan_speed" = true)
    by (vm_compute; reflexivity).
  split; [exact Hf |].
  apply (set_fan_speed_reports_failure_after_setting (fun _ => None)
           (manager_with {["fan_speed"]}) 50 50 per_fan_only [] 0%nat
           1%nat 2%nat {| returncode := 1; stdout := "" |} Hf);
    first [ lia | reflexivity | intros; reflexivity | discriminate ].
Defined.

(** ** More on serving a connection *)

Lemma always_try_finally {S R A} (body : M S R A) (fin : M S R unit) (s : S)
    (Q : S * Flow R A -> list Event -> Prop) :
  always (body s) (fun x d =>
    always (fin x.1) (fun y d' =>
      Q (y.1, match y.2 with
              | Normal _ => x.2
              | Return r => Return r
              | Raise e => Raise e
              end) (d ++ d'))) ->
  always (try_finally body fin s) Q.
Proof.
  intros H. apply always_pbind. eapply always_mono; [exact H |].
  intros [s' fl] d Hfin. simpl in Hfin. apply always_pbind.
  eapply always_mono; [exact Hfin |].
  intros [s'' fl'] d' HQ. simpl in HQ.
  destruct fl'; apply always_ret; by rewrite app_nil_r.
Qed.

Section MoreChannel.
Variable int_of_str : string -> option Z.
Variable repr : PyVal -> string.
Variable json_loads : string -> Result PyVal.
Variable json_dumps : PyVal -> string.
Variable decode_utf8 : bytes -> Result string.

Abbreviation serve := (serve_request int_of_str repr json_loads json_dumps decode_utf8).
Abbreviation client := (handle_client int_of_str repr json_loads json_dumps decode_utf8).
Abbreviation frame_of := (framed json_dumps).

(** X17: Whatever happens on the connection, [handle_client] does not raise,
    and the last thing it does before it returns is to close the handle
    (a failure of that close is swallowed). *)
Theorem handle_client_closes (fuel : nat) (pipe_handle : Handle)
    (self : DaemonServer) (env : Oracle) (t : list Event) :
  exists out d x,
    run env t (client fuel pipe_handle self) = (out, d ++ [Ev (CloseHandle pipe_handle) x]) /\
    forall e, out.2 <> Raise e.
Proof.
  assert (H : always (client fuel pipe_handle self) (fun y d =>
    (exists d' x, d = d' ++ [Ev (CloseHandle pipe_handle) x]) /\
    forall e, y.2 <> Raise e)).
  { unfold handle_client. apply always_try_finally.
    eapply always_mono with (P := fun x _ => forall e, x.2 <> Raise e).
    - apply always_guarded; cbn beta; intros; try done.
      wp; done.
    - intros [s' fl] d Hfl. cbn [fst snd] in *. wp.
      + split; [by eauto | by destruct fl].
      + split; [| by destruct fl].
        eexists d, _. by rewrite app_nil_r. }
  specialize (H env t). destruct (run env t _) as [out d].
  simpl in H. destruct H as [(d' & x & ->) Hout]. eauto.
Qed.

(** X18: When the peer is gone (the read of the length fails, comes back
    short, or raises the broken-pipe error), the handler stops without a
    word: nothing is logged and nothing is written; the handle is closed
    and the handler returns. *)
Theorem peer_disconnect_is_silent (fuel : nat) (pipe_handle : Handle)
    (self : DaemonServer) (env : Oracle) (t : list Event) :
  running self = true ->
  stream_ended (env t _ (ReadFile pipe_handle 4)) ->
  let e1 := Ev (ReadFile pipe_handle 4) (env t _ (ReadFile pipe_handle 4)) in
  run env t (client (S fuel) pipe_handle self) =
  ((self, Normal tt),
   [e1; Ev (CloseHandle pipe_handle) (env (t ++ [e1]) _ (CloseHandle pipe_handle))]).
Proof.
  intros Hrun Hend e1. subst e1.
  unfold handle_client, serve_request, loop_body, try_finally, try_except,
    bind, attempt.
  cbn -[Nat.ltb]. rewrite Hrun. cbn -[Nat.ltb].
  destruct (env t _ (ReadFile pipe_handle 4)) as [[result data] | e];
    cbn -[Nat.ltb] in *.
  - assert (Hb : negb (result =? 0) || (length data <? 4)%nat = true).
    { apply orb_true_iff. destruct Hend as [Hr | Hl].
      - left. by apply negb_true_iff, Z.eqb_neq.
      - right. by apply Nat.ltb_lt. }
    rewrite Hb. cbn.
    by destruct (env _ (Result unit) (CloseHandle pipe_handle)).
  - destruct e as [w msg | | |]; try done. subst w. cbn.
    by destruct (env _ (Result unit) (CloseHandle pipe_handle)).
Qed.

(** X19: A payload that is not valid UTF-8, or that is JSON but not an object,
    is not taken for malformed JSON: the exception it causes (the
    [UnicodeDecodeError] of the decoding, or the [AttributeError] of
    [request.get]) is logged with its traceback and answered with
    [{"success": false, "error": <its text>}], and the loop goes on, also
    when writing that answer fails (that failure is swallowed). *)
Theorem bad_request_is_answered (env : Oracle) (t : list Event)
    (self : DaemonServer) (pipe_handle : Handle)
    (length_data data : bytes) (msg : string) :
  let e1 := Ev (ReadFile pipe_handle 4) (Ok (0, length_data)) in
  let e2 := Ev (ReadFile pipe_handle (from_bytes_little length_data))
               (Ok (0, data)) in
  env t _ (ReadFile pipe_handle 4) = Ok (0, length_data) ->
  (4 <= length length_data)%nat ->
  env (t ++ [e1]) _ (ReadFile pipe_handle (from_bytes_little length_data))
  = Ok (0, data) ->
  ((exists cls, decode_utf8 data = Err (OtherException cls msg)) \/
   exists text v,
     decode_utf8 data = Ok text /\ json_loads text = Ok v /\
     (forall kvs, v <> PDict kvs) /\
     msg = "'" +:+ type_name v +:+ "' object has no attribute 'get'") ->
  Z.of_nat (length (encode_utf8 (json_dumps (failure msg)))) < 2 ^ 32 ->
  exists tb x,
    run env t (loop_body (R := unit) (serve pipe_handle) self) =
    ((self, Normal Continue),
     [ e1; e2;
       Ev (Log ERROR "Error processing request: {}" [PStr msg]) tt;
       Ev FormatExc tb;
       Ev (Log ERROR "{}" [PStr tb]) tt;
       Ev (WriteFile pipe_handle (frame_of (failure msg))) x ]).
Proof.
  intros e1 e2 Hr1 Hlen Hr2 Hbad Hsmall.
  assert (Hcmp : (length length_data <? 4)%nat = false) by by apply Nat.ltb_ge.
  unfold loop_body, serve_request, try_except, bind, attempt, of_result.
  cbn -[from_bytes_little Nat.ltb frame framed process_command].
  rewrite Hr1. cbn -[from_bytes_little Nat.ltb frame framed process_command].
  rewrite Hcmp. cbn -[from_bytes_little Nat.ltb frame framed process_command].
  fold e1. rewrite Hr2.
  cbn -[from_bytes_little Nat.ltb frame framed process_command].
  fold e2. unfold failure in *.
  destruct Hbad as [(cls & Hdec) | (text & v & Hdec & Hjson & Hv & ->)];
    rewrite Hdec;
    cbn -[from_bytes_little Nat.ltb frame framed process_command];
    [| rewrite Hjson;
       cbn -[from_bytes_little Nat.ltb frame framed process_command];
       destruct v; try (by exfalso; eapply Hv);
       cbn -[from_bytes_little Nat.ltb frame framed process_command] in * ];
    rewrite frame_small by exact Hsmall;
    cbn -[from_bytes_little Nat.ltb frame framed process_command];
    repeat match goal with
           | |- context [env ?h unit ?c] => rewrite (unit_tt (env h unit c))
           end;
    match goal with
    | |- context [Ev (WriteFile pipe_handle ?b) (env ?h ?X ?c)] =>
        destruct (env h X c)
    end;
    cbn; do 2 eexists; reflexivity.
Qed.
End MoreChannel.

Lemma peer_disconnect_is_silent_witness :
  running a_server = true /\
  stream_ended (compliant [] _ (ReadFile 0%nat 4)) /\
  exists e1 x,
    run compliant []
      (handle_client (fun _ => None) (fun _ => "") loads_examples dumps
         utf8_decode 1 0%nat a_server)
    = ((a_server, Normal tt), [e1; Ev (CloseHandle 0%nat) x]).
Proof.
  assert (Hrun : running a_server = true) by reflexivity.
  assert (Hend : stream_ended (compliant [] _ (ReadFile 0%nat 4)))
    by (vm_compute; auto).
  split; [exact Hrun |]. split; [exact Hend |].
  do 2 eexists.
  exact (peer_disconnect_is_silent (fun _ => None) (fun _ => "")
           loads_examples dumps utf8_decode 0 0%nat a_server compliant []
           Hrun Hend).
Defined.

Lemma bad_request_is_answered_witness :
  exists tb x,
    let msg :=
      "'utf-8' codec can't decode byte 0xff in position 0: invalid start byte"
    in
    run garbled []
      (loop_body (R := unit)
         (serve_request (fun _ => None) (fun _ => "") loads_examples dumps
            utf8_decode 0%nat) a_server)
    = ((a_server, Normal Continue),
       [ Ev (ReadFile 0%nat 4) (Ok (0, le4 1));
         Ev (ReadFile 0%nat 1) (Ok (0, [Byte.xff]));
         Ev (Log ERROR "Error processing request: {}" [PStr msg]) tt;
         Ev FormatExc tb;
         Ev (Log ERROR "{}" [PStr tb]) tt;
         Ev (WriteFile 0%nat (framed dumps (failure msg))) x ]).
Proof.
  apply (bad_request_is_answered (fun _ => None) (fun _ => "") loads_examples
           dumps utf8_decode garbled [] a_server 0%nat (le4 1) [Byte.xff]
           "'utf-8' codec can't decode byte 0xff in position 0: invalid start byte").
  - reflexivity.
  - simpl. lia.
  - reflexivity.
  - left. eexists. vm_compute. reflexivity.
  - vm_compute. reflexivity.
Defined.

(** ** Stopping the server *)

Lemma for_close_handles {R} (hs : list Handle) (env : Oracle)
    (t : list Event) (s : DaemonServer) :
  exists rs,
    length rs = length hs /\
    run env t
      (for_ (R := R) hs (fun pipe_handle =>
         try_except (attempt (CloseHandle pipe_handle)) (fun _ => ret tt) ;;
         ret Continue) s)
    = ((s, Normal tt), closings hs rs).
Proof.
  revert t. induction hs as [| h hs IH]; intros t.
  - by exists [].
  - cbn [for_]. rewrite !run_bind, run_try_except.
    unfold attempt at 1. cbn [run].
    set (r := env t (Result unit) (CloseHandle h)).
    destruct (IH (t ++ [Ev (CloseHandle h) r])) as (rs & Hlen & Hrun).
    exists (r :: rs). split; [simpl; by rewrite Hlen |].
    destruct r; cbn [run ret app]; rewrite ?app_nil_r; cbn [app];
      by rewrite Hrun.
Qed.

(** X20: [stop] never raises: it logs, clears [running], and then closes the
    handle of every client in the order they connected, going on to the
    next one when a close fails; nothing else is done and the list of
    clients is kept. *)
Theorem stop_closes_every_client (self : DaemonServer) (env : Oracle)
    (t : list Event) :
  exists rs,
    length rs = length (clients self) /\
    run env t (method stop self) =
    (({| manager := manager self; running := false;
         clients := clients self |}, Ok tt),
     Ev (Log INFO "Stopping server..." []) tt :: closings (clients self) rs).
Proof.
  unfold stop. rewrite run_method, run_bind. cbn [log perform run].
  rewrite (unit_tt (env t unit _)). cbn [app flow_of].
  rewrite run_bind. cbn [get run]. rewrite run_bind. cbn [put run].
  rewrite !app_nil_r.
  edestruct (for_close_handles (R := unit) (clients self) env) as (rs & Hlen & ->).
  exists rs. split; [done |]. done.
Qed.

Lemma stop_run (self : DaemonServer) (env : Oracle) (t : list Event) :
  exists d,
    run env t (method stop self) =
    (({| manager := manager self; running := false;
         clients := clients self |}, Ok tt), d).
Proof.
  unfold stop. rewrite run_method, run_bind. cbn [log perform run].
  cbn [app flow_of].
  rewrite run_bind. cbn [get run]. rewrite run_bind. cbn [put run].
  rewrite !app_nil_r.
  edestruct (for_close_handles (R := unit) (clients self) env) as (rs & Hlen & ->).
  by eexists.
Qed.

Section Stopped.
Variable int_of_str : string -> option Z.
Variable repr : PyVal -> string.
Variable json_loads : string -> Result PyVal.
Variable json_dumps : PyVal -> string.
Variable decode_utf8 : bytes -> Result string.

(** X21: Once the server is stopped, a handler that comes to test the loop
    condition reads no further request: it only closes its handle (which
    [stop] has closed already when the client was registered) and
    returns. *)
Theorem handler_after_stop (self : DaemonServer) (env env' : Oracle)
    (t t' : list Event) (fuel : nat) (pipe_handle : Handle) :
  let stopped := (run env t (method stop self)).1.1 in
  run env' t'
    (handle_client int_of_str repr json_loads json_dumps decode_utf8 fuel
       pipe_handle stopped)
  = ((stopped, Normal tt),
     [Ev (CloseHandle pipe_handle) (env' t' _ (CloseHandle pipe_handle))]).
Proof.
  destruct (stop_run self env t) as (d & ->). cbn [fst].
  unfold handle_client, try_finally, try_except, bind, attempt.
  destruct fuel; cbn;
    by destruct (env' t' (Result unit) (CloseHandle pipe_handle)).
Qed.
End Stopped.

(** ** Framing *)

Lemma byte_of_Z_to_N (z : Z) :
  Z.of_N (Byte.to_N (byte_of_Z z)) = z mod 256.
Proof.
  unfold byte_of_Z.
  assert (Hm : 0 <= z mod 256 < 256) by (apply Z.mod_pos_bound; lia).
  destruct (Byte.of_N (Z.to_N (z mod 256))) as [b |] eqn:E.
  - apply Byte.to_of_N in E. simpl. rewrite E. lia.
  - apply Byte.of_N_None_iff in E. lia.
Qed.

(** The length prefix round-trips: the four bytes written for a length
    below [2 ^ 32] are read back as that length. *)
Lemma from_bytes_little_le4 (n : Z) :
  0 <= n < 2 ^ 32 -> from_bytes_little (le4 n) = n.
Proof.
  intros Hn. unfold le4. cbn [from_bytes_little].
  rewrite !byte_of_Z_to_N.
  change (2 ^ 8) with 256. change (2 ^ 16) with (256 * 256).
  change (2 ^ 24) with (256 * 256 * 256).
  change (2 ^ 32) with (256 * 256 * 256 * 256) in Hn.
  rewrite <- !Z.div_div by lia.
  pose proof (Z.div_mod n 256 ltac:(lia)) as H0.
  pose proof (Z.div_mod (n / 256) 256 ltac:(lia)) as H1.
  pose proof (Z.div_mod (n / 256 / 256) 256 ltac:(lia)) as H2.
  assert (H3 : (n / 256 / 256 / 256) mod 256 = n / 256 / 256 / 256).
  { apply Z.mod_small. split.
    - repeat apply Z.div_pos; lia.
    - repeat (apply Z.div_lt_upper_bound; [lia |]). lia. }
  lia.
Qed.

Section Framing.
Variable json_dumps : PyVal -> string.

(** X22: What the daemon writes, its own reader reads back: for a response
    whose encoding is shorter than [2 ^ 32] bytes, [frame] does not raise,
    the first four bytes of the frame decode (as the reader of
    [handle_client] decodes them) to the length of the rest, and the rest
    is the encoded response.  A longer encoding makes [frame] raise. *)
Theorem frame_round_trip {S R} (response : PyVal) (s : S) :
  let payload := encode_utf8 (json_dumps response) in
  if Z.of_nat (length payload) <? 2 ^ 32 then
    exists out,
      frame (R := R) json_dumps response s = PRet (s, Normal out) /\
      from_bytes_little (take 4 out) = Z.of_nat (length (drop 4 out)) /\
      drop 4 out = payload
  else
    exists e, frame (R := R) json_dumps response s = PRet (s, Raise e).
Proof.
  intros payload. unfold frame, to_bytes4. fold payload.
  assert (H0 : (0 <=? Z.of_nat (length payload)) = true) by (apply Z.leb_le; lia).
  rewrite H0. cbn [andb].
  destruct (Z.of_nat (length payload) <? 2 ^ 32) eqn:E.
  - apply Z.ltb_lt in E. eexists. split; [reflexivity |].
    change (take 4 (le4 ?n ++ ?p)) with (le4 n).
    change (drop 4 (le4 ?n ++ ?p)) with p.
    split; [| done]. apply from_bytes_little_le4. lia.
  - by eexists.
Qed.
End Framing.

(** ** More on the power monitor *)

(** X23: The WMI reading of the power state looks at the first battery only:
    with no battery the machine counts as on AC power; otherwise the
    answer is whether the status of the first battery is set and is not 1
    (discharging), and the other batteries are never consulted. *)
Theorem is_ac_connected_first_battery (env : Oracle) (t : list Event)
    (c : Conn) (batteries : list Obj) :
  let e1 := Ev ImportWmi (Ok tt) in
  let e2 := Ev (WMI None) (Ok c) in
  let e3 := Ev (WmiQuery c "Win32_Battery" []) (Ok batteries) in
  env t _ ImportWmi = Ok tt ->
  env (t ++ [e1]) _ (WMI None) = Ok c ->
  env (t ++ [e1; e2]) _ (WmiQuery c "Win32_Battery" []) = Ok batteries ->
  match batteries with
  | [] => run env t _is_ac_connected = (Ok true, [e1; e2; e3])
  | battery :: _ =>
      forall status,
        env (t ++ [e1; e2; e3]) _ (GetAttr battery "BatteryStatus") = Ok status ->
        run env t _is_ac_connected =
        (Ok (truthy status && negb (eq_lit status 1)),
         [e1; e2; e3; Ev (GetAttr battery "BatteryStatus") (Ok status)])
  end.
Proof.
  intros e1 e2 e3 H1 H2 H3.
  unfold _is_ac_connected, def_, try_except, bind, attempt.
  destruct batteries as [| battery rest].
  - cbn. rewrite H1. cbn. fold e1. rewrite H2. cbn. fold e2.
    rewrite <- !(app_assoc t [e1] [e2]). cbn [app]. rewrite H3. by cbn.
  - intros status H4.
    cbn. rewrite H1. cbn. fold e1. rewrite H2. cbn. fold e2.
    rewrite <- !(app_assoc t [e1] [e2]). cbn [app]. rewrite H3. cbn. fold e3.
    rewrite <- !(app_assoc t [e1; e2] [e3]). cbn [app]. rewrite H4. cbn.
    by destruct (truthy status && negb (eq_lit status 1)).
Qed.

Lemma is_ac_connected_first_battery_witness :
  run on_battery [] _is_ac_connected =
  (Ok false,
   [ Ev ImportWmi (Ok tt); Ev (WMI None) (Ok 0%nat);
     Ev (WmiQuery 0%nat "Win32_Battery" []) (Ok [1%nat]);
     Ev (GetAttr 1%nat "BatteryStatus") (Ok (PInt 1)) ]).
Proof.
  exact (is_ac_connected_first_battery on_battery [] 0%nat [1%nat]
           eq_refl eq_refl eq_refl (PInt 1) eq_refl).
Defined.

(** X24: When [wmi] cannot be imported the answer is PowerShell's: on AC power
    unless the output, stripped of white space, is exactly [1], so that an
    empty output counts as AC power; when PowerShell itself fails the
    failure is logged and the answer is "on battery". *)
Theorem is_ac_connected_powershell (env : Oracle) (t : list Event)
    (msg : string) :
  let e1 := Ev ImportWmi (Err (ImportError msg)) in
  let ps := SubprocessRun
              ["powershell"; "-Command";
               "(Get-WmiObject Win32_Battery).BatteryStatus"] true in
  env t _ ImportWmi = Err (ImportError msg) ->
  run env t _is_ac_connected =
  match env (t ++ [e1]) _ ps with
  | Ok result =>
      (Ok (negb (String.eqb (strip (stdout result)) "1")),
       [e1; Ev ps (Ok result)])
  | Err e =>
      (Ok false,
       [e1; Ev ps (Err e);
        Ev (Log ERROR "PowerShell check failed: {}" [PStr (exn_str e)]) tt])
  end.
Proof.
  intros e1 ps H1.
  unfold _is_ac_connected, _check_using_powershell, def_, try_except, bind,
    attempt, call.
  cbn. rewrite H1. cbn. fold e1. fold ps.
  destruct (env (t ++ [e1]) (Result Completed) ps) as [result | e]; cbn.
  - by destruct (negb _).
  - by rewrite (unit_tt (env _ unit _)).
Qed.

Lemma is_ac_connected_powershell_witness :
  run (failing (ImportError "No module named 'wmi'")) [] _is_ac_connected =
  (Ok false,
   [ Ev ImportWmi (Err (ImportError "No module named 'wmi'"));
     Ev (SubprocessRun
           ["powershell"; "-Command";
            "(Get-WmiObject Win32_Battery).BatteryStatus"] true)
        (Err (ImportError "No module named 'wmi'"));
     Ev (Log ERROR "PowerShell check failed: {}"
           [PStr (exn_str (ImportError "No module named 'wmi'"))]) tt ]) /\
  (* discharging: the output is [1] and a line end *)
  run (powershell_only ("1" +:+ utf8 [13; 10])) [] _is_ac_connected =
  (Ok false,
   [ Ev ImportWmi (Err (ImportError "No module named 'wmi'"));
     Ev (SubprocessRun
           ["powershell"; "-Command";
            "(Get-WmiObject Win32_Battery).BatteryStatus"] true)
        (Ok {| returncode := 0; stdout := "1" +:+ utf8 [13; 10] |}) ]) /\
  (* charging: the output is [2] between spaces *)
  run (powershell_only " 2 ") [] _is_ac_connected =
  (Ok true,
   [ Ev ImportWmi (Err (ImportError "No module named 'wmi'"));
     Ev (SubprocessRun
           ["powershell"; "-Command";
            "(Get-WmiObject Win32_Battery).BatteryStatus"] true)
        (Ok {| returncode := 0; stdout := " 2 " |}) ]).
Proof.
  split; [| split].
  - exact (is_ac_connected_powershell
             (failing (ImportError "No module named 'wmi'")) []
             "No module named 'wmi'" eq_refl).
  - exact (is_ac_connected_powershell
             (powershell_only ("1" +:+ utf8 [13; 10])) []
             "No module named 'wmi'" eq_refl).
  - exact (is_ac_connected_powershell (powershell_only " 2 ") []
             "No module named 'wmi'" eq_refl).
Defined.

Ltac no_error_record :=
  let e := fresh "e" in
  let He := fresh "He" in
  let Herr := fresh "Herr" in
  intros e He Herr; exfalso;
  repeat (apply elem_of_cons in He as [-> | He]; [discriminate Herr |]);
  by apply elem_of_nil in He.

Ltac answered :=
  do 2 eexists; (split; [reflexivity |]); first [done | no_error_record].

Ltac on_failure e :=
  destruct e; cbn;
  repeat match goal with
         | |- context [Ev ?c (?o ?h (Result Completed) ?c)] =>
             destruct (o h (Result Completed) c); cbn
         end;
  try match goal with
      | |- context [negb ?b] => destruct (negb b); cbn
      end;
  answered.

(** X25: Reading the power state never raises, and whenever it logs an error
    (a failing WMI call, a failing PowerShell) its answer is "on battery":
    a failure to read is not told apart from running on battery. *)
Theorem is_ac_connected_error_means_battery (env : Oracle) (t : list Event) :
  exists b d,
    run env t _is_ac_connected = (Ok b, d) /\
    (forall e, e ∈ d -> is_error_record e = true -> b = false).
Proof.
  unfold _is_ac_connected, _check_using_powershell, def_, try_except, bind,
    attempt, call.
  cbn.
  destruct (env t _ ImportWmi) as [[] | e1] eqn:H1; cbn; [| on_failure e1].
  destruct (env _ (Result Conn) (WMI None)) as [c | e2]; cbn;
    [| on_failure e2].
  destruct (env _ (Result (list Obj)) (WmiQuery c "Win32_Battery" []))
    as [[| battery rest] | e3]; cbn; [answered | | on_failure e3].
  destruct (env _ (Result PyVal) (GetAttr battery "BatteryStatus"))
    as [status | e4]; cbn; [| on_failure e4].
  destruct (truthy status && negb (eq_lit status 1)); cbn; answered.
Qed.

Section MoreMonitor.
Context {T : Type} `{ManagerLike T}.
Variable mgr : T.

(** X26: On AC power, and on battery power with a profile that is already
    battery-friendly, the handler changes nothing: it reads the current
    profile and the choices, logs the switch, and calls no setter. *)
Theorem power_change_keeps_profile (features : gset string) (env : Oracle)
    (t dg dc : list Event) (current : string) (available : list string)
    (is_plugged_in : bool) :
  mgr_available_features mgr = Some features ->
  "thermal_profile" ∈ features ->
  run env t (mgr_get_thermal_profile mgr) = (Ok current, dg) ->
  run env (t ++ dg) (mgr_get_thermal_profile_choices mgr) = (Ok available, dc) ->
  is_plugged_in = true \/ current ∈ battery_friendly ->
  run env t (_handle_power_change mgr is_plugged_in) =
  (Ok tt,
   dg ++ dc ++
   [Ev (Log INFO (if is_plugged_in then "Switched to AC power"
                  else "Switched to battery power") []) tt]).
Proof.
  intros Hfeat Hth Hget Hch Hkeep.
  unfold _handle_power_change. rewrite Hfeat.
  rewrite (bool_decide_eq_true_2 _ Hth). cbn [negb].
  rewrite run_def, run_bind, run_call, Hget. cbn [flow_of].
  rewrite run_bind, run_call, Hch.
  destruct is_plugged_in.
  - rewrite run_bind. cbn [log perform run].
    rewrite (unit_tt (env _ unit _)). cbn. by rewrite ?app_nil_r, <- ?app_assoc.
  - destruct Hkeep as [? | Hcur]; [done |].
    rewrite (bool_decide_eq_true_2 _ Hcur). cbn [negb].
    rewrite run_bind. cbn [log perform run].
    rewrite (unit_tt (env _ unit _)). cbn. by rewrite ?app_nil_r, <- ?app_assoc.
Qed.


(** X27: A poll that returns has created and started one new timer, the last
    thing it did, and has stored it; [stop_monitoring] then cancels that
    timer and nothing else.  The timer runs for the interval of the
    detector. *)
Theorem stop_cancels_scheduled_check (env : Oracle) (t d : list Event)
    (self self' : PowerSourceDetector) :
  run env t (method (check_power_source mgr) self) = ((self', Ok tt), d) ->
  exists id d0,
    d = d0 ++ [ Ev (TimerNew (check_interval self)) id;
                Ev (TimerStart id) (Ok tt) ] /\
    timer self' = Some id /\
    forall env' t',
      run env' t' (method stop_monitoring self') =
      ((self', Ok tt), [Ev (TimerCancel id) tt]).
Proof.
  intros Hrun.
  assert (Hs : forall (s s' : PowerSourceDetector) t0 d0,
    run env t0 (method schedule_next s) = ((s', Ok tt), d0) ->
    exists id,
      d0 = [ Ev (TimerNew (check_interval s)) id; Ev (TimerStart id) (Ok tt) ] /\
      timer s' = Some id /\ check_interval s' = check_interval s).
  { intros s s' t0 d0. unfold schedule_next. cbn.
    destruct (env _ (Result unit) (TimerStart _)) as [[] | e]; cbn;
      intros [= <- <-]; eauto. }
  assert (Hc : forall id, timer self' = Some id ->
    forall env' t',
      run env' t' (method stop_monitoring self') =
      ((self', Ok tt), [Ev (TimerCancel id) tt])).
  { intros id Hid env' t'. unfold stop_monitoring. cbn. rewrite Hid. cbn.
    by rewrite (unit_tt (env' _ unit _)). }
  revert Hrun. unfold check_power_source.
  rewrite run_method, run_bind, run_call.
  pose proof (is_ac_connected_total env t) as Hr.
  destruct (run env t _is_ac_connected) as [r dr]. simpl in Hr.
  destruct Hr as (b & ->). cbn [flow_of].
  rewrite run_bind. cbn [get run]. rewrite app_nil_r. cbn [app].
  rewrite run_bind.
  destruct (differs b (current_source self)).
  - rewrite run_bind. cbn [put run]. rewrite app_nil_r. cbn [app].
    rewrite run_call.
    destruct (run env (t ++ dr) (_handle_power_change mgr b))
      as [[[] | e] dh]; cbn [flow_of]; [| discriminate].
    pose proof (Hs (observe b self) self' ((t ++ dr) ++ dh)) as Hs'.
    rewrite run_method in Hs'.
    destruct (run env ((t ++ dr) ++ dh) (schedule_next _)) as [[s1 fl1] dt].
    intros [= -> Hfl <-].
    destruct (Hs' dt) as (id & -> & Hid & _).
    { by destruct fl1 as [[] | [] | ?]. }
    exists id, (dr ++ dh). split; [by rewrite app_assoc |]. eauto.
  - cbn [ret run]. rewrite app_nil_r. cbn [app].
    pose proof (Hs self self' (t ++ dr)) as Hs'.
    rewrite run_method in Hs'.
    destruct (run env (t ++ dr) (schedule_next self)) as [[s1 fl1] dt].
    intros [= -> Hfl <-].
    destruct (Hs' dt) as (id & -> & Hid & _).
    { by destruct fl1 as [[] | [] | ?]. }
    exists id, dr. eauto.
Qed.
End MoreMonitor.

Lemma power_change_keeps_profile_witness :
  run on_battery [] (_handle_power_change (manager_with {["thermal_profile"]}) true) =
  (Ok tt,
   [ Ev active_scheme
       (Ok {| returncode := 0;
              stdout := "Power Scheme GUID: 8c5e7fda-e8bf-4a96-9a85-a6e23a8c635c  (High performance)" |});
     Ev (Log INFO "Switched to AC power" []) tt ]).
Proof.
  set (m := manager_with {["thermal_profile"]}).
  assert (Hth : "thermal_profile" ∈ ({["thermal_profile"]} : gset string)).
  { apply (bool_decide_unpack _). vm_compute. exact I. }
  assert (Hget : run on_battery [] (mgr_get_thermal_profile m)
                 = (Ok "performance", (run on_battery [] (mgr_get_thermal_profile m)).2))
    by (vm_compute; reflexivity).
  assert (Hch : run on_battery ([] ++ (run on_battery [] (mgr_get_thermal_profile m)).2)
                  (mgr_get_thermal_profile_choices m)
                = (Ok thermal_profiles, []))
    by (vm_compute; reflexivity).
  pose proof (power_change_keeps_profile m {["thermal_profile"]} on_battery []
                _ [] "performance" thermal_profiles true eq_refl Hth Hget Hch
                (or_introl eq_refl)) as W.
  vm_compute in W. vm_compute. exact W.
Defined.

Lemma stop_cancels_scheduled_check_witness :
  exists d,
    run on_battery []
      (method (check_power_source (manager_with {["thermal_profile"]}))
         fresh_detector)
    = (({| current_source := Some false; check_interval := 5;
           timer := Some 7%nat |}, Ok tt), d) /\
    run on_battery d
      (method stop_monitoring
         {| current_source := Some false; check_interval := 5;
            timer := Some 7%nat |})
    = (({| current_source := Some false; check_interval := 5;
           timer := Some 7%nat |}, Ok tt), [Ev (TimerCancel 7%nat) tt]).
Proof.
  set (self' := {| current_source := Some false; check_interval := 5;
                   timer := Some 7%nat |}).
  set (p := method (check_power_source (manager_with {["thermal_profile"]}))
              fresh_detector).
  assert (Hrun : run on_battery [] p = ((self', Ok tt), (run on_battery [] p).2))
    by (vm_compute; reflexivity).
  exists (run on_battery [] p).2. split; [exact Hrun |].
  destruct (stop_cancels_scheduled_check (manager_with {["thermal_profile"]})
              on_battery [] _ fresh_detector self' Hrun)
    as (id & d0 & _ & Hid & Hstop).
  injection Hid as <-. apply Hstop.
Defined.

(** ** More on [get_all_settings] *)

Lemma dict_set_keys_inv (d : list (string * PyVal)) (key : string) (v : PyVal)
    (k : string) :
  k ∈ dict_keys (dict_set d key v) -> k = key \/ k ∈ dict_keys d.
Proof.
  unfold dict_keys. induction d as [| [k' w] d IH]; simpl.
  - intros [-> | []%elem_of_nil]%elem_of_cons. by left.
  - destruct (String.eqb k' key) eqn:E; simpl.
    + by right.
    + intros [-> | Hk]%elem_of_cons.
      * right. left.
      * destruct (IH Hk) as [-> | ?]; [by left | right; by right].
Qed.

Lemma dict_set_NoDup (d : list (string * PyVal)) (key : string) (v : PyVal) :
  NoDup (dict_keys d) -> NoDup (dict_keys (dict_set d key v)).
Proof.
  unfold dict_keys. induction d as [| [k' w] d IH]; simpl.
  - intros _. apply NoDup_singleton.
  - intros [Hk Hd]%NoDup_cons. destruct (String.eqb k' key) eqn:E; simpl.
    + by apply NoDup_cons.
    + apply NoDup_cons. split; [| by apply IH].
      intros [-> | Hin]%dict_set_keys_inv; [| done].
      by rewrite String.eqb_refl in E.
Qed.

Section SettingsKeys.
Variable int_of_str : string -> option Z.
Variable repr : PyVal -> string.
Variable self : DAMXManager.

Lemma tidy_set (s : list (string * PyVal)) (f : string) (v : PyVal) :
  tidy self s ->
  f ∈ base_keys \/ (f ∈ reported_features /\ has self f = true) ->
  tidy self (dict_set s f v).
Proof.
  intros [Hnd Hk] Hf. split; [by apply dict_set_NoDup |].
  intros k [-> | Hin]%dict_set_keys_inv; auto.
Qed.

Lemma always_report_tidy {R} (f : string) (v : PyVal)
    (s : list (string * PyVal)) :
  tidy self s -> f ∈ reported_features ->
  always ((if has self f then setitem (R := R) f v else ret tt) s)
    (fun y _ => exists s', y = (s', Normal tt) /\ tidy self s').
Proof.
  intros Ht Hf. destruct (has self f) eqn:E; apply always_ret.
  - eexists. split; [reflexivity |]. apply tidy_set; auto.
  - eauto.
Qed.

Ltac tidy_block :=
  apply always_bind; eapply always_mono;
    [apply (always_report_tidy (R := PyVal)); [eassumption | repeat constructor] |];
  cbn beta; intros [? ?] ? (? & [= -> ->] & ?); cbn [fst snd].

(** X28: The settings map has no key twice, and no key beyond the seven that
    are always reported and the names of the enabled features: a feature
    that is not enabled has no entry, except [thermal_profile], which is
    always there. *)
Theorem get_all_settings_keys (env : Oracle) (t : list Event) :
  exists settings d,
    run env t (get_all_settings int_of_str repr self) = (Ok (PDict settings), d) /\
    NoDup (dict_keys settings) /\
    forall k, k ∈ dict_keys settings ->
      k ∈ base_keys \/ (k ∈ reported_features /\ has self k = true).
Proof.
  assert (H : always (get_all_settings int_of_str repr self) (fun r _ =>
    exists settings, r = Ok (PDict settings) /\ tidy self settings)).
  { unfold get_all_settings. wp_step. wp_step.
    wp_call_with get_driver_version_total.
    match goal with H : exists _, _ |- _ => destruct H as (dv & ->) end.
    cbn [flow_of]. wp_step. wp_step.
    match goal with
    | |- always (bind _ _ ?s0) _ => assert (Ht0 : tidy self s0)
    end.
    { split.
      - apply (bool_decide_unpack _). vm_compute. exact I.
      - intros k Hk. left. unfold dict_keys in Hk. cbn in Hk.
        unfold base_keys.
        repeat (apply elem_of_cons in Hk as [-> | Hk]; [repeat constructor |]).
        by apply elem_of_nil in Hk. }
    apply always_bind.
    eapply always_mono with (P := fun y _ => exists s', y = (s', Normal tt) /\ tidy self s').
    { destruct (has self "thermal_profile") eqn:Hf.
      - wp_step. wp_call_with get_thermal_profile_total.
        match goal with H : exists _, _ |- _ => destruct H as (cur & ->) end.
        cbn [flow_of]. apply always_ret.
        eexists. split; [reflexivity |]. apply tidy_set; [done |].
        left. unfold base_keys. repeat constructor.
      - apply always_ret.
        eexists. split; [reflexivity |]. apply tidy_set; [done |].
        left. unfold base_keys. repeat constructor. }
    cbn beta; intros [? ?] ? (? & [= -> ->] & ?); cbn [fst snd].
    do 4 tidy_block.
    apply always_bind.
    eapply always_mono with (P := fun y _ => exists s', y = (s', Normal tt) /\ tidy self s').
    { destruct (has self "fan_speed") eqn:Hf.
      - wp_step. wp_call_with (get_fan_speed_total int_of_str repr).
        match goal with H : exists _, _ |- _ => destruct H as (fans & ->) end.
        cbn [flow_of]. apply always_ret.
        eexists. split; [reflexivity |]. apply tidy_set; [done |].
        right. split; [repeat constructor | done].
      - apply always_ret. eauto. }
    cbn beta; intros [? ?] ? (? & [= -> ->] & ?); cbn [fst snd].
    do 4 tidy_block.
    wp. eauto. }
  specialize (H env t). destruct (run env t _) as [r d]. simpl in H.
  destruct H as (settings & -> & Hnd & Hk). eauto.
Qed.
End SettingsKeys.
